(** * GeoDashboard: the data-to-artifact pipeline of [app.py]

    A shallow embedding of the dashboard script.  The script is a linear
    program over three kinds of things:

    - pandas tables (the frame returned by the World Bank client and the
      operations [reset_index], [dropna], column assignment, [rename],
      boolean-mask selection, [unique], [pivot]);
    - a scratch directory [frame/] that is purged at the start of a run
      and then receives one PNG per year, one GIF and one MP4 per metric;
    - calls into libraries and into the presentation host (the World Bank
      client, plotly, kaleido, moviepy, streamlit), any of which may raise.

    Tables are embedded as lists of typed columns, the file system as a
    finite map from paths to contents, and the script as a computation in
    a state-and-exception monad whose state is the file system together
    with the ordered log of the calls that reached the outside world.
    The libraries are a record of functions ([World]); every theorem is
    stated for an arbitrary [World].

    Lines 16-74 and 213-218 of the script (page configuration, style
    sheet, header and footer markup) are page chrome and are not part of
    the embedding. *)

From Stdlib Require Import ZArith Lia String Ascii List Floats.
From stdpp Require Import base gmap strings list sorting pretty.

Open Scope string_scope.
Open Scope Z_scope.
Open Scope list_scope.

(** ** Python values *)

(** The outcome of a Python expression: a value, or a raised exception.
    Exceptions are instances of [Exception]; only [str(e)] is observed
    (by the handler on line 211), so an exception is its message. *)
Inductive result (A : Type) : Type :=
| Ok (a : A)
| Raise (e : string).
Arguments Ok {A} a.
Arguments Raise {A} e.

Definition bytes := list Byte.byte.

(** [datetime.datetime(year, month, day)], at the resolution the script
    uses. *)
Record datetime := mk_datetime { dt_year : Z; dt_month : Z; dt_day : Z }.

#[global] Instance datetime_eq_dec : EqDecision datetime.
Proof. solve_decision. Defined.


(** [str.lower] restricted to what [endswith] on ASCII suffixes can see:
    ASCII capitals are folded, every other byte is kept. *)
Definition ascii_lower (c : ascii) : ascii :=
  let n := nat_of_ascii c in
  if ((65 <=? n)%nat && (n <=? 90)%nat)%bool then ascii_of_nat (n + 32) else c.

Fixpoint lower (s : string) : string :=
  match s with
  | EmptyString => EmptyString
  | String c s' => String (ascii_lower c) (lower s')
  end.

(** [s.endswith(suffix)] *)
Definition endswith (s suffix : string) : bool :=
  let n := String.length s in
  let k := String.length suffix in
  ((k <=? n)%nat && String.eqb (substring (n - k) k s) suffix)%bool.

(** [s.endswith((a, b, ...))] with a tuple of suffixes *)
Definition endswith_any (s : string) (suffixes : list string) : bool :=
  existsb (endswith s) suffixes.

(** [xs[-1]] *)
Definition list_last {A} (xs : list A) : result A :=
  match last xs with
  | Some x => Ok x
  | None => Raise "list index out of range"
  end.

(** A [dict] literal, in insertion order. *)
Fixpoint dict_get {A} (d : list (string * A)) (k : string) : option A :=
  match d with
  | [] => None
  | (k', v) :: d' => if String.eqb k' k then Some v else dict_get d' k
  end.

Definition dict_keys {A} (d : list (string * A)) : list string := map fst d.

(** ** pandas *)

(** A column with its dtype.  Only a float column can hold a missing
    value, and the missing value is NaN: the client turns a value it did
    not get into NaN, and the country names and dates it indexes by are
    never missing. *)
Inductive Series :=
| StrSeries (xs : list string)
| DateSeries (xs : list datetime)
| FloatSeries (xs : list float)
| IntSeries (xs : list Z).

(** A frame after [reset_index]: labelled columns, left to right, over a
    default row index. *)
Abbreviation DataFrame := (list (string * Series)).

Definition series_len (s : Series) : nat :=
  match s with
  | StrSeries xs => length xs
  | DateSeries xs => length xs
  | FloatSeries xs => length xs
  | IntSeries xs => length xs
  end.

Definition nrows (df : DataFrame) : nat :=
  match df with
  | [] => O
  | (_, s) :: _ => series_len s
  end.

(** [df.empty] *)
Definition df_empty (df : DataFrame) : bool := Nat.eqb (nrows df) 0.

Definition columns (df : DataFrame) : list string := map fst df.

(** [s.notna()] *)
Definition notna (s : Series) : list bool :=
  match s with
  | StrSeries xs => map (fun _ => true) xs
  | DateSeries xs => map (fun _ => true) xs
  | FloatSeries xs => map (fun v => negb (PrimFloat.is_nan v)) xs
  | IntSeries xs => map (fun _ => true) xs
  end.

Fixpoint take_mask {A} (mask : list bool) (xs : list A) : list A :=
  match mask, xs with
  | b :: mask', x :: xs' =>
      if b then x :: take_mask mask' xs' else take_mask mask' xs'
  | _, _ => []
  end.

(** [s[mask]] *)
Definition series_mask (mask : list bool) (s : Series) : Series :=
  match s with
  | StrSeries xs => StrSeries (take_mask mask xs)
  | DateSeries xs => DateSeries (take_mask mask xs)
  | FloatSeries xs => FloatSeries (take_mask mask xs)
  | IntSeries xs => IntSeries (take_mask mask xs)
  end.

(** [df[mask]] *)
Definition df_mask (mask : list bool) (df : DataFrame) : DataFrame :=
  map (fun c => (fst c, series_mask mask (snd c))) df.

Fixpoint mask_and (a b : list bool) : list bool :=
  match a, b with
  | x :: a', y :: b' => (x && y)%bool :: mask_and a' b'
  | _, _ => []
  end.

(** The rows with no missing value in any column. *)
Definition complete_rows (df : DataFrame) : list bool :=
  foldr (fun c m => mask_and (notna (snd c)) m) (repeat true (nrows df)) df.

(** [df.dropna()] *)
Definition dropna (df : DataFrame) : DataFrame := df_mask (complete_rows df) df.

(** [df[label]]; a missing label raises [KeyError(label)]. *)
Fixpoint df_getitem (df : DataFrame) (label : string) : result Series :=
  match df with
  | [] => Raise ("'" +:+ label +:+ "'")
  | (l, s) :: df' => if String.eqb l label then Ok s else df_getitem df' label
  end.

(** [df[label] = s]: an existing column is replaced in place, a new one
    is appended on the right. *)
Fixpoint df_setitem (df : DataFrame) (label : string) (s : Series) : DataFrame :=
  match df with
  | [] => [(label, s)]
  | (l, s0) :: df' =>
      if String.eqb l label then (l, s) :: df'
      else (l, s0) :: df_setitem df' label s
  end.

(** [df.rename(columns=mapping, inplace=True)] *)
Definition df_rename (mapping : list (string * string)) (df : DataFrame) : DataFrame :=
  map (fun c => (default (fst c) (dict_get mapping (fst c)), snd c)) df.

(** [s.dt.year] *)
Definition series_dt_year (s : Series) : result Series :=
  match s with
  | DateSeries xs => Ok (IntSeries (map dt_year xs))
  | _ => Raise "Can only use .dt accessor with datetimelike values"
  end.

(** [s == yr] for an integer [yr] *)
Definition series_eq_int (s : Series) (yr : Z) : list bool :=
  match s with
  | IntSeries xs => map (fun x => Z.eqb x yr) xs
  | StrSeries xs => map (fun _ => false) xs
  | DateSeries xs => map (fun _ => false) xs
  | FloatSeries xs => map (fun _ => false) xs
  end.

(** Distinct values in order of first appearance, as [Series.unique]. *)
Fixpoint unique_from (seen xs : list Z) : list Z :=
  match xs with
  | [] => []
  | x :: xs' =>
      if bool_decide (x ∈ seen) then unique_from seen xs'
      else x :: unique_from (x :: seen) xs'
  end.

Definition unique (xs : list Z) : list Z := unique_from [] xs.

(** [sorted(...)] on integers *)
Definition sorted (xs : list Z) : list Z := merge_sort Z.le xs.

(** [s.astype(str)].  The script applies it to the integer column
    assigned on line 124; the text of a float or of a timestamp is left
    to pandas. *)
Definition series_astype_str (s : Series) : result (list string) :=
  match s with
  | IntSeries xs => Ok (map pretty xs)
  | StrSeries xs => Ok xs
  | _ => Raise "astype(str) on a float or datetime column"
  end.

(** The table built by [df.pivot]: one row per index value, one column
    per column label, both in sorted order; NaN where no row supplies the
    cell. *)
Record PivotTable := mk_PivotTable {
  pt_index : list Z;
  pt_columns : list string;
  pt_values : list (list float)
}.

Definition str_le (a b : string) : Prop := String.leb a b = true.

#[global] Instance str_le_dec (a b : string) : Decision (str_le a b) :=
  decide (String.leb a b = true).

Fixpoint unique_str_from (seen xs : list string) : list string :=
  match xs with
  | [] => []
  | x :: xs' =>
      if bool_decide (x ∈ seen) then unique_str_from seen xs'
      else x :: unique_str_from (x :: seen) xs'
  end.

Fixpoint pivot_cell (rows : list ((Z * string) * float)) (key : Z * string) : float :=
  match rows with
  | [] => PrimFloat.nan
  | (k, v) :: rows' => if bool_decide (k = key) then v else pivot_cell rows' key
  end.

(** [df.pivot(index=i, columns=c, values=v)].  The script pivots the
    integer column of line 124 against the string column of line 125 with
    a float column of values; two rows with the same (index, column) pair
    make pandas raise [ValueError]. *)
Definition pivot (df : DataFrame) (index cols values : string) : result PivotTable :=
  match df_getitem df index, df_getitem df cols, df_getitem df values with
  | Raise e, _, _ => Raise e
  | _, Raise e, _ => Raise e
  | _, _, Raise e => Raise e
  | Ok (IntSeries ys), Ok (StrSeries cs), Ok (FloatSeries vs) =>
      let keys := zip ys cs in
      if bool_decide (NoDup keys) then
        let idx := sorted (unique ys) in
        let labels := merge_sort str_le (unique_str_from [] cs) in
        Ok {| pt_index := idx;
              pt_columns := labels;
              pt_values :=
                map (fun y => map (fun c => pivot_cell (zip keys vs) (y, c)) labels) idx |}
      else Raise "Index contains duplicate entries, cannot reshape"
  | _, _, _ => Raise "pivot on columns of another dtype"
  end.

(** ** The World Bank client *)

(** A frame as a library returns it: index levels and value columns. *)
Record IndexedFrame := mk_IndexedFrame {
  index_levels : DataFrame;
  value_columns : DataFrame
}.

(** One record of the provider's response: country name, observation
    date (already converted, [convert_date=True]) and value, NaN when the
    provider has none. *)
Record Observation := mk_Observation {
  obs_country : string;
  obs_date : datetime;
  obs_value : float
}.

(** [len(s.unique())] *)
Definition nunique {A} `{EqDecision A} (xs : list A) : nat := length (remove_dups xs).

(** How the client indexes the series it builds from the records of a
    response (wbdata 0.3.0, [get_series] with [keep_levels=False]): by
    date when all records are of one country, else by country when all
    records are of one date, else by (country, date). *)
Inductive ResponseIndex := by_date | by_country | by_country_date.

Definition response_index (obs : list Observation) : ResponseIndex :=
  if Nat.eqb (nunique (map obs_country obs)) 1 then by_date
  else if Nat.eqb (nunique (map obs_date obs)) 1 then by_country
  else by_country_date.

(** The frame with one column named after the indicator over the given
    index. *)
Definition frame_indexed (index : ResponseIndex) (name : string)
    (obs : list Observation) : IndexedFrame :=
  {| index_levels :=
       match index with
       | by_date => [("date", DateSeries (map obs_date obs))]
       | by_country => [("country", StrSeries (map obs_country obs))]
       | by_country_date => [("country", StrSeries (map obs_country obs));
                             ("date", DateSeries (map obs_date obs))]
       end;
     value_columns := [(name, FloatSeries (map obs_value obs))] |}.

(** [wbdata.get_dataframe(indicators={code: name}, ..., convert_date=True)]
    on the records of a response.  The conversion of the dates reads the
    first record, so an empty response raises [IndexError]; the level
    that has a single value is dropped from the index. *)
Definition frame_of_observations (name : string) (obs : list Observation)
    : result IndexedFrame :=
  match obs with
  | [] => Raise "list index out of range"
  | _ :: _ => Ok (frame_indexed (response_index obs) name obs)
  end.

(** [frame.reset_index()]: the index levels become the leftmost columns.
    pandas inserts the levels from the last to the first and refuses a
    level whose name is already a column, so the error names the last
    such level. *)
Definition reset_index (f : IndexedFrame) : result DataFrame :=
  match last (filter (fun l => l ∈ columns (value_columns f))
                (columns (index_levels f))) with
  | None => Ok (index_levels f ++ value_columns f)
  | Some l => Raise ("cannot insert " +:+ l +:+ ", already exists")
  end.

(** An entry of [wbdata.get_country()]. *)
Record Country := mk_Country { country_id : string; country_name : string }.

(** ** plotly *)

(** [px.colors.sequential.Viridis] and [px.colors.sequential.Plasma] *)
Inductive colorscale := Viridis | Plasma.

(** The colour bar of a figure: its title and, when they have been set,
    the positions and the texts of its ticks; plotly chooses the ticks
    itself when they are not set. *)
Record Colorbar := mk_Colorbar {
  cb_title : string;
  cb_tickvals : option (list float);
  cb_ticktext : option (list string)
}.

(** A choropleth figure: the arguments of [px.choropleth] and what
    [update_geos] and [update_layout] set afterwards.  A figure built
    with [color=col] has a colour bar, which plotly express titles with
    the name of that column. *)
Record Figure := mk_Figure {
  data_frame : DataFrame;
  locations : string;
  locationmode : string;
  color : string;
  hover_name : option string;
  animation_frame : option (list string);
  color_continuous_scale : colorscale;
  title : string;
  projection_type : option string;
  showcoastlines : option bool;
  showcountries : option bool;
  coloraxis_colorbar : Colorbar;
  template : option string
}.

Definition px_choropleth (df : DataFrame) (locs mode col : string)
    (hover : option string) (anim : option (list string))
    (scale : colorscale) (ttl : string) : Figure :=
  {| data_frame := df; locations := locs; locationmode := mode; color := col;
     hover_name := hover; animation_frame := anim;
     color_continuous_scale := scale; title := ttl;
     projection_type := None; showcoastlines := None; showcountries := None;
     coloraxis_colorbar := {| cb_title := col; cb_tickvals := None;
                              cb_ticktext := None |};
     template := None |}.

Definition update_geos (fig : Figure) (proj : string)
    (coast countries : option bool) : Figure :=
  {| data_frame := data_frame fig; locations := locations fig;
     locationmode := locationmode fig; color := color fig;
     hover_name := hover_name fig; animation_frame := animation_frame fig;
     color_continuous_scale := color_continuous_scale fig; title := title fig;
     projection_type := Some proj;
     showcoastlines := from_option Some (showcoastlines fig) coast;
     showcountries := from_option Some (showcountries fig) countries;
     coloraxis_colorbar := coloraxis_colorbar fig; template := template fig |}.

(** [coloraxis_colorbar=dict(...)] sets the keys it is given and keeps
    the others. *)
Definition update_colorbar (old new : Colorbar) : Colorbar :=
  {| cb_title := cb_title new;
     cb_tickvals := from_option Some (cb_tickvals old) (cb_tickvals new);
     cb_ticktext := from_option Some (cb_ticktext old) (cb_ticktext new) |}.

Definition update_layout (fig : Figure) (cb : option Colorbar) (tpl : string) : Figure :=
  {| data_frame := data_frame fig; locations := locations fig;
     locationmode := locationmode fig; color := color fig;
     hover_name := hover_name fig; animation_frame := animation_frame fig;
     color_continuous_scale := color_continuous_scale fig; title := title fig;
     projection_type := projection_type fig;
     showcoastlines := showcoastlines fig; showcountries := showcountries fig;
     coloraxis_colorbar :=
       from_option (update_colorbar (coloraxis_colorbar fig)) (coloraxis_colorbar fig) cb;
     template := Some tpl |}.

(** ** Files *)

(** [os.path.join(directory, name)] for a [name] without separator, which
    is what every file name of the script is. *)
Abbreviation path := (string * string)%type.

Definition os_path_join (directory name : string) : path := (directory, name).

(** The files: a finite map from a directory and an entry name to the
    contents of a regular file.  Directories are implicit, so
    [os.makedirs(FRAME_DIR, exist_ok=True)] (line 103) changes nothing
    and has no counterpart here. *)
Abbreviation FileSystem := (gmap (string * string) bytes).

(** [os.listdir(directory)] *)
Definition os_listdir (directory : string) (fs : FileSystem) : list string :=
  map snd (filter (fun p => fst p = directory) (map fst (map_to_list fs))).

(** ** What the script does to the outside world *)

(** One constructor per call of the script that leaves the process.  A
    request to the provider is logged when it is made; a display call, a
    rendered image, a clip and an encoded file are logged when the call
    returns. *)
Inductive Event :=
| ev_get_dataframe (indicators : string * string) (country : list string)
    (data_date : datetime * datetime)
| ev_warning (body : string)
| ev_error (body : string)
| ev_subheader (body : string)
| ev_plotly_chart (fig : Figure)
| ev_expander (label : string)
| ev_line_chart (data : PivotTable)
| ev_write_image (fig : Figure) (file : path)
| ev_ImageSequenceClip (sequence : list path) (fps : Z)
| ev_write_gif (file : path) (fps : Z)
| ev_write_videofile (file : path) (fps : Z) (codec : string) (audio : bool)
| ev_columns (spec : Z)
| ev_download_button (label : string) (data : bytes) (file_name mime : string)
| ev_dataframe (data : DataFrame).

(** The libraries and the host, as far as the script depends on them.
    Each field answers one call: with a value, or with the message of the
    exception it raises. *)
Record World := mk_World {
  (** [wbdata.get_country()] *)
  wbdata_get_country : result (list Country);
  (** [wbdata.get_dataframe(indicators={code: name}, country=...,
      data_date=..., convert_date=True)] *)
  wbdata_get_dataframe :
    string * string -> list string -> datetime * datetime -> result IndexedFrame;
  (** whether [px.choropleth] rejects its arguments *)
  px_choropleth_raises : Figure -> option string;
  (** [s.quantile(qs)] *)
  series_quantile : Series -> list float -> result (list float);
  (** [x.round(2)] *)
  float_round2 : float -> float;
  (** [f"{v:.2e}"] *)
  format_2e : float -> string;
  (** whether a streamlit display call raises *)
  st_raises : Event -> option string;
  (** the PNG that [pio.write_image(fig, file, format="png")] writes *)
  pio_write_image : Figure -> result bytes;
  (** whether [ImageSequenceClip(files, fps=fps)] rejects the images *)
  ImageSequenceClip_raises : list bytes -> Z -> option string;
  (** the GIF that [clip.write_gif(file, fps=fps)] writes *)
  write_gif : list bytes -> Z -> result bytes;
  (** the video that [clip.write_videofile(file, fps=fps, codec=...,
      audio=...)] writes *)
  write_videofile : list bytes -> Z -> string -> bool -> result bytes
}.

(** ** The script monad: file system, event log, exceptions *)

(** Pure Python expressions that may raise are sequenced in [result]. *)
Definition rbind {A B} (r : result A) (k : A -> result B) : result B :=
  match r with
  | Ok a => k a
  | Raise e => Raise e
  end.

Declare Scope result_scope.
Delimit Scope result_scope with result.
Notation "x <- r ;; k" := (rbind r (fun x => k))
  (at level 100, r at next level, right associativity) : result_scope.

Definition check (verdict : option string) : result unit :=
  match verdict with
  | Some e => Raise e
  | None => Ok tt
  end.

(** The outcome of a statement: its value or exception, the file system
    it leaves, and the events it caused, oldest first. *)
Record Outcome (A : Type) := mk_Outcome {
  value : result A;
  files : FileSystem;
  trace : list Event
}.
Arguments mk_Outcome {A} value files trace.
Arguments value {A} o.
Arguments files {A} o.
Arguments trace {A} o.

Definition M (A : Type) : Type := FileSystem -> Outcome A.

Definition ret {A} (a : A) : M A :=
  fun fs => mk_Outcome (Ok a) fs [].

Definition raise {A} (e : string) : M A :=
  fun fs => mk_Outcome (Raise e) fs [].

(** Sequencing: an exception ends the sequence; the files written and
    the events caused before it stay. *)
Definition bind {A B} (m : M A) (k : A -> M B) : M B :=
  fun fs =>
    let o := m fs in
    match value o with
    | Ok a => let o' := k a (files o) in
              mk_Outcome (value o') (files o') (trace o ++ trace o')
    | Raise e => mk_Outcome (Raise e) (files o) (trace o)
    end.

Declare Scope script_scope.
Delimit Scope script_scope with script.
Notation "x <- m ;; k" := (bind m (fun x => k))
  (at level 100, m at next level, right associativity) : script_scope.
Notation "m ;; k" := (bind m (fun _ => k))
  (at level 100, k at level 200, right associativity) : script_scope.
Open Scope script_scope.

(** A pure expression as a statement. *)
Definition lift {A} (r : result A) : M A :=
  fun fs => mk_Outcome r fs [].

(** A call that returns and leaves the event [ev]; [st.warning] and
    [st.error], the host's own reporting channel, are such calls. *)
Definition emit (ev : Event) : M unit :=
  fun fs => mk_Outcome (Ok tt) fs [ev].

(** [try: body / except Exception as e: handler(e)] *)
Definition try_except (body : M unit) (handler : string -> M unit) : M unit :=
  fun fs =>
    let o := body fs in
    match value o with
    | Ok _ => o
    | Raise e => let o' := handler e (files o) in
                 mk_Outcome (value o') (files o') (trace o ++ trace o')
    end.

(** [for x in xs: body(x)] *)
Fixpoint for_each {A} (xs : list A) (body : A -> M unit) : M unit :=
  match xs with
  | [] => ret tt
  | x :: xs' => body x ;; for_each xs' body
  end.

(** [open(file, "rb").read()] *)
Definition read_file (file : path) : M bytes :=
  fun fs =>
    match fs !! file with
    | Some data => mk_Outcome (Ok data) fs []
    | None => mk_Outcome
                (Raise ("[Errno 2] No such file or directory: '"
                        +:+ fst file +:+ "/" +:+ snd file +:+ "'")) fs []
    end.

(** A library call [ev] that writes [data] to [file] and returns. *)
Definition write_file (file : path) (data : bytes) (ev : Event) : M unit :=
  fun fs => mk_Outcome (Ok tt) (<[file := data]> fs) [ev].

(** [os.remove(file)] on an existing file *)
Definition os_remove (file : path) : M unit :=
  fun fs => mk_Outcome (Ok tt) (delete file fs) [].

Fixpoint read_files (sequence : list path) : M (list bytes) :=
  match sequence with
  | [] => ret []
  | file :: rest =>
      data <- read_file file ;;
      more <- read_files rest ;;
      ret (data :: more)
  end.

(** ** The script, lines 76-211 *)

(** Lines 77-82. *)
Definition metrics : list (string * string) :=
  [("CO₂ Emissions (metric tons per capita)", "EN.ATM.CO2E.PC");
   ("GDP per Capita (current US$)", "NY.GDP.PCAP.CD");
   ("Population", "SP.POP.TOTL");
   ("Life Expectancy", "SP.DYN.LE00.IN")].

(** Line 86: a dict comprehension; a repeated key keeps its place and
    takes the later value. *)
Fixpoint dict_set {A} (d : list (string * A)) (k : string) (v : A) : list (string * A) :=
  match d with
  | [] => [(k, v)]
  | (k', v') :: d' =>
      if String.eqb k' k then (k', v) :: d' else (k', v') :: dict_set d' k v
  end.

Definition iso_map_of (country_list : list Country) : list (string * string) :=
  foldl (fun d c => dict_set d (country_name c) (country_id c)) [] country_list.

(** The values streamlit's input widgets can return: a [multiselect]
    returns some of its options, a [radio] one of them, a [slider] an
    integer between its bounds. *)
Record multiselect (options : list string) := mk_multiselect {
  ms_value : list string;
  ms_among : forallb (fun c => existsb (String.eqb c) options) ms_value = true
}.
Arguments ms_value {options} m.

Record radio (options : list string) := mk_radio {
  rd_value : string;
  rd_among : existsb (String.eqb rd_value) options = true
}.
Arguments rd_value {options} r.

Record slider (min_value max_value : Z) := mk_slider {
  sl_value : Z;
  sl_within : ((min_value <=? sl_value) && (sl_value <=? max_value))%bool = true
}.
Arguments sl_value {min_value max_value} s.

(** Lines 90-95.  The options of the country selector are the provider's
    country names; line 112 filters on membership itself, so any list of
    names is accepted here. *)
Record Sidebar := mk_Sidebar {
  selected_countries : list string;
  selected_metrics : multiselect (dict_keys metrics);
  theme : radio ["Light"; "Dark"];
  fps : slider 1 5
}.

(** [st.multiselect(label, options, default=defaults)] raises
    [StreamlitAPIException] when a default is not among the options. *)
Definition multiselect_default (options defaults : list string) : result unit :=
  if forallb (fun d => existsb (String.eqb d) options) defaults then Ok tt
  else Raise "Every Multiselect default value must exist in options".

(** Lines 98-99. *)
Definition start_date : datetime := mk_datetime 2000 1 1.
Definition end_date : datetime := mk_datetime 2022 1 1.

(** Line 102. *)
Definition FRAME_DIR : string := "frame".

(** Line 105. *)
Definition is_artifact (fname : string) : bool :=
  endswith_any (lower fname) [".png"; ".gif"; ".mp4"].

(** The conditional expressions of lines 137-139 and 170-172, and of
    lines 150 and 176-177. *)
Definition theme_scale (theme : string) : colorscale :=
  if String.eqb theme "Dark" then Viridis else Plasma.

Definition theme_template (theme : string) : string :=
  if String.eqb theme "Dark" then "plotly_dark" else "plotly_white".

(** The quantile levels [[0.1, 0.5, 0.9]] as binary64 values. *)
Definition tick_quantiles : list float :=
  [0x1.999999999999ap-4%float; 0x1p-1%float; 0x1.ccccccccccccdp-1%float].

(** [sorted(s.unique())] for the integer column of years. *)
Definition sorted_unique (s : Series) : result (list Z) :=
  match s with
  | IntSeries xs => Ok (sorted (unique xs))
  | _ => Raise "unique on a column of another dtype"
  end.

(** Lines 123-125, on the frame the client built. *)
Definition normalize (frame : IndexedFrame) : result DataFrame :=
  (df <- reset_index frame ;;
   let df := dropna df in
   date <- df_getitem df "date" ;;
   year <- series_dt_year date ;;
   let df := df_setitem df "Year" year in
   Ok (df_rename [("country", "Country")] df))%result.

(** Line 178. *)
Definition frame_path (code : string) (yr : Z) : path :=
  os_path_join FRAME_DIR (code +:+ "_" +:+ pretty yr +:+ ".png").

(** Lines 183-184. *)
Definition gif_path (code : string) : path := os_path_join FRAME_DIR (code +:+ ".gif").
Definition mp4_path (code : string) : path := os_path_join FRAME_DIR (code +:+ ".mp4").

Section Script.
Context (w : World).

(** A streamlit display call inside the [try] block. *)
Definition st_show (ev : Event) : M unit :=
  match st_raises w ev with
  | Some e => raise e
  | None => emit ev
  end.

(** Lines 104-106. *)
Definition purge_frame_dir : M unit :=
  fun fs =>
    for_each (os_listdir FRAME_DIR fs)
      (fun fname =>
         if is_artifact fname
         then os_remove (os_path_join FRAME_DIR fname)
         else ret tt) fs.

(** Lines 118-125. *)
Definition fetch (code metric_name : string) (iso_list : list string) : M DataFrame :=
  emit (ev_get_dataframe (code, metric_name) iso_list (start_date, end_date)) ;;
  frame <- lift (wbdata_get_dataframe w (code, metric_name) iso_list
                   (start_date, end_date)) ;;
  lift (normalize frame).

(** Lines 131-151. *)
Definition full_range_chart (df : DataFrame) (metric_name theme : string)
    : result Figure :=
  (year <- df_getitem df "Year" ;;
   frames <- series_astype_str year ;;
   let fig := px_choropleth df "Country" "country names" metric_name None
                (Some frames) (theme_scale theme)
                (metric_name +:+ " (2000–2022)") in
   _ <- check (px_choropleth_raises w fig) ;;
   let fig := update_geos fig "natural earth" (Some true) (Some true) in
   col <- df_getitem df metric_name ;;
   tickvals <- series_quantile w col tick_quantiles ;;
   col' <- df_getitem df metric_name ;;
   ticks <- series_quantile w col' tick_quantiles ;;
   Ok (update_layout fig
         (Some {| cb_title := metric_name;
                  cb_tickvals := Some (map (float_round2 w) tickvals);
                  cb_ticktext := Some (map (format_2e w) ticks) |})
         (theme_template theme)))%result.

(** Lines 163-177: the figure of one year. *)
Definition year_frame (df : DataFrame) (metric_name theme : string) (yr : Z)
    : result Figure :=
  (year <- df_getitem df "Year" ;;
   let dfx := df_mask (series_eq_int year yr) df in
   let f := px_choropleth dfx "Country" "country names" metric_name
              (Some "Country") None (theme_scale theme)
              (metric_name +:+ " — " +:+ pretty yr) in
   _ <- check (px_choropleth_raises w f) ;;
   let f := update_geos f "natural earth" None None in
   Ok (update_layout f None (theme_template theme)))%result.

(** Lines 162-180: the loop over [years], started with the list
    [frame_paths] built so far. *)
Fixpoint render_frames (df : DataFrame) (code metric_name theme : string)
    (years : list Z) (frame_paths : list path) : M (list path) :=
  match years with
  | [] => ret frame_paths
  | yr :: years' =>
      f <- lift (year_frame df metric_name theme yr) ;;
      let out := frame_path code yr in
      png <- lift (pio_write_image w f) ;;
      write_file out png (ev_write_image f out) ;;
      render_frames df code metric_name theme years' (frame_paths ++ [out])
  end.

(** Lines 182-188.  The clip holds the images of the files it was
    given; both encoders run on the clip. *)
Definition assemble (code : string) (frame_paths : list path) (fps : Z)
    : M (path * path) :=
  images <- read_files frame_paths ;;
  lift (check (ImageSequenceClip_raises w images fps)) ;;
  emit (ev_ImageSequenceClip frame_paths fps) ;;
  let gif_p := gif_path code in
  let mp4_p := mp4_path code in
  gif <- lift (write_gif w images fps) ;;
  write_file gif_p gif (ev_write_gif gif_p fps) ;;
  mp4 <- lift (write_videofile w images fps "libx264" false) ;;
  write_file mp4_p mp4 (ev_write_videofile mp4_p fps "libx264" false) ;;
  ret (gif_p, mp4_p).

(** Lines 190-205. *)
Definition offer_downloads (code : string) (years : list Z)
    (frame_paths : list path) (gif_p mp4_p : path) : M unit :=
  st_show (ev_columns 3) ;;
  last_frame <- lift (list_last frame_paths) ;;
  png <- read_file last_frame ;;
  last_year <- lift (list_last years) ;;
  st_show (ev_download_button "📸 Download PNG" png
             (code +:+ "_" +:+ pretty last_year +:+ ".png") "image/png") ;;
  gif <- read_file gif_p ;;
  st_show (ev_download_button "📺 Download GIF" gif (code +:+ ".gif") "image/gif") ;;
  mp4 <- read_file mp4_p ;;
  st_show (ev_download_button "🎞️ Download MP4" mp4 (code +:+ ".mp4") "video/mp4").

(** Lines 131-208: what follows the guard of line 127. *)
Definition present (side : Sidebar) (metric_name code : string) (df : DataFrame)
    : M unit :=
  fig <- lift (full_range_chart df metric_name (rd_value (theme side))) ;;
  st_show (ev_subheader metric_name) ;;
  st_show (ev_plotly_chart fig) ;;
  st_show (ev_expander ("📈 Trend over time: " +:+ metric_name)) ;;
  trend_df <- lift (pivot df "Year" "Country" metric_name) ;;
  st_show (ev_line_chart trend_df) ;;
  years <- lift (year <- df_getitem df "Year" ;; sorted_unique year)%result ;;
  frame_paths <- render_frames df code metric_name (rd_value (theme side))
                   years [] ;;
  artifacts <- assemble code frame_paths (sl_value (fps side)) ;;
  offer_downloads code years frame_paths (fst artifacts) (snd artifacts) ;;
  st_show (ev_expander "Show raw data") ;;
  st_show (ev_dataframe df).

(** Lines 118-208: the body of the [try] block.  The [continue] of
    line 129 ends the iteration normally. *)
Definition process_metric (side : Sidebar) (iso_list : list string)
    (metric_name code : string) : M unit :=
  df <- fetch code metric_name iso_list ;;
  if df_empty df then
    emit (ev_warning ("No data for " +:+ metric_name +:+ "."))
  else
    present side metric_name code df.

(** Lines 114-211: one iteration of the loop over the selected
    metrics.  The lookup of line 115 is outside the [try]. *)
Definition one_metric (side : Sidebar) (iso_list : list string)
    (metric_name : string) : M unit :=
  code <- lift (match dict_get metrics metric_name with
                | Some code => Ok code
                | None => Raise ("'" +:+ metric_name +:+ "'")
                end) ;;
  try_except (process_metric side iso_list metric_name code)
    (fun e => emit (ev_error ("❌ Error with " +:+ metric_name +:+ ": " +:+ e))).

(** Lines 109-211. *)
Definition main (iso_map : list (string * string)) (side : Sidebar) : M unit :=
  if (bool_decide (selected_countries side = [])
      || bool_decide (ms_value (selected_metrics side) = []))%bool
  then emit (ev_warning "Please select at least one country and one metric.")
  else
    let iso_list := omap (dict_get iso_map) (selected_countries side) in
    for_each (ms_value (selected_metrics side)) (one_metric side iso_list).

(** Lines 101-211: one run of the script once the sidebar has returned
    the selections. *)
Definition run (iso_map : list (string * string)) (side : Sidebar) : M unit :=
  purge_frame_dir ;; main iso_map side.

(** Lines 85-211: the country lookup of line 85 comes first and is not
    guarded; the selectors of lines 92 and 93 check their defaults
    against their options, also unguarded; the host then returns the
    selections. *)
Definition app (host : list string -> Sidebar) : M unit :=
  country_list <- lift (wbdata_get_country w) ;;
  let iso_map := iso_map_of country_list in
  let all_countries := dict_keys iso_map in
  lift (multiselect_default all_countries ["Pakistan"; "India"]) ;;
  lift (multiselect_default (dict_keys metrics) ["GDP per Capita (current US$)"]) ;;
  run iso_map (host all_countries).

End Script.

(** ** Observations on tables and traces *)

(** An observation that [dropna] keeps. *)
Definition has_value (o : Observation) : bool := negb (PrimFloat.is_nan (obs_value o)).

(** The Metric Table for a list of observations: the canonical columns,
    one row per observation. *)
Definition metric_table (metric_name : string) (obs : list Observation) : DataFrame :=
  [("Country", StrSeries (map obs_country obs));
   ("date", DateSeries (map obs_date obs));
   (metric_name, FloatSeries (map obs_value obs));
   ("Year", IntSeries (map (fun o => dt_year (obs_date o)) obs))].

(** The columns of a table, by label. *)
Definition table_years (df : DataFrame) : list Z :=
  match df_getitem df "Year" with
  | Ok (IntSeries ys) => ys
  | _ => []
  end.




(** The years of the inclusive range of lines 98-99. *)
Definition range_years : list Z := map Z.of_nat (seq 2000 23).

(** The file an event writes, if it writes one. *)
Definition event_file (ev : Event) : option path :=
  match ev with
  | ev_write_image _ file => Some file
  | ev_write_gif file _ => Some file
  | ev_write_videofile file _ _ _ => Some file
  | _ => None
  end.

(** The frame image an event renders. *)
Definition event_frame (ev : Event) : option path :=
  match ev with
  | ev_write_image _ file => Some file
  | _ => None
  end.

(** The figure an event shows or renders. *)
Definition event_figure (ev : Event) : option Figure :=
  match ev with
  | ev_plotly_chart fig => Some fig
  | ev_write_image fig _ => Some fig
  | _ => None
  end.

(** The frame rate an event builds a clip or encodes with. *)
Definition event_fps (ev : Event) : option Z :=
  match ev with
  | ev_ImageSequenceClip _ n => Some n
  | ev_write_gif _ n => Some n
  | ev_write_videofile _ n _ _ => Some n
  | _ => None
  end.

(** The message of an error event. *)
Definition event_error (ev : Event) : option string :=
  match ev with
  | ev_error body => Some body
  | _ => None
  end.

(** The indicator an event requests from the provider. *)
Definition event_fetch (ev : Event) : option (string * string) :=
  match ev with
  | ev_get_dataframe indicators _ _ => Some indicators
  | _ => None
  end.

(** A path of the scratch directory that line 105 selects. *)
Definition artifact_path (p : path) : Prop :=
  fst p = FRAME_DIR /\ is_artifact (snd p) = true.

#[global] Instance artifact_path_dec (p : path) : Decision (artifact_path p).
Proof. unfold artifact_path. apply _. Defined.

(** A sequence of writes applied to a file system, oldest first. *)
Definition write_all (ws : list (path * bytes)) (fs : FileSystem) : FileSystem :=
  foldl (fun acc x => <[fst x := snd x]> acc) fs ws.

(** What the handling of one metric shows when it is run on its own. *)
Definition metric_trace (w : World) (side : Sidebar) (iso_list : list string)
    (metric_name : string) : list Event :=
  trace (one_metric w side iso_list metric_name ∅).

(** The event a failure of a metric's pipeline with message [e] ends in. *)
Definition error_event (metric_name e : string) : Event :=
  ev_error ("❌ Error with " +:+ metric_name +:+ ": " +:+ e).

(** The observations [dropna] keeps. *)
Definition kept (obs : list Observation) : list Observation :=
  filter (fun o => has_value o = true) obs.

(** The value of the fetch step: the provider's answer, normalized. *)
Definition fetched (w : World) (code metric_name : string) (iso_list : list string)
    : result DataFrame :=
  (frame <- wbdata_get_dataframe w (code, metric_name) iso_list
              (start_date, end_date) ;;
   normalize frame)%result.

(** The distinct years of a table, ascending (line 160). *)
Definition years_of (df : DataFrame) : list Z := sorted (unique (table_years df)).

(** The scratch directory after lines 104-106. *)
Definition purged (fs : FileSystem) : FileSystem :=
  filter (fun kv => ~ artifact_path (fst kv)) fs.

Definition remove_artifacts (fs : FileSystem) (names : list string) : FileSystem :=
  foldl (fun acc fname =>
           if is_artifact fname then delete (os_path_join FRAME_DIR fname) acc else acc)
        fs names.

(** What an event caused by lines 131-208 for the table [df] looks like. *)
Definition present_event (w : World) (side : Sidebar) (metric_name code : string)
    (df : DataFrame) (ev : Event) : Prop :=
  match ev with
  | ev_subheader body => body = metric_name
  | ev_plotly_chart fig =>
      full_range_chart w df metric_name (rd_value (theme side)) = Ok fig
  | ev_expander label =>
      label = "📈 Trend over time: " +:+ metric_name \/ label = "Show raw data"
  | ev_line_chart data => pivot df "Year" "Country" metric_name = Ok data
  | ev_write_image f file =>
      exists yr, yr ∈ years_of df
                 /\ year_frame w df metric_name (rd_value (theme side)) yr = Ok f
                 /\ file = frame_path code yr
  | ev_ImageSequenceClip sequence n =>
      sequence = map (frame_path code) (years_of df) /\ n = sl_value (fps side)
  | ev_write_gif file n => file = gif_path code /\ n = sl_value (fps side)
  | ev_write_videofile file n codec audio =>
      file = mp4_path code /\ n = sl_value (fps side)
      /\ codec = "libx264" /\ audio = false
  | ev_columns spec => spec = 3
  | ev_download_button label data file_name mime =>
      (mime = "image/png" /\ exists yr : Z, file_name = code +:+ "_" +:+ pretty yr +:+ ".png")
      \/ (mime = "image/gif" /\ file_name = code +:+ ".gif")
      \/ (mime = "video/mp4" /\ file_name = code +:+ ".mp4")
  | ev_dataframe data => data = df
  | ev_get_dataframe _ _ _ | ev_warning _ | ev_error _ => False
  end.

(** What an event caused by one iteration of the loop of line 114 looks
    like. *)
Definition metric_event (w : World) (side : Sidebar) (iso_list : list string)
    (metric_name code : string) (ev : Event) : Prop :=
  match ev with
  | ev_get_dataframe indicators country data_date =>
      indicators = (code, metric_name) /\ country = iso_list
      /\ data_date = (start_date, end_date)
  | ev_warning body =>
      body = "No data for " +:+ metric_name +:+ "."
      /\ exists df, fetched w code metric_name iso_list = Ok df /\ df_empty df = true
  | ev_error body => exists e, ev = error_event metric_name e
  | _ =>
      exists df, fetched w code metric_name iso_list = Ok df
                 /\ df_empty df = false
                 /\ present_event w side metric_name code df ev
  end.

(** What an event caused by lines 109-211 looks like. *)
Definition main_event (w : World) (iso_map : list (string * string)) (side : Sidebar)
    (ev : Event) : Prop :=
  ev = ev_warning "Please select at least one country and one metric."
  \/ exists metric_name code,
       metric_name ∈ ms_value (selected_metrics side)
       /\ dict_get metrics metric_name = Some code
       /\ metric_event w side (omap (dict_get iso_map) (selected_countries side))
            metric_name code ev.

(** The write log: started after the writes [ws0], the statement [m]
    reads only files written since, its value and events do not depend
    on what the file system held before, it adds the writes its events
    name, every event satisfies [P], and a returned value satisfies [Q]. *)
Definition runs {A} (P : Event -> Prop) (ws0 : list (path * bytes)) (m : M A)
    (Q : A -> list (path * bytes) -> Prop) : Prop :=
  exists v t ws,
    (forall fs, m (write_all ws0 fs) = mk_Outcome v (write_all (ws0 ++ ws) fs) t)
    /\ ws.*1 = omap event_file t
    /\ Forall P t
    /\ (forall a, v = Ok a -> Q a (ws0 ++ ws)).

(** ** Concrete scenarios *)

Module Scenario.

Definition country_list : list Country :=
  [mk_Country "IND" "India"; mk_Country "PAK" "Pakistan"].

Definition iso_map : list (string * string) := iso_map_of country_list.

Definition jan1 (y : Z) : datetime := mk_datetime y 1 1.

(** Population: both countries, every year of 2000-2002. *)
Definition population : list Observation :=
  [mk_Observation "India" (jan1 2002) 1093317189%float;
   mk_Observation "India" (jan1 2001) 1075000085%float;
   mk_Observation "India" (jan1 2000) 1056575549%float;
   mk_Observation "Pakistan" (jan1 2002) 162000564%float;
   mk_Observation "Pakistan" (jan1 2001) 158121508%float;
   mk_Observation "Pakistan" (jan1 2000) 154369924%float].

(** Life expectancy: the provider has the rows but no value. *)
Definition life_expectancy : list Observation :=
  [mk_Observation "India" (jan1 2001) PrimFloat.nan;
   mk_Observation "India" (jan1 2000) PrimFloat.nan;
   mk_Observation "Pakistan" (jan1 2000) PrimFloat.nan].

(** Emissions: no value for 2001. *)
Definition emissions : list Observation :=
  [mk_Observation "India" (jan1 2002) 1%float;
   mk_Observation "India" (jan1 2001) PrimFloat.nan;
   mk_Observation "India" (jan1 2000) 0.5%float;
   mk_Observation "Pakistan" (jan1 2002) 0.75%float;
   mk_Observation "Pakistan" (jan1 2001) PrimFloat.nan;
   mk_Observation "Pakistan" (jan1 2000) 0.75%float].

(** A response that repeats the record of India for 2000. *)
Definition repeated : list Observation :=
  [mk_Observation "India" (jan1 2001) 1075000085%float;
   mk_Observation "India" (jan1 2000) 1056575549%float;
   mk_Observation "India" (jan1 2000) 1056575549%float;
   mk_Observation "Pakistan" (jan1 2001) 158121508%float;
   mk_Observation "Pakistan" (jan1 2000) 154369924%float].

(** The records of Pakistan alone. *)
Definition pakistan : list Observation :=
  [mk_Observation "Pakistan" (jan1 2002) 162000564%float;
   mk_Observation "Pakistan" (jan1 2001) 158121508%float;
   mk_Observation "Pakistan" (jan1 2000) 154369924%float].

(** The records of both countries for 2000 alone. *)
Definition year_2000 : list Observation :=
  [mk_Observation "India" (jan1 2000) 1056575549%float;
   mk_Observation "Pakistan" (jan1 2000) 154369924%float].

Definition provider (population_response : list Observation)
    (indicators : string * string) : result IndexedFrame :=
  let frame := frame_of_observations (snd indicators) in
  if String.eqb (fst indicators) "SP.POP.TOTL" then frame population_response
  else if String.eqb (fst indicators) "SP.DYN.LE00.IN" then frame life_expectancy
  else if String.eqb (fst indicators) "EN.ATM.CO2E.PC" then frame emissions
  else Raise "HTTPSConnectionPool: Max retries exceeded".

(** plotly express refuses a [locations] argument that names no column. *)
Definition needs_locations (fig : Figure) : option string :=
  match df_getitem (data_frame fig) (locations fig) with
  | Ok _ => None
  | Raise _ =>
      Some "Value of 'locations' is not the name of a column in 'data_frame'."
  end.

(** Libraries that succeed on what the script gives them, except that the
    GDP series cannot be fetched.  A rendered frame is identified by the
    title of its figure, an encoded clip by the frames it was given. *)
Definition world_with (population_response : list Observation) : World :=
  {| wbdata_get_country := Ok country_list;
     wbdata_get_dataframe :=
       fun indicators _ _ => provider population_response indicators;
     px_choropleth_raises := needs_locations;
     series_quantile := fun _ _ => Ok [];
     float_round2 := fun x => x;
     format_2e := fun _ => "";
     st_raises := fun _ => None;
     pio_write_image := fun fig => Ok (list_byte_of_string (title fig));
     ImageSequenceClip_raises := fun _ _ => None;
     write_gif := fun images _ => Ok (concat images);
     write_videofile := fun images _ _ _ => Ok (concat images) |}.

Definition world : World := world_with population.
Definition world_repeated : World := world_with repeated.
Definition world_by_date : World := world_with pakistan.
Definition world_by_country : World := world_with year_2000.
Definition world_silent : World := world_with [].

Definition sidebar (countries names : list string)
    (ok : forallb (fun c => existsb (String.eqb c) (dict_keys metrics)) names = true)
    : Sidebar :=
  {| selected_countries := countries;
     selected_metrics := mk_multiselect (dict_keys metrics) names ok;
     theme := mk_radio ["Light"; "Dark"] "Dark" eq_refl;
     fps := mk_slider 1 5 2 eq_refl |}.

Definition both : list string := ["Pakistan"; "India"].

Definition side_population : Sidebar := sidebar both ["Population"] eq_refl.

Definition side_gdp_population : Sidebar :=
  sidebar both ["GDP per Capita (current US$)"; "Population"] eq_refl.

Definition side_life_population : Sidebar :=
  sidebar both ["Life Expectancy"; "Population"] eq_refl.

Definition side_emissions : Sidebar :=
  sidebar both ["CO₂ Emissions (metric tons per capita)"] eq_refl.

Definition side_no_country : Sidebar := sidebar [] ["Population"] eq_refl.

Definition side_pakistan : Sidebar := sidebar ["Pakistan"] ["Population"] eq_refl.

Definition iso_list : list string := ["PAK"; "IND"].

(** The table fetched for the emissions: the four records with a value. *)
Definition emissions_table : DataFrame :=
  metric_table "CO₂ Emissions (metric tons per capita)" (kept emissions).

(** A scratch directory left by an earlier run, next to other files. *)
Definition stale : FileSystem :=
  {[ ("frame", "NY.GDP.PCAP.CD_1999.png") := [Byte.x01];
     ("frame", "NY.GDP.PCAP.CD.GIF") := [Byte.x02];
     ("frame", "notes.txt") := [Byte.x03];
     ("assets", "logo.png") := [Byte.x04] ]}.

End Scenario.

(** ** Further observations used by the statements *)


(** The (country, year) pair of each record of a response. *)
Definition provider_keys (obs : list Observation) : list (string * Z) :=
  map (fun o => (obs_country o, dt_year (obs_date o))) obs.

(** The frames the loop of lines 162-180 renders before its first
    failure: year, figure and PNG. *)
Fixpoint rendered_frames (w : World) (df : DataFrame) (metric_name theme : string)
    (years : list Z) : list (Z * Figure * bytes) :=
  match years with
  | [] => []
  | yr :: years' =>
      match year_frame w df metric_name theme yr with
      | Ok f =>
          match pio_write_image w f with
          | Ok png => (yr, f, png) :: rendered_frames w df metric_name theme years'
          | Raise _ => []
          end
      | Raise _ => []
      end
  end.

(** The events and the writes of the rendered frames, in order. *)
Definition frame_events (code : string) (rs : list (Z * Figure * bytes)) : list Event :=
  map (fun r => ev_write_image (snd (fst r)) (frame_path code (fst (fst r)))) rs.

Definition frame_writes (code : string) (rs : list (Z * Figure * bytes))
    : list (path * bytes) :=
  map (fun r => (frame_path code (fst (fst r)), snd r)) rs.

(** An outcome preceded by earlier events. *)
Definition prepend {A} (t : list Event) (o : Outcome A) : Outcome A :=
  mk_Outcome (value o) (files o) (t ++ trace o).

(** What lines 131-208 show for the table [df] when every call
    succeeds. *)
Definition complete_trace (side : Sidebar) (metric_name code : string)
    (df : DataFrame) (fig : Figure) (trend : PivotTable)
    (rs : list (Z * Figure * bytes)) (gif mp4 : bytes)
    (last_year : Z) (last_png : bytes) : list Event :=
  [ev_subheader metric_name;
   ev_plotly_chart fig;
   ev_expander ("📈 Trend over time: " +:+ metric_name);
   ev_line_chart trend]
  ++ frame_events code rs
  ++ [ev_ImageSequenceClip (map (frame_path code) (years_of df)) (sl_value (fps side));
      ev_write_gif (gif_path code) (sl_value (fps side));
      ev_write_videofile (mp4_path code) (sl_value (fps side)) "libx264" false;
      ev_columns 3;
      ev_download_button "📸 Download PNG" last_png
        (code +:+ "_" +:+ pretty last_year +:+ ".png") "image/png";
      ev_download_button "📺 Download GIF" gif (code +:+ ".gif") "image/gif";
      ev_download_button "🎞️ Download MP4" mp4 (code +:+ ".mp4") "video/mp4";
      ev_expander "Show raw data";
      ev_dataframe df].

(** Every event of the statement [m] satisfies [P], whatever the file
    system. *)
Definition emits {A} (P : Event -> Prop) (m : M A) : Prop :=
  forall fs, Forall P (trace (m fs)).

(** Whether the host accepts a display call. *)
Definition shown (w : World) (ev : Event) : bool :=
  match st_raises w ev with
  | None => true
  | Some _ => false
  end.

(** Whether lines 131-160 get through for the table [df], so that the
    loop of line 162 is entered. *)
Definition reaches_the_loop (w : World) (side : Sidebar) (metric_name : string)
    (df : DataFrame) : bool :=
  match full_range_chart w df metric_name (rd_value (theme side)) with
  | Ok fig =>
      shown w (ev_subheader metric_name)
      && (shown w (ev_plotly_chart fig)
          && (shown w (ev_expander ("📈 Trend over time: " +:+ metric_name))
              && match pivot df "Year" "Country" metric_name with
                 | Ok trend =>
                     shown w (ev_line_chart trend)
                     && match (year <- df_getitem df "Year" ;;
                               sorted_unique year)%result with
                        | Ok _ => true
                        | Raise _ => false
                        end
                 | Raise _ => false
                 end))
  | Raise _ => false
  end.

(** The years of the frames rendered for the table [df]. *)
Definition rendered_years (w : World) (side : Sidebar) (metric_name : string)
    (df : DataFrame) : list Z :=
  map (fun r => fst (fst r))
    (rendered_frames w df metric_name (rd_value (theme side)) (years_of df)).

(** The table lines 123-125 make of the records of a single country: the
    client's frame has no country level, so the table has no column of
    countries. *)
Definition metric_table_by_date (metric_name : string) (obs : list Observation)
    : DataFrame :=
  [("date", DateSeries (map obs_date obs));
   (metric_name, FloatSeries (map obs_value obs));
   ("Year", IntSeries (map (fun o => dt_year (obs_date o)) obs))].


(** ** Observations used by the further properties *)

(** The request an event sends to the provider: indicator, countries and
    date range. *)
Definition event_request (ev : Event)
    : option ((string * string) * list string * (datetime * datetime)) :=
  match ev with
  | ev_get_dataframe indicators country data_date =>
      Some (indicators, country, data_date)
  | _ => None
  end.

(** The request of line 118 for one selected metric. *)
Definition request_of (iso_list : list string) (metric_name : string)
    : option ((string * string) * list string * (datetime * datetime)) :=
  code ← dict_get metrics metric_name;
  Some ((code, metric_name), iso_list, (start_date, end_date)).

(** The download an event offers: contents, file name and MIME type. *)
Definition event_download (ev : Event) : option (bytes * string * string) :=
  match ev with
  | ev_download_button _ data file_name mime => Some (data, file_name, mime)
  | _ => None
  end.

(** The rows of a response that belong to the year [yr]. *)
Definition of_year (yr : Z) (obs : list Observation) : list Observation :=
  filter (fun o => dt_year (obs_date o) = yr) obs.

(** The statement [m] leaves every file outside [touched] as it was. *)
Definition leaves_alone {A} (touched : path -> Prop) (m : M A) : Prop :=
  forall fs p, ~ touched p -> files (m fs) !! p = fs !! p.

(** [trend_df.loc[year, country]]: the cell of a pivot table, by the
    labels of its row and of its column. *)
Definition pt_loc (t : PivotTable) (year : Z) (country : string) : option float :=
  i ← fst <$> list_find (eq year) (pt_index t);
  j ← fst <$> list_find (eq country) (pt_columns t);
  row ← pt_values t !! i;
  row !! j.


(** The files lines 178-186 write for the indicator [code] and the table
    [df], in the order in which they are written. *)
Definition artifacts_of (code : string) (df : DataFrame) : list path :=
  map (frame_path code) (years_of df) ++ [gif_path code; mp4_path code].

(** A path lines 178-184 can form for the indicator [code]. *)
Definition artifact_of (code : string) (p : path) : Prop :=
  (exists yr, p = frame_path code yr) \/ p = gif_path code \/ p = mp4_path code.

(** * Lemmas *)

(** ** Masks and [dropna] *)

Lemma take_mask_map {A B} (f : A -> bool) (g : A -> B) (xs : list A) :
  take_mask (map f xs) (map g xs) = map g (filter (fun x => f x = true) xs).
Proof.
  induction xs as [|x xs IH]; [done|]. cbn [map take_mask].
  rewrite filter_cons. destruct (f x) eqn:E.
  - rewrite decide_True by done. cbn. by rewrite IH.
  - rewrite decide_False by (by intros ?). done.
Qed.

Lemma mask_and_map {A} (f g : A -> bool) (xs : list A) :
  mask_and (map f xs) (map g xs) = map (fun x => (f x && g x)%bool) xs.
Proof. induction xs as [|x xs IH]; [done|]. cbn. by rewrite IH. Qed.

Lemma repeat_true_map {A B} (g : A -> B) (xs : list A) :
  repeat true (length (map g xs)) = map (fun _ => true) xs.
Proof. induction xs as [|x xs IH]; [done|]. cbn. by rewrite IH. Qed.

Lemma complete_rows_frame (name : string) (obs : list Observation) :
  complete_rows
    [("country", StrSeries (map obs_country obs));
     ("date", DateSeries (map obs_date obs));
     (name, FloatSeries (map obs_value obs))]
  = map has_value obs.
Proof.
  unfold complete_rows. cbn [foldr nrows series_len snd notna].
  rewrite repeat_true_map, !map_map.
  rewrite (mask_and_map (fun o => negb (PrimFloat.is_nan (obs_value o))) (fun _ => true)).
  rewrite (mask_and_map (fun _ => true)).
  rewrite (mask_and_map (fun _ => true)).
  apply map_ext. intros o. unfold has_value. by destruct (PrimFloat.is_nan _).
Qed.

Lemma complete_rows_frame_by_date (name : string) (obs : list Observation) :
  complete_rows
    [("date", DateSeries (map obs_date obs));
     (name, FloatSeries (map obs_value obs))]
  = map has_value obs.
Proof.
  unfold complete_rows. cbn [foldr nrows series_len snd notna].
  rewrite repeat_true_map, !map_map.
  rewrite (mask_and_map (fun o => negb (PrimFloat.is_nan (obs_value o))) (fun _ => true)).
  rewrite (mask_and_map (fun _ => true)).
  apply map_ext. intros o. unfold has_value. by destruct (PrimFloat.is_nan _).
Qed.

Lemma reset_index_indexed (index : ResponseIndex) (name : string)
    (obs : list Observation) :
  name <> "country" -> name <> "date" ->
  reset_index (frame_indexed index name obs)
  = Ok (index_levels (frame_indexed index name obs)
        ++ [(name, FloatSeries (map obs_value obs))]).
Proof.
  intros Hc Hd. unfold reset_index, frame_indexed.
  cbn [index_levels value_columns columns map fst].
  destruct index; cbn [map fst]; rewrite !filter_cons, filter_nil;
    rewrite !decide_False; try done; rewrite list_elem_of_singleton; congruence.
Qed.

Lemma normalize_frame (name : string) (obs : list Observation) :
  name <> "country" -> name <> "date" -> name <> "Year" ->
  normalize (frame_indexed by_country_date name obs)
  = Ok (metric_table name (kept obs)).
Proof.
  intros Hc Hd Hy. unfold normalize. rewrite reset_index_indexed by done.
  cbn [rbind frame_indexed index_levels app]. unfold dropna.
  change ([("country", StrSeries (map obs_country obs));
           ("date", DateSeries (map obs_date obs))]
          ++ [(name, FloatSeries (map obs_value obs))])
    with [("country", StrSeries (map obs_country obs));
          ("date", DateSeries (map obs_date obs));
          (name, FloatSeries (map obs_value obs))].
  rewrite complete_rows_frame.
  unfold df_mask. cbn [map fst snd series_mask].
  rewrite !take_mask_map. fold (kept obs).
  cbn [df_getitem String.eqb Ascii.eqb Bool.eqb rbind series_dt_year].
  cbn [df_setitem].
  destruct (String.eqb_spec "country" "Year") as [?|_]; [done|].
  destruct (String.eqb_spec "date" "Year") as [?|_]; [done|].
  destruct (String.eqb_spec name "Year") as [?|_]; [done|].
  unfold df_rename, metric_table. cbn [map fst snd dict_get].
  destruct (String.eqb_spec "country" name) as [?|_]; [congruence|].
  cbn. by rewrite map_map.
Qed.

Lemma normalize_frame_by_date (name : string) (obs : list Observation) :
  name <> "country" -> name <> "date" -> name <> "Year" ->
  normalize (frame_indexed by_date name obs)
  = Ok (metric_table_by_date name (kept obs)).
Proof.
  intros Hc Hd Hy. unfold normalize. rewrite reset_index_indexed by done.
  cbn [rbind frame_indexed index_levels app]. unfold dropna.
  change ([("date", DateSeries (map obs_date obs))]
          ++ [(name, FloatSeries (map obs_value obs))])
    with [("date", DateSeries (map obs_date obs));
          (name, FloatSeries (map obs_value obs))].
  rewrite complete_rows_frame_by_date.
  unfold df_mask. cbn [map fst snd series_mask].
  rewrite !take_mask_map. fold (kept obs).
  cbn [df_getitem String.eqb Ascii.eqb Bool.eqb rbind series_dt_year].
  cbn [df_setitem].
  destruct (String.eqb_spec "date" "Year") as [?|_]; [done|].
  destruct (String.eqb_spec name "Year") as [?|_]; [done|].
  unfold df_rename, metric_table_by_date. cbn [map fst snd dict_get].
  destruct (String.eqb_spec "country" name) as [?|_]; [congruence|].
  cbn. by rewrite map_map.
Qed.

Lemma normalize_frame_by_country (name : string) (obs : list Observation) :
  name <> "country" -> name <> "date" ->
  normalize (frame_indexed by_country name obs) = Raise "'date'".
Proof.
  intros Hc Hd. unfold normalize. rewrite reset_index_indexed by done.
  cbn [rbind frame_indexed index_levels]. unfold dropna, df_mask.
  change ([("country", StrSeries (map obs_country obs))]
          ++ [(name, FloatSeries (map obs_value obs))])
    with [("country", StrSeries (map obs_country obs));
          (name, FloatSeries (map obs_value obs))].
  cbn [map fst snd df_getitem].
  destruct (String.eqb_spec "country" "date") as [?|_]; [done|].
  destruct (String.eqb_spec name "date") as [?|_]; [done|]. done.
Qed.

(** ** The write log *)

Lemma write_all_app (ws1 ws2 : list (path * bytes)) (fs : FileSystem) :
  write_all (ws1 ++ ws2) fs = write_all ws2 (write_all ws1 fs).
Proof. apply foldl_app. Qed.

Lemma write_all_snoc (ws : list (path * bytes)) (p : path) (d : bytes) (fs : FileSystem) :
  write_all (ws ++ [(p, d)]) fs = <[p := d]> (write_all ws fs).
Proof. by rewrite write_all_app. Qed.

Lemma write_all_lookup_written (ws : list (path * bytes)) (fs1 fs2 : FileSystem) (p : path) :
  p ∈ ws.*1 -> write_all ws fs1 !! p = write_all ws fs2 !! p.
Proof.
  induction ws as [|[q d] ws IH] using rev_ind; [by intros ?%elem_of_nil|].
  rewrite fmap_app, elem_of_app, !write_all_snoc. intros Hp.
  destruct (decide (q = p)) as [->|Hne].
  - by rewrite !lookup_insert_eq.
  - rewrite !lookup_insert_ne by done. apply IH.
    destruct Hp as [Hp|Hp]; [done|].
    cbn in Hp. apply list_elem_of_singleton in Hp. congruence.
Qed.

Lemma write_all_lookup_other (ws : list (path * bytes)) (fs : FileSystem) (p : path) :
  p ∉ ws.*1 -> write_all ws fs !! p = fs !! p.
Proof.
  induction ws as [|[q d] ws IH] using rev_ind; [done|].
  rewrite fmap_app, not_elem_of_app, write_all_snoc. intros [Hp Hq].
  cbn in Hq. rewrite list_elem_of_singleton in Hq.
  rewrite lookup_insert_ne by congruence. by apply IH.
Qed.

Section Rules.
Context (P : Event -> Prop).
Implicit Types ws : list (path * bytes).

Lemma runs_weaken {A} ws0 (m : M A) (Q R : A -> list (path * bytes) -> Prop) :
  runs P ws0 m Q -> (forall a ws, Q a ws -> R a ws) -> runs P ws0 m R.
Proof.
  intros (v & t & ws & Hm & Hw & Ht & HQ) HQR.
  exists v, t, ws. split_and!; try done. intros a Ha. by apply HQR, HQ.
Qed.

Lemma runs_lift {A} ws0 (r : result A) (Q : A -> list (path * bytes) -> Prop) :
  (forall a, r = Ok a -> Q a ws0) -> runs P ws0 (lift r) Q.
Proof.
  intros HQ. exists r, [], []. rewrite app_nil_r. split_and!; try done.
Qed.

Lemma runs_ret {A} ws0 (a : A) (Q : A -> list (path * bytes) -> Prop) :
  Q a ws0 -> runs P ws0 (ret a) Q.
Proof. intros HQ. apply (runs_lift ws0 (Ok a)). by intros ? [= <-]. Qed.

Lemma runs_emit ws0 (ev : Event) (Q : unit -> list (path * bytes) -> Prop) :
  event_file ev = None -> P ev -> Q tt ws0 -> runs P ws0 (emit ev) Q.
Proof.
  intros Hf Hev HQ. exists (Ok tt), [ev], []. rewrite app_nil_r.
  split_and!; try done.
  - cbn. by rewrite Hf.
  - by constructor.
  - by intros [] _.
Qed.

Lemma runs_show (w : World) ws0 (ev : Event) (Q : unit -> list (path * bytes) -> Prop) :
  event_file ev = None -> P ev -> Q tt ws0 ->
  runs P ws0 (st_show w ev) Q.
Proof.
  intros Hf Hev HQ. unfold st_show. destruct (st_raises w ev) as [e|].
  - apply (runs_lift ws0 (Raise e)). by intros ? [=].
  - by apply runs_emit.
Qed.

Lemma runs_read ws0 (file : path) (Q : bytes -> list (path * bytes) -> Prop) :
  file ∈ ws0.*1 -> (forall data, Q data ws0) -> runs P ws0 (read_file file) Q.
Proof.
  intros Hin HQ.
  exists (value (read_file file (write_all ws0 ∅))), [], [].
  rewrite app_nil_r. split_and!; try done.
  intros fs. unfold read_file.
  rewrite (write_all_lookup_written ws0 fs ∅ file Hin).
  by destruct (write_all ws0 ∅ !! file).
Qed.

Lemma runs_write ws0 (file : path) (data : bytes) (ev : Event)
    (Q : unit -> list (path * bytes) -> Prop) :
  event_file ev = Some file -> P ev ->
  Q tt (ws0 ++ [(file, data)]) ->
  runs P ws0 (write_file file data ev) Q.
Proof.
  intros Hf Hev HQ. exists (Ok tt), [ev], [(file, data)].
  split_and!.
  - intros fs. unfold write_file. by rewrite write_all_snoc.
  - cbn. by rewrite Hf.
  - by constructor.
  - by intros [] _.
Qed.

Lemma runs_bind {A B} ws0 (m : M A) (k : A -> M B)
    (Q : A -> list (path * bytes) -> Prop) (R : B -> list (path * bytes) -> Prop) :
  runs P ws0 m Q ->
  (forall a ws, Q a (ws0 ++ ws) -> runs P (ws0 ++ ws) (k a) R) ->
  runs P ws0 (bind m k) R.
Proof.
  intros (v & t & ws & Hm & Hw & Ht & HQ) Hk.
  destruct v as [a|e].
  - destruct (Hk a ws (HQ a eq_refl)) as (v' & t' & ws' & Hk' & Hw' & Ht' & HR).
    exists v', (t ++ t'), (ws ++ ws'). split_and!.
    + intros fs. unfold bind. rewrite Hm. cbn. rewrite Hk'. cbn.
      by rewrite (assoc_L (++)).
    + by rewrite fmap_app, omap_app, Hw, Hw'.
    + by apply Forall_app.
    + intros b Hb. rewrite (assoc_L (++)). by apply HR.
  - exists (Raise e), t, ws. split_and!; try done.
    intros fs. unfold bind. by rewrite Hm.
Qed.

Lemma runs_try ws0 (body : M unit) (handler : string -> M unit) :
  runs P ws0 body (fun _ _ => True) ->
  (forall e ws, runs P (ws0 ++ ws) (handler e) (fun _ _ => True)) ->
  runs P ws0 (try_except body handler) (fun _ _ => True).
Proof.
  intros (v & t & ws & Hm & Hw & Ht & _) Hh.
  destruct v as [a|e].
  - exists (Ok a), t, ws. split_and!; try done.
    intros fs. unfold try_except. by rewrite Hm.
  - destruct (Hh e ws) as (v' & t' & ws' & Hk' & Hw' & Ht' & _).
    exists v', (t ++ t'), (ws ++ ws'). split_and!; try done.
    + intros fs. unfold try_except. rewrite Hm. cbn. rewrite Hk'. cbn.
      by rewrite (assoc_L (++)).
    + by rewrite fmap_app, omap_app, Hw, Hw'.
    + by apply Forall_app.
Qed.

Lemma runs_for_each {A} ws0 (xs : list A) (body : A -> M unit) :
  (forall x ws, x ∈ xs -> runs P ws (body x) (fun _ _ => True)) ->
  runs P ws0 (for_each xs body) (fun _ _ => True).
Proof.
  revert ws0. induction xs as [|x xs IH]; intros ws0 Hbody; cbn [for_each].
  - by apply runs_ret.
  - eapply runs_bind.
    + apply Hbody. by left.
    + intros _ ws _. apply IH. intros y ws' Hy. apply Hbody. by right.
Qed.

End Rules.

Lemma runs_mono {A} (P P' : Event -> Prop) ws0 (m : M A)
    (Q : A -> list (path * bytes) -> Prop) :
  (forall ev, P ev -> P' ev) -> runs P ws0 m Q -> runs P' ws0 m Q.
Proof.
  intros HP (v & t & ws & Hm & Hw & Ht & HQ).
  exists v, t, ws. split_and!; try done. by eapply Forall_impl.
Qed.

(** ** [sorted] and [unique] *)

Lemma unique_from_elem (seen xs : list Z) (x : Z) :
  x ∈ unique_from seen xs <-> x ∈ xs /\ x ∉ seen.
Proof.
  revert seen. induction xs as [|y xs IH]; intros seen; cbn [unique_from].
  - rewrite !elem_of_nil. tauto.
  - case_bool_decide as Hy.
    + rewrite IH, elem_of_cons. split; [tauto|]. intros [[->|?] ?]; tauto.
    + rewrite !elem_of_cons, IH, elem_of_cons.
      destruct (decide (x = y)) as [->|?]; tauto.
Qed.

Lemma unique_from_NoDup (seen xs : list Z) : NoDup (unique_from seen xs).
Proof.
  revert seen. induction xs as [|y xs IH]; intros seen; cbn [unique_from].
  - constructor.
  - case_bool_decide as Hy; [apply IH|].
    constructor; [|apply IH].
    rewrite unique_from_elem, elem_of_cons. tauto.
Qed.

Lemma unique_elem (xs : list Z) (x : Z) : x ∈ unique xs <-> x ∈ xs.
Proof. unfold unique. rewrite unique_from_elem, elem_of_nil. tauto. Qed.

Lemma unique_NoDup (xs : list Z) : NoDup (unique xs).
Proof. apply unique_from_NoDup. Qed.

Lemma sorted_elem (xs : list Z) (x : Z) : x ∈ sorted xs <-> x ∈ xs.
Proof. unfold sorted. by rewrite merge_sort_Permutation. Qed.

Lemma sorted_NoDup (xs : list Z) : NoDup xs -> NoDup (sorted xs).
Proof. unfold sorted. by rewrite merge_sort_Permutation. Qed.

Lemma le_sorted_NoDup_lt (xs : list Z) :
  StronglySorted Z.le xs -> NoDup xs -> StronglySorted Z.lt xs.
Proof.
  induction 1 as [|x xs Hs IH Hx]; intros Hnd; [constructor|].
  apply NoDup_cons in Hnd as [Hnotin Hnd].
  constructor; [by apply IH|].
  rewrite Forall_forall in Hx |- *. intros y Hy.
  assert (x <> y) by (by intros ->).
  specialize (Hx y Hy). lia.
Qed.

Lemma sorted_unique_ascending (xs : list Z) : StronglySorted Z.lt (sorted (unique xs)).
Proof.
  apply le_sorted_NoDup_lt.
  - apply (StronglySorted_merge_sort Z.le).
  - apply sorted_NoDup, unique_NoDup.
Qed.

Lemma sorted_unique_elem (xs : list Z) (x : Z) : x ∈ sorted (unique xs) <-> x ∈ xs.
Proof. by rewrite sorted_elem, unique_elem. Qed.

Lemma lt_sorted_NoDup (xs : list Z) : StronglySorted Z.lt xs -> NoDup xs.
Proof.
  induction 1 as [|x xs Hs IH Hx]; constructor; [|done].
  intros Hin. rewrite Forall_forall in Hx.
  specialize (Hx x Hin). lia.
Qed.

Section DerivedRules.
Context (P : Event -> Prop).
Implicit Types ws : list (path * bytes).

Lemma runs_bind_lift {A B} ws0 (r : result A) (k : A -> M B)
    (R : B -> list (path * bytes) -> Prop) :
  (forall a, r = Ok a -> runs P ws0 (k a) R) ->
  runs P ws0 (bind (lift r) k) R.
Proof.
  intros Hk.
  apply (runs_bind P ws0 _ _ (fun a ws1 => r = Ok a /\ ws1 = ws0)).
  - by apply runs_lift.
  - intros a ws [Hr ->]. by apply Hk.
Qed.

Lemma runs_bind_emit {B} ws0 (ev : Event) (k : unit -> M B)
    (R : B -> list (path * bytes) -> Prop) :
  event_file ev = None -> P ev ->
  runs P ws0 (k tt) R ->
  runs P ws0 (bind (emit ev) k) R.
Proof.
  intros Hf Hev Hk.
  apply (runs_bind P ws0 _ _ (fun _ ws1 => ws1 = ws0)).
  - by apply runs_emit.
  - intros [] ws ->. done.
Qed.

Lemma runs_bind_show {B} (w : World) ws0 (ev : Event) (k : unit -> M B)
    (R : B -> list (path * bytes) -> Prop) :
  event_file ev = None -> P ev ->
  runs P ws0 (k tt) R ->
  runs P ws0 (bind (st_show w ev) k) R.
Proof.
  intros Hf Hev Hk.
  apply (runs_bind P ws0 _ _ (fun _ ws1 => ws1 = ws0)).
  - by apply runs_show.
  - intros [] ws ->. done.
Qed.

Lemma runs_bind_read {B} ws0 (file : path) (k : bytes -> M B)
    (R : B -> list (path * bytes) -> Prop) :
  file ∈ ws0.*1 ->
  (forall data, runs P ws0 (k data) R) ->
  runs P ws0 (bind (read_file file) k) R.
Proof.
  intros Hin Hk.
  apply (runs_bind P ws0 _ _ (fun _ ws1 => ws1 = ws0)).
  - by apply runs_read.
  - intros data ws ->. apply Hk.
Qed.

Lemma runs_bind_write {B} ws0 (file : path) (data : bytes) (ev : Event)
    (k : unit -> M B) (R : B -> list (path * bytes) -> Prop) :
  event_file ev = Some file -> P ev ->
  runs P (ws0 ++ [(file, data)]) (k tt) R ->
  runs P ws0 (bind (write_file file data ev) k) R.
Proof.
  intros Hf Hev Hk.
  apply (runs_bind P ws0 _ _ (fun _ ws1 => ws1 = ws0 ++ [(file, data)])).
  - by apply runs_write.
  - intros [] ws ->. done.
Qed.

End DerivedRules.

(** ** The blocks of the script *)

Section Blocks.
Context (w : World) (side : Sidebar).
Implicit Types ws : list (path * bytes).

Lemma year_frame_scale df name th yr f :
  year_frame w df name th yr = Ok f ->
  color_continuous_scale f = theme_scale th.
Proof.
  unfold year_frame. destruct (df_getitem df "Year"); cbn; [|done].
  destruct (px_choropleth_raises w _); cbn; [done|]. by intros [= <-].
Qed.

Lemma full_range_chart_scale df name th fig :
  full_range_chart w df name th = Ok fig ->
  color_continuous_scale fig = theme_scale th.
Proof.
  unfold full_range_chart. destruct (df_getitem df "Year"); cbn; [|done].
  destruct (series_astype_str _); cbn; [|done].
  destruct (px_choropleth_raises w _); cbn; [done|].
  destruct (df_getitem df name); cbn; [|done].
  destruct (series_quantile w _ _); cbn; [|done].
  by intros [= <-].
Qed.

Lemma fetch_spec code name iso_list fs :
  fetch w code name iso_list fs
  = mk_Outcome (fetched w code name iso_list) fs
      [ev_get_dataframe (code, name) iso_list (start_date, end_date)].
Proof.
  unfold fetch, fetched, bind, emit, lift. cbn.
  by destruct (wbdata_get_dataframe w _ _ _).
Qed.

Lemma runs_fetch ws0 code name iso_list :
  runs (metric_event w side iso_list name code) ws0 (fetch w code name iso_list)
    (fun df _ => fetched w code name iso_list = Ok df).
Proof.
  exists (fetched w code name iso_list),
    [ev_get_dataframe (code, name) iso_list (start_date, end_date)], [].
  rewrite app_nil_r. split_and!; try done.
  - intros fs. apply fetch_spec.
  - by constructor.
Qed.

Section Present.
Context (name code : string) (df : DataFrame).
Let P := present_event w side name code df.

Lemma runs_render_frames ws0 years frame_paths :
  (forall yr, yr ∈ years -> yr ∈ years_of df) ->
  (forall p, p ∈ frame_paths -> p ∈ ws0.*1) ->
  runs P ws0
    (render_frames w df code name (rd_value (theme side)) years frame_paths)
    (fun r ws1 => r = frame_paths ++ map (frame_path code) years
                  /\ forall p, p ∈ r -> p ∈ ws1.*1).
Proof.
  revert ws0 frame_paths.
  induction years as [|yr years IH]; intros ws0 frame_paths Hyears Hin;
    cbn [render_frames].
  - apply runs_ret. rewrite app_nil_r. done.
  - apply runs_bind_lift. intros f Hf.
    apply runs_bind_lift. intros png _.
    apply runs_bind_write; [done| |].
    { exists yr. split_and!; [|done|done]. apply Hyears. by left. }
    eapply runs_weaken.
    + apply IH.
      * intros y Hy. apply Hyears. by right.
      * intros p. rewrite fmap_app, !elem_of_app.
        intros [Hp|Hp]; [left; by apply Hin|right].
        apply list_elem_of_singleton in Hp as ->. cbn. by left.
    + cbn beta. intros r ws1 [-> Hr]. split; [|done].
      by rewrite <- (assoc_L (++)).
Qed.

Lemma runs_read_files ws0 sequence :
  (forall p, p ∈ sequence -> p ∈ ws0.*1) ->
  runs P ws0 (read_files sequence) (fun _ ws1 => ws1 = ws0).
Proof.
  induction sequence as [|file rest IH]; intros Hin; cbn [read_files].
  - by apply runs_ret.
  - apply runs_bind_read; [apply Hin; by left|]. intros data.
    apply (runs_bind P ws0 _ _ (fun _ ws1 => ws1 = ws0)).
    + apply IH. intros p Hp. apply Hin. by right.
    + intros more ws ->. by apply runs_ret.
Qed.

Lemma runs_assemble ws0 :
  (forall p, p ∈ map (frame_path code) (years_of df) -> p ∈ ws0.*1) ->
  runs P ws0
    (assemble w code (map (frame_path code) (years_of df)) (sl_value (fps side)))
    (fun r ws1 => fst r ∈ ws1.*1 /\ snd r ∈ ws1.*1).
Proof.
  intros Hin. unfold assemble.
  apply (runs_bind P ws0 _ _ (fun _ ws1 => ws1 = ws0)).
  { by apply runs_read_files. }
  intros images ws ->.
  apply runs_bind_lift. intros [] _.
  apply runs_bind_emit; [done|done|].
  apply runs_bind_lift. intros gif _.
  apply runs_bind_write; [done|done|].
  apply runs_bind_lift. intros mp4 _.
  apply runs_bind_write; [done|done|].
  apply runs_ret. cbn [fst snd]. rewrite !fmap_app. cbn. set_solver.
Qed.

Lemma list_last_elem {A} (xs : list A) (x : A) : list_last xs = Ok x -> x ∈ xs.
Proof.
  unfold list_last. destruct (last xs) as [y|] eqn:E; [|done].
  intros [= <-]. apply last_Some in E as [l' ->]. set_solver.
Qed.

Lemma runs_offer_downloads ws0 years frame_paths gif_p mp4_p :
  (forall p, p ∈ frame_paths -> p ∈ ws0.*1) ->
  gif_p ∈ ws0.*1 -> mp4_p ∈ ws0.*1 ->
  runs P ws0 (offer_downloads w code years frame_paths gif_p mp4_p)
    (fun _ _ => True).
Proof.
  intros Hin Hg Hm. unfold offer_downloads.
  apply runs_bind_show; [done|done|].
  apply runs_bind_lift. intros last_frame Hlast.
  apply runs_bind_read; [by apply Hin, list_last_elem|]. intros png.
  apply runs_bind_lift. intros last_year _.
  apply runs_bind_show; [done|left; eauto|].
  apply runs_bind_read; [done|]. intros gif.
  apply runs_bind_show; [done|right; left; eauto|].
  apply runs_bind_read; [done|]. intros mp4.
  apply runs_show; [done|right; right; eauto|done].
Qed.

Lemma years_of_line_160 years :
  (year <- df_getitem df "Year" ;; sorted_unique year)%result = Ok years ->
  years = years_of df.
Proof.
  unfold years_of, table_years.
  destruct (df_getitem df "Year") as [[]|]; cbn; try done. by intros [= <-].
Qed.

Lemma runs_present ws0 :
  runs P ws0 (present w side name code df) (fun _ _ => True).
Proof.
  unfold present.
  apply runs_bind_lift. intros fig Hfig.
  apply runs_bind_show; [done|done|].
  apply runs_bind_show; [done|done|].
  apply runs_bind_show; [done|by left|].
  apply runs_bind_lift. intros trend_df Htrend.
  apply runs_bind_show; [done|done|].
  apply runs_bind_lift. intros years ->%years_of_line_160.
  eapply runs_bind.
  { apply runs_render_frames; [done|]. by intros p ?%elem_of_nil. }
  cbn beta. intros frame_paths ws [-> Hin]. rewrite app_nil_l in *.
  eapply runs_bind.
  { by apply runs_assemble. }
  cbn beta. intros [gif_p mp4_p] ws' [Hg Hm]. cbn [fst snd] in *.
  eapply runs_bind.
  { apply runs_offer_downloads; [|done|done].
    intros p Hp. rewrite fmap_app, elem_of_app. left. by apply Hin. }
  cbn beta. intros _ ws'' _.
  apply runs_bind_show; [done|by right|].
  by apply runs_show.
Qed.

End Present.

Lemma present_metric_event iso_list name code df ev :
  fetched w code name iso_list = Ok df -> df_empty df = false ->
  present_event w side name code df ev ->
  metric_event w side iso_list name code ev.
Proof. intros Hdf Hne Hev. destruct ev; try done; cbn; eauto. Qed.

Lemma runs_process_metric ws0 iso_list name code :
  runs (metric_event w side iso_list name code) ws0
    (process_metric w side iso_list name code) (fun _ _ => True).
Proof.
  unfold process_metric.
  eapply runs_bind; [by apply runs_fetch|].
  cbn beta. intros df ws Hdf. destruct (df_empty df) eqn:Hempty.
  - apply runs_emit; [done| |done]. cbn. eauto.
  - eapply runs_mono; [|apply runs_present].
    intros ev. by apply present_metric_event.
Qed.

Lemma dict_get_line_115 name code :
  match dict_get metrics name with
  | Some code => Ok code
  | None => Raise ("'" +:+ name +:+ "'")
  end = Ok code ->
  dict_get metrics name = Some code.
Proof. destruct (dict_get metrics name); congruence. Qed.

Lemma runs_one_metric ws0 iso_list name :
  runs (fun ev => exists code, dict_get metrics name = Some code
                               /\ metric_event w side iso_list name code ev)
    ws0 (one_metric w side iso_list name) (fun _ _ => True).
Proof.
  unfold one_metric. apply runs_bind_lift. intros code Hcode%dict_get_line_115.
  apply runs_mono with (P := metric_event w side iso_list name code); [by eauto|].
  apply runs_try.
  - apply runs_process_metric.
  - intros e ws. apply runs_emit; [done| |done]. cbn. by exists e.
Qed.

Lemma runs_main ws0 iso_map :
  runs (main_event w iso_map side) ws0 (main w iso_map side) (fun _ _ => True).
Proof.
  unfold main. destruct (_ || _)%bool.
  - apply runs_emit; [done|by left|done].
  - apply runs_for_each. intros name ws Hname.
    eapply runs_mono; [|apply runs_one_metric].
    cbn beta. intros ev (code & Hcode & Hev). right. by exists name, code.
Qed.

End Blocks.

(** ** The purge of lines 104-106 *)

Lemma os_listdir_elem (directory fname : string) (fs : FileSystem) :
  fname ∈ os_listdir directory fs <-> is_Some (fs !! (directory, fname)).
Proof.
  unfold os_listdir. rewrite list_elem_of_fmap. split.
  - intros ([d n] & -> & Hin). apply list_elem_of_filter in Hin as [Hd Hin].
    cbn in Hd. subst d. apply list_elem_of_fmap in Hin as ([k v] & Hk & Hkv).
    cbn in Hk. subst k. apply elem_of_map_to_list in Hkv. cbn. eauto.
  - intros [v Hv]. exists (directory, fname). split; [done|].
    apply list_elem_of_filter. split; [done|].
    apply list_elem_of_fmap. exists (directory, fname, v). split; [done|].
    by apply elem_of_map_to_list.
Qed.

Lemma purge_loop (names : list string) (fs : FileSystem) :
  for_each names
    (fun fname => if is_artifact fname
                  then os_remove (os_path_join FRAME_DIR fname)
                  else ret tt) fs
  = mk_Outcome (Ok tt) (remove_artifacts fs names) [].
Proof.
  revert fs. induction names as [|n names IH]; intros fs; [done|].
  cbn [for_each remove_artifacts foldl]. unfold bind.
  destruct (is_artifact n); cbn; by rewrite IH.
Qed.

Lemma remove_artifacts_cons (fs : FileSystem) (n : string) (names : list string) :
  remove_artifacts fs (n :: names)
  = remove_artifacts
      (if is_artifact n then delete (os_path_join FRAME_DIR n) fs else fs) names.
Proof. done. Qed.

Lemma remove_artifacts_None (names : list string) (fs : FileSystem) (p : path) :
  fs !! p = None -> remove_artifacts fs names !! p = None.
Proof.
  revert fs. induction names as [|n names IH]; intros fs Hp; [done|].
  rewrite remove_artifacts_cons. apply IH.
  destruct (is_artifact n); [|done]. apply lookup_delete_None. by right.
Qed.

Lemma remove_artifacts_hit (names : list string) (fs : FileSystem) (p : path) :
  artifact_path p -> snd p ∈ names -> remove_artifacts fs names !! p = None.
Proof.
  intros Hart. revert fs. induction names as [|n names IH]; intros fs Hin.
  - by apply elem_of_nil in Hin.
  - rewrite remove_artifacts_cons.
    apply elem_of_cons in Hin as [Hn|Hin]; [|by apply IH].
    apply remove_artifacts_None.
    destruct p as [d x], Hart as [Hd Hx]. cbn [fst snd] in Hd, Hx, Hn. subst d x.
    rewrite Hx. apply lookup_delete_eq.
Qed.

Lemma remove_artifacts_miss (names : list string) (fs : FileSystem) (p : path) :
  ~ (artifact_path p /\ snd p ∈ names) -> remove_artifacts fs names !! p = fs !! p.
Proof.
  revert fs. induction names as [|n names IH]; intros fs Hmiss; [done|].
  rewrite remove_artifacts_cons, IH.
  - destruct (is_artifact n) eqn:En; [|done].
    apply lookup_delete_ne. intros <-. apply Hmiss. split; [done|]. by left.
  - intros [Hart Hin]. apply Hmiss. split; [done|]. by right.
Qed.

Lemma purge_frame_dir_spec (fs : FileSystem) :
  purge_frame_dir fs = mk_Outcome (Ok tt) (purged fs) [].
Proof.
  unfold purge_frame_dir. rewrite purge_loop. f_equal.
  apply map_eq. intros p. unfold purged.
  destruct (decide (artifact_path p)) as [Hart|Hart].
  - transitivity (@None bytes).
    + destruct (fs !! p) as [v|] eqn:Hp; [|by apply remove_artifacts_None].
      apply remove_artifacts_hit; [done|].
      destruct p as [d x], Hart as [Hd _]. cbn [fst] in Hd. subst d.
      apply os_listdir_elem. cbn. eauto.
    + symmetry. apply map_lookup_filter_None. right. intros v _ Hn. by apply Hn.
  - rewrite remove_artifacts_miss by tauto.
    symmetry. destruct (fs !! p) as [v|] eqn:Hp.
    + by apply map_lookup_filter_Some.
    + apply map_lookup_filter_None. by left.
Qed.

Lemma purged_artifact (fs : FileSystem) (p : path) :
  artifact_path p -> purged fs !! p = None.
Proof.
  intros Hart. apply map_lookup_filter_None. right. intros v _ Hn. by apply Hn.
Qed.

Lemma purged_other (fs : FileSystem) (p : path) :
  ~ artifact_path p -> purged fs !! p = fs !! p.
Proof.
  intros Hart. destruct (fs !! p) as [v|] eqn:Hp.
  - by apply map_lookup_filter_Some.
  - apply map_lookup_filter_None. by left.
Qed.

(** ** The whole run *)

Lemma runs_from_start {A} (P : Event -> Prop) (m : M A)
    (Q : A -> list (path * bytes) -> Prop) :
  runs P [] m Q ->
  exists v t ws,
    (forall fs, m fs = mk_Outcome v (write_all ws fs) t)
    /\ ws.*1 = omap event_file t
    /\ Forall P t.
Proof.
  intros (v & t & ws & Hm & Hw & Ht & _). exists v, t, ws. by split_and!.
Qed.

Section Run.
Context (w : World) (iso_map : list (string * string)) (side : Sidebar).

Lemma main_normal_form :
  exists v t ws,
    (forall fs, main w iso_map side fs = mk_Outcome v (write_all ws fs) t)
    /\ ws.*1 = omap event_file t
    /\ Forall (main_event w iso_map side) t.
Proof.
  apply (runs_from_start _ _ _ (runs_main w side [] iso_map)).
Qed.

Lemma run_main (fs : FileSystem) :
  run w iso_map side fs = main w iso_map side (purged fs).
Proof.
  unfold run, bind. rewrite purge_frame_dir_spec. cbn.
  by destruct (main w iso_map side (purged fs)).
Qed.

Lemma run_normal_form :
  exists v t ws,
    (forall fs, run w iso_map side fs = mk_Outcome v (write_all ws (purged fs)) t)
    /\ ws.*1 = omap event_file t
    /\ Forall (main_event w iso_map side) t.
Proof.
  destruct main_normal_form as (v & t & ws & Hm & Hw & Ht).
  exists v, t, ws. split_and!; try done. intros fs. by rewrite run_main, Hm.
Qed.

Lemma run_events (fs : FileSystem) (ev : Event) :
  ev ∈ trace (run w iso_map side fs) -> main_event w iso_map side ev.
Proof.
  destruct run_normal_form as (v & t & ws & Hm & Hw & Ht).
  rewrite Hm. cbn. rewrite Forall_forall in Ht. apply Ht.
Qed.

End Run.

Lemma one_metric_fs_irrelevant (w : World) (side : Sidebar) (iso_list : list string)
    (name : string) (fs : FileSystem) :
  value (one_metric w side iso_list name fs) = value (one_metric w side iso_list name ∅)
  /\ trace (one_metric w side iso_list name fs) = metric_trace w side iso_list name.
Proof.
  destruct (runs_from_start _ _ _ (runs_one_metric w side [] iso_list name))
    as (v & t & ws & Hm & _).
  unfold metric_trace. by rewrite (Hm fs), (Hm ∅).
Qed.

Lemma process_metric_fs_irrelevant (w : World) (side : Sidebar) (iso_list : list string)
    (name code : string) (fs fs' : FileSystem) :
  value (process_metric w side iso_list name code fs)
  = value (process_metric w side iso_list name code fs')
  /\ trace (process_metric w side iso_list name code fs)
     = trace (process_metric w side iso_list name code fs').
Proof.
  destruct (runs_from_start _ _ _ (runs_process_metric w side [] iso_list name code))
    as (v & t & ws & Hm & _).
  by rewrite (Hm fs), (Hm fs').
Qed.

Lemma one_metric_unfold (w : World) (side : Sidebar) (iso_list : list string)
    (name code : string) (fs : FileSystem) :
  dict_get metrics name = Some code ->
  one_metric w side iso_list name fs
  = try_except (process_metric w side iso_list name code)
      (fun e => emit (error_event name e)) fs.
Proof.
  intros Hcode. unfold one_metric, bind, lift. rewrite Hcode. cbn.
  by destruct (try_except _ _ fs).
Qed.

Lemma one_metric_returns (w : World) (side : Sidebar) (iso_list : list string)
    (name code : string) (fs : FileSystem) :
  dict_get metrics name = Some code ->
  value (one_metric w side iso_list name fs) = Ok tt.
Proof.
  intros Hcode. rewrite (one_metric_unfold _ _ _ _ code) by done.
  unfold try_except. destruct (value (process_metric _ _ _ _ _ fs)) as [[]|e] eqn:E; [done|].
  done.
Qed.

Lemma selected_in_catalog (side : Sidebar) (name : string) :
  name ∈ ms_value (selected_metrics side) ->
  exists code, dict_get metrics name = Some code.
Proof.
  intros Hin. pose proof (ms_among _ (selected_metrics side)) as Hall.
  rewrite forallb_forall in Hall. apply list_elem_of_In in Hin.
  specialize (Hall name Hin). apply existsb_exists in Hall as (key & Hkey & Heq).
  apply String.eqb_eq in Heq. subst key.
  unfold dict_keys, metrics in Hkey. cbn in Hkey.
  destruct Hkey as [<-|[<-|[<-|[<-|[]]]]]; eauto.
Qed.

Lemma for_each_one_metric (w : World) (side : Sidebar) (iso_list : list string)
    (names : list string) (fs : FileSystem) :
  (forall name, name ∈ names -> exists code, dict_get metrics name = Some code) ->
  value (for_each names (one_metric w side iso_list) fs) = Ok tt
  /\ trace (for_each names (one_metric w side iso_list) fs)
     = flat_map (metric_trace w side iso_list) names.
Proof.
  revert fs. induction names as [|name names IH]; intros fs Hcat; [done|].
  cbn [for_each flat_map]. unfold bind.
  destruct (Hcat name) as [code Hcode]; [by left|].
  rewrite (one_metric_returns _ _ _ _ code) by done. cbn.
  destruct (IH (files (one_metric w side iso_list name fs))) as [Hv Ht].
  { intros n Hn. apply Hcat. by right. }
  split; [done|]. rewrite Ht. f_equal.
  apply one_metric_fs_irrelevant.
Qed.

(** ** The Metric Table *)

Lemma catalog_names (name code : string) :
  dict_get metrics name = Some code ->
  name ∈ dict_keys metrics.
Proof.
  unfold metrics, dict_keys. cbn [dict_get map fst].
  repeat match goal with
         | |- context [String.eqb ?k name] =>
             destruct (String.eqb_spec k name) as [<-|_];
             [intros _; apply list_elem_of_In; cbn; tauto|]
         end.
  done.
Qed.

Lemma catalog_name_fresh (name code : string) :
  dict_get metrics name = Some code ->
  name <> "country" /\ name <> "date" /\ name <> "Year" /\ name <> "Country".
Proof.
  intros H%catalog_names. unfold dict_keys, metrics in H. cbn [map fst] in H.
  repeat (apply elem_of_cons in H as [->|H]; [by split_and!|]).
  by apply elem_of_nil in H.
Qed.

Lemma fetched_table (w : World) (code name : string) (iso_list : list string)
    (obs : list Observation) :
  dict_get metrics name = Some code ->
  wbdata_get_dataframe w (code, name) iso_list (start_date, end_date)
  = Ok (frame_indexed by_country_date name obs) ->
  fetched w code name iso_list = Ok (metric_table name (kept obs)).
Proof.
  intros (Hc & Hd & Hy & _)%catalog_name_fresh Hobs.
  unfold fetched. rewrite Hobs. cbn [rbind]. by apply normalize_frame.
Qed.

(** What lines 118-125 return for the records [obs] of a response, by
    the index the client gives its frame. *)
Lemma fetched_response (w : World) (code name : string) (iso_list : list string)
    (obs : list Observation) :
  dict_get metrics name = Some code ->
  wbdata_get_dataframe w (code, name) iso_list (start_date, end_date)
  = frame_of_observations name obs ->
  fetched w code name iso_list
  = match obs with
    | [] => Raise "list index out of range"
    | _ :: _ =>
        match response_index obs with
        | by_date => Ok (metric_table_by_date name (kept obs))
        | by_country => Raise "'date'"
        | by_country_date => Ok (metric_table name (kept obs))
        end
    end.
Proof.
  intros (Hc & Hd & Hy & _)%catalog_name_fresh Hobs.
  unfold fetched. rewrite Hobs. unfold frame_of_observations.
  destruct obs as [|o obs]; [done|]. cbn [rbind].
  destruct (response_index (o :: obs)).
  - by apply normalize_frame_by_date.
  - by apply normalize_frame_by_country.
  - by apply normalize_frame.
Qed.

Lemma metric_table_Country (name : string) (obs : list Observation) :
  df_getitem (metric_table name obs) "Country" = Ok (StrSeries (map obs_country obs)).
Proof. done. Qed.

Lemma metric_table_Year (name : string) (obs : list Observation) :
  name <> "Year" ->
  df_getitem (metric_table name obs) "Year"
  = Ok (IntSeries (map (fun o => dt_year (obs_date o)) obs)).
Proof.
  intros Hy. unfold metric_table. cbn [df_getitem].
  change (String.eqb "Country" "Year") with false.
  change (String.eqb "date" "Year") with false.
  change (String.eqb "Year" "Year") with true.
  by destruct (String.eqb_spec name "Year").
Qed.

Lemma metric_table_metric (name : string) (obs : list Observation) :
  name <> "Country" -> name <> "date" ->
  df_getitem (metric_table name obs) name = Ok (FloatSeries (map obs_value obs)).
Proof.
  intros Hc Hd. unfold metric_table. cbn [df_getitem].
  destruct (String.eqb_spec "Country" name); [congruence|].
  destruct (String.eqb_spec "date" name); [congruence|].
  by rewrite String.eqb_refl.
Qed.


Lemma metric_table_years (name : string) (obs : list Observation) :
  name <> "Year" ->
  table_years (metric_table name obs) = map (fun o => dt_year (obs_date o)) obs.
Proof. intros Hy. unfold table_years. by rewrite metric_table_Year. Qed.



(** ** (Country, Year) pairs and the pivot *)

Lemma zip_map {A B C} (f : A -> B) (g : A -> C) (l : list A) :
  zip (map f l) (map g l) = map (fun x => (f x, g x)) l.
Proof. induction l as [|x l IH]; [done|]. cbn. by rewrite IH. Qed.




(** ** Stepping through a sequence of statements *)

Lemma prepend_nil {A} (o : Outcome A) : prepend [] o = o.
Proof. by destruct o. Qed.

Lemma prepend_prepend {A} (t1 t2 : list Event) (o : Outcome A) :
  prepend t1 (prepend t2 o) = prepend (t1 ++ t2) o.
Proof. unfold prepend. cbn. by rewrite (assoc_L (++)). Qed.

Lemma bind_outcome {A B} (m : M A) (k : A -> M B) (fs fs' : FileSystem)
    (a : A) (t : list Event) :
  m fs = mk_Outcome (Ok a) fs' t -> bind m k fs = prepend t (k a fs').
Proof. intros Hm. unfold bind. by rewrite Hm. Qed.

Lemma bind_raises {A B} (m : M A) (k : A -> M B) (fs : FileSystem) (e : string) :
  value (m fs) = Raise e ->
  bind m k fs = mk_Outcome (Raise e) (files (m fs)) (trace (m fs)).
Proof. intros Hm. unfold bind. by rewrite Hm. Qed.

Lemma bind_lift {A B} (r : result A) (k : A -> M B) (fs : FileSystem) :
  bind (lift r) k fs
  = match r with
    | Ok a => k a fs
    | Raise e => mk_Outcome (Raise e) fs []
    end.
Proof. unfold bind, lift. cbn. destruct r; [|done]. by destruct (k a fs). Qed.

Lemma bind_emit {B} (ev : Event) (k : unit -> M B) (fs : FileSystem) :
  bind (emit ev) k fs = prepend [ev] (k tt fs).
Proof. done. Qed.

Lemma bind_show {B} (w : World) (ev : Event) (k : unit -> M B) (fs : FileSystem) :
  bind (st_show w ev) k fs
  = match st_raises w ev with
    | Some e => mk_Outcome (Raise e) fs []
    | None => prepend [ev] (k tt fs)
    end.
Proof. unfold st_show. by destruct (st_raises w ev). Qed.

Lemma bind_write {B} (file : path) (data : bytes) (ev : Event) (k : unit -> M B)
    (fs : FileSystem) :
  bind (write_file file data ev) k fs = prepend [ev] (k tt (<[file := data]> fs)).
Proof. done. Qed.

Lemma bind_read {B} (file : path) (k : bytes -> M B) (fs : FileSystem) (data : bytes) :
  fs !! file = Some data -> bind (read_file file) k fs = k data fs.
Proof.
  intros Hf. unfold bind, read_file. rewrite Hf. cbn. by destruct (k data fs).
Qed.

Lemma bind_assoc {A B C} (m : M A) (k : A -> M B) (k' : B -> M C) (fs : FileSystem) :
  bind (bind m k) k' fs = bind m (fun a => bind (k a) k') fs.
Proof.
  unfold bind. destruct (value (m fs)) as [a|e]; cbn; [|done].
  destruct (value (k a (files (m fs)))) as [b|e]; cbn; [|done].
  by rewrite (assoc_L (++)).
Qed.

(** ** Paths of the scratch directory *)

Lemma string_length_app (a b : string) :
  String.length (a +:+ b) = (String.length a + String.length b)%nat.
Proof.
  induction a as [|c a IH]; [done|].
  change (String c a +:+ b) with (String c (a +:+ b)). cbn [String.length].
  by rewrite IH.
Qed.

Lemma string_app_inj_l (a b t : string) : a +:+ t = b +:+ t -> a = b.
Proof.
  revert b. induction a as [|c a IH]; intros [|c' b] H.
  - done.
  - apply (f_equal String.length) in H.
    change (String c' b +:+ t) with (String c' (b +:+ t)) in H.
    change ("" +:+ t) with t in H.
    cbn [String.length] in H. rewrite string_length_app in H. lia.
  - apply (f_equal String.length) in H.
    change (String c a +:+ t) with (String c (a +:+ t)) in H.
    change ("" +:+ t) with t in H.
    cbn [String.length] in H. rewrite string_length_app in H. lia.
  - change (String c a +:+ t) with (String c (a +:+ t)) in H.
    change (String c' b +:+ t) with (String c' (b +:+ t)) in H.
    injection H as -> H. f_equal. by apply IH.
Qed.

Lemma frame_path_inj (code : string) (y y' : Z) :
  frame_path code y = frame_path code y' -> y = y'.
Proof.
  unfold frame_path, os_path_join. intros [= H].
  apply (inj (String.app code)) in H. apply (inj (String.app "_")) in H.
  apply string_app_inj_l in H. by apply (inj pretty) in H.
Qed.

Lemma frame_path_not_gif (code : string) (y : Z) : frame_path code y <> gif_path code.
Proof.
  unfold frame_path, gif_path, os_path_join. intros [= H].
  apply (inj (String.app code)) in H. done.
Qed.

Lemma frame_path_not_mp4 (code : string) (y : Z) : frame_path code y <> mp4_path code.
Proof.
  unfold frame_path, mp4_path, os_path_join. intros [= H].
  apply (inj (String.app code)) in H. done.
Qed.

Lemma gif_path_not_mp4 (code : string) : gif_path code <> mp4_path code.
Proof.
  unfold gif_path, mp4_path, os_path_join. intros [= H].
  apply (inj (String.app code)) in H. done.
Qed.

Lemma write_all_lookup_NoDup (ws : list (path * bytes)) (fs : FileSystem)
    (p : path) (d : bytes) :
  NoDup ws.*1 -> (p, d) ∈ ws -> write_all ws fs !! p = Some d.
Proof.
  induction ws as [|[q e] ws IH] using rev_ind; [by intros _ ?%elem_of_nil|].
  rewrite fmap_app, write_all_snoc. cbn. intros Hnd Hin.
  apply NoDup_app in Hnd as (Hnd & Hq & _).
  apply elem_of_app in Hin as [Hin|Hin].
  - rewrite lookup_insert_ne; [by apply IH|].
    intros ->. apply (Hq p); [|by left].
    apply list_elem_of_fmap. by exists (p, d).
  - apply list_elem_of_singleton in Hin as [= -> ->]. apply lookup_insert_eq.
Qed.

(** ** The frame loop, exactly *)

#[global] Instance frame_path_Inj (code : string) : Inj (=) (=) (frame_path code).
Proof. intros y y'. apply frame_path_inj. Qed.

Section Exact.
Context (w : World) (side : Sidebar) (name code : string) (df : DataFrame).

Local Abbreviation th := (rd_value (theme side)).
Local Abbreviation rendered := (rendered_frames w df name th).

Lemma rendered_frames_length years : (length (rendered years) <= length years)%nat.
Proof.
  induction years as [|yr years IH]; cbn [rendered_frames]; [done|].
  destruct (year_frame w df name th yr) as [f|]; [|cbn; lia].
  destruct (pio_write_image w f); cbn; lia.
Qed.

Lemma rendered_frames_years years :
  map (fun r => fst (fst r)) (rendered years) = take (length (rendered years)) years.
Proof.
  induction years as [|yr years IH]; cbn [rendered_frames]; [done|].
  destruct (year_frame w df name th yr) as [f|]; [|done].
  destruct (pio_write_image w f); [|done]. cbn. by rewrite IH.
Qed.

Lemma rendered_frames_ok years :
  Forall (fun r => year_frame w df name th (fst (fst r)) = Ok (snd (fst r))
                   /\ pio_write_image w (snd (fst r)) = Ok (snd r))
    (rendered years).
Proof.
  induction years as [|yr years IH]; cbn [rendered_frames]; [done|].
  destruct (year_frame w df name th yr) as [f|] eqn:Hf; [|done].
  destruct (pio_write_image w f) eqn:Hpng; [|done]. by constructor.
Qed.

Lemma render_frames_exact years frame_paths fs :
  exists v,
    render_frames w df code name th years frame_paths fs
    = mk_Outcome v (write_all (frame_writes code (rendered years)) fs)
        (frame_events code (rendered years))
    /\ (length (rendered years) = length years ->
        v = Ok (frame_paths ++ map (frame_path code) years))
    /\ (length (rendered years) <> length years -> exists e, v = Raise e).
Proof.
  revert frame_paths fs.
  induction years as [|yr years IH]; intros frame_paths fs;
    cbn [render_frames rendered_frames].
  - exists (Ok frame_paths). rewrite app_nil_r. by split_and!.
  - rewrite bind_lift. destruct (year_frame w df name th yr) as [f|e].
    2:{ exists (Raise e). split_and!; [done|done|eauto]. }
    rewrite bind_lift. destruct (pio_write_image w f) as [png|e].
    2:{ exists (Raise e). split_and!; [done|done|eauto]. }
    rewrite bind_write.
    destruct (IH (frame_paths ++ [frame_path code yr])
                (<[frame_path code yr := png]> fs)) as (v & -> & Hok & Hraise).
    exists v. split_and!.
    + done.
    + cbn [length]. intros [= Hlen]. rewrite (Hok Hlen).
      by rewrite <- (assoc_L (++)).
    + cbn [length]. intros Hlen. apply Hraise. congruence.
Qed.

Lemma read_files_exact (sequence : list path) (images : list bytes)
    (fs : FileSystem) :
  Forall2 (fun p d => fs !! p = Some d) sequence images ->
  read_files sequence fs = mk_Outcome (Ok images) fs [].
Proof.
  induction 1 as [|p d sequence images Hp _ IH]; [done|].
  cbn [read_files]. rewrite (bind_read _ _ _ d) by done.
  unfold bind. by rewrite IH.
Qed.

Lemma frame_writes_keys (rs : list (Z * Figure * bytes)) :
  (frame_writes code rs).*1 = frame_path code <$> map (fun r => fst (fst r)) rs.
Proof.
  unfold frame_writes. induction rs as [|r rs IH]; [done|]. cbn. by rewrite <- IH.
Qed.

Lemma written_frames_readable (rs : list (Z * Figure * bytes)) (fs : FileSystem) :
  NoDup (map (fun r => fst (fst r)) rs) ->
  Forall2 (fun p d => write_all (frame_writes code rs) fs !! p = Some d)
    (map (frame_path code) (map (fun r => fst (fst r)) rs)) (map snd rs).
Proof.
  intros Hnd. rewrite map_map. apply Forall2_fmap, Forall_Forall2_diag, Forall_forall.
  intros r Hr. apply write_all_lookup_NoDup.
  - rewrite frame_writes_keys. by apply (NoDup_fmap_2 (frame_path code)).
  - unfold frame_writes. apply list_elem_of_fmap. by exists r.
Qed.

End Exact.

(** ** Lines 131-208 when every call succeeds *)

Section Complete.
Context (w : World) (side : Sidebar) (name code : string) (df : DataFrame).

Local Abbreviation th := (rd_value (theme side)).
Local Abbreviation rate := (sl_value (fps side)).
Local Abbreviation rs := (rendered_frames w df name th (years_of df)).

Lemma years_of_ascending : StronglySorted Z.lt (years_of df).
Proof. apply sorted_unique_ascending. Qed.

Lemma years_of_NoDup : NoDup (years_of df).
Proof. apply lt_sorted_NoDup, years_of_ascending. Qed.

Lemma years_of_elem (y : Z) : y ∈ years_of df <-> y ∈ table_years df.
Proof. apply sorted_unique_elem. Qed.

Lemma present_complete (fs : FileSystem) :
  value (present w side name code df fs) = Ok tt ->
  exists fig trend gif mp4 last_year last_fig last_png,
    full_range_chart w df name th = Ok fig
    /\ pivot df "Year" "Country" name = Ok trend
    /\ map (fun r => fst (fst r)) rs = years_of df
    /\ last rs = Some (last_year, last_fig, last_png)
    /\ ImageSequenceClip_raises w (map snd rs) rate = None
    /\ write_gif w (map snd rs) rate = Ok gif
    /\ write_videofile w (map snd rs) rate "libx264" false = Ok mp4
    /\ present w side name code df fs
       = mk_Outcome (Ok tt)
           (<[mp4_path code := mp4]>
              (<[gif_path code := gif]> (write_all (frame_writes code rs) fs)))
           (complete_trace side name code df fig trend rs gif mp4 last_year last_png).
Proof.
  unfold present. intros H.
  rewrite bind_lift in H |- *.
  destruct (full_range_chart w df name th) as [fig|] eqn:Hfig; [|done].
  rewrite bind_show in H |- *. destruct (st_raises w _); [done|].
  cbn [prepend value] in H.
  rewrite bind_show in H |- *. destruct (st_raises w _); [done|].
  cbn [prepend value] in H.
  rewrite bind_show in H |- *. destruct (st_raises w _); [done|].
  cbn [prepend value] in H.
  rewrite bind_lift in H |- *.
  destruct (pivot df "Year" "Country" name) as [trend|] eqn:Htrend; [|done].
  rewrite bind_show in H |- *. destruct (st_raises w _); [done|].
  cbn [prepend value] in H.
  rewrite bind_lift in H |- *.
  destruct (rbind (df_getitem df "Year") _) as [years|] eqn:Hyears; [|done].
  apply years_of_line_160 in Hyears as ->.
  destruct (render_frames_exact w side name code df (years_of df) [] fs)
    as (v & Hrender & Hok & Hraise).
  destruct (decide (length rs = length (years_of df))) as [Hlen|Hlen].
  2:{ destruct (Hraise Hlen) as [e ->].
      rewrite (bind_raises _ _ _ e) in H by (by rewrite Hrender). done. }
  rewrite (Hok Hlen) in Hrender. clear Hok Hraise v.
  change ([] ++ map (frame_path code) (years_of df))
    with (map (frame_path code) (years_of df)) in Hrender.
  assert (map (fun r => fst (fst r)) rs = years_of df) as Hyears.
  { rewrite rendered_frames_years, Hlen. apply firstn_all. }
  rewrite (bind_outcome _ _ _ _ _ _ Hrender) in H |- *. cbn [prepend value] in H.
  set (fs1 := write_all (frame_writes code rs) fs) in *.
  unfold assemble in H |- *. rewrite bind_assoc in H |- *.
  assert (read_files (map (frame_path code) (years_of df)) fs1
          = mk_Outcome (Ok (map snd rs)) fs1 []) as Hread.
  { apply read_files_exact. rewrite <- Hyears at 1.
    apply written_frames_readable. rewrite Hyears. apply years_of_NoDup. }
  rewrite (bind_outcome _ _ _ _ _ _ Hread) in H |- *. rewrite prepend_nil in H |- *.
  rewrite bind_assoc, bind_lift in H |- *.
  destruct (ImageSequenceClip_raises w (map snd rs) rate) eqn:Hclip; [done|].
  cbn [check] in H |- *.
  rewrite bind_assoc, bind_emit in H |- *. cbn [prepend value] in H.
  rewrite bind_assoc, bind_lift in H |- *.
  destruct (write_gif w (map snd rs) rate) as [gif|] eqn:Hgif; [|done].
  rewrite bind_assoc, bind_write in H |- *. cbn [prepend value] in H.
  rewrite bind_assoc, bind_lift in H |- *.
  destruct (write_videofile w (map snd rs) rate "libx264" false) as [mp4|] eqn:Hmp4;
    [|done].
  rewrite bind_assoc, bind_write in H |- *. cbn [prepend value] in H.
  set (fs3 := <[mp4_path code := mp4]> (<[gif_path code := gif]> fs1)) in *.
  rewrite (bind_outcome _ _ fs3 fs3 (gif_path code, mp4_path code) []) in H |- * by done.
  rewrite prepend_nil in H |- *. cbn [fst snd] in H |- *.
  unfold offer_downloads in H |- *.
  rewrite bind_assoc, bind_show in H |- *. destruct (st_raises w _); [done|].
  cbn [prepend value] in H.
  rewrite bind_assoc, bind_lift in H |- *.
  destruct (list_last (map (frame_path code) (years_of df))) as [last_frame|] eqn:Hlast;
    [|done].
  unfold list_last in Hlast. rewrite <- Hyears in Hlast.
  rewrite map_map, fmap_last in Hlast.
  destruct (last rs) as [[[last_year last_fig] last_png]|] eqn:Hlastr; [|done].
  cbn in Hlast. injection Hlast as <-.
  assert (fs3 !! frame_path code last_year = Some last_png) as Hpng.
  { unfold fs3. rewrite lookup_insert_ne by (symmetry; apply frame_path_not_mp4).
    rewrite lookup_insert_ne by (symmetry; apply frame_path_not_gif).
    apply write_all_lookup_NoDup.
    - rewrite (frame_writes_keys code).
      apply (NoDup_fmap_2 (frame_path code)). rewrite Hyears. apply years_of_NoDup.
    - apply last_Some in Hlastr as [l' Hl']. rewrite Hl'. unfold frame_writes.
      rewrite map_app. apply elem_of_app. right. by left. }
  rewrite (bind_assoc (read_file _)), (bind_read _ _ _ last_png) in H |- * by done.
  assert (list_last (years_of df) = Ok last_year) as Hly.
  { unfold list_last. rewrite <- Hyears, fmap_last, Hlastr. done. }
  rewrite bind_assoc, bind_lift, Hly in H |- *.
  rewrite bind_assoc, bind_show in H |- *. destruct (st_raises w _); [done|].
  cbn [prepend value] in H.
  assert (fs3 !! gif_path code = Some gif) as Hg.
  { unfold fs3. rewrite lookup_insert_ne by (symmetry; apply gif_path_not_mp4).
    apply lookup_insert_eq. }
  rewrite (bind_assoc (read_file _)), (bind_read _ _ _ gif) in H |- * by done.
  rewrite bind_assoc, bind_show in H |- *. destruct (st_raises w _); [done|].
  cbn [prepend value] in H.
  assert (fs3 !! mp4_path code = Some mp4) as Hm by apply lookup_insert_eq.
  rewrite (bind_assoc (read_file _)), (bind_read _ _ _ mp4) in H |- * by done.
  rewrite bind_show in H |- *. destruct (st_raises w _); [done|].
  cbn [prepend value] in H.
  rewrite bind_show in H |- *. destruct (st_raises w _); [done|].
  cbn [prepend value] in H.
  unfold st_show in H |- *. destruct (st_raises w _); [done|].
  exists fig, trend, gif, mp4, last_year, last_fig, last_png.
  by split_and!.
Qed.

End Complete.

(** ** The frames a metric renders *)

Lemma omap_event_frame_none (t : list Event) :
  Forall (fun ev => event_frame ev = None) t -> omap event_frame t = [].
Proof. induction 1 as [|ev t Hev _ IH]; [done|]. cbn. by rewrite Hev. Qed.

Lemma frame_events_frames (code : string) (rs : list (Z * Figure * bytes)) :
  omap event_frame (frame_events code rs)
  = map (frame_path code) (map (fun r => fst (fst r)) rs).
Proof.
  unfold frame_events. induction rs as [|r rs IH]; [done|]. cbn. by rewrite IH.
Qed.

Section Quiet.
Context (P : Event -> Prop).

Lemma emits_bind {A B} (m : M A) (k : A -> M B) :
  emits P m -> (forall a, emits P (k a)) -> emits P (bind m k).
Proof.
  intros Hm Hk fs. unfold bind. destruct (value (m fs)) as [a|e] eqn:E; cbn.
  - apply Forall_app. split; [apply Hm|apply Hk].
  - apply Hm.
Qed.

Lemma emits_lift {A} (r : result A) : emits P (lift r).
Proof. intros fs. constructor. Qed.

Lemma emits_read (file : path) : emits P (read_file file).
Proof. intros fs. unfold read_file. destruct (fs !! file); constructor. Qed.

Lemma emits_emit (ev : Event) : P ev -> emits P (emit ev).
Proof. intros Hev fs. by repeat constructor. Qed.

Lemma emits_show (w : World) (ev : Event) : P ev -> emits P (st_show w ev).
Proof.
  intros Hev fs. unfold st_show. destruct (st_raises w ev); by repeat constructor.
Qed.

Lemma emits_write (file : path) (data : bytes) (ev : Event) :
  P ev -> emits P (write_file file data ev).
Proof. intros Hev fs. by repeat constructor. Qed.

Lemma emits_read_files (sequence : list path) : emits P (read_files sequence).
Proof.
  induction sequence as [|file rest IH]; cbn [read_files].
  - apply (emits_lift (Ok [])).
  - apply emits_bind; [apply emits_read|]. intros data.
    apply emits_bind; [apply IH|]. intros more. apply (emits_lift (Ok _)).
Qed.

End Quiet.

Lemma after_the_loop_no_frame (w : World) (code : string) (years : list Z)
    (frame_paths : list path) (rate : Z) (df : DataFrame) (fs : FileSystem) :
  omap event_frame
    (trace ((artifacts <- assemble w code frame_paths rate ;;
             offer_downloads w code years frame_paths (fst artifacts) (snd artifacts) ;;
             st_show w (ev_expander "Show raw data") ;;
             st_show w (ev_dataframe df)) fs)) = [].
Proof.
  apply omap_event_frame_none. revert fs.
  change (emits (fun ev => event_frame ev = None)
            (artifacts <- assemble w code frame_paths rate ;;
             offer_downloads w code years frame_paths (fst artifacts) (snd artifacts) ;;
             st_show w (ev_expander "Show raw data") ;;
             st_show w (ev_dataframe df))).
  repeat first
    [ apply emits_bind; [|intros ?]
    | apply emits_read_files
    | apply emits_lift
    | apply emits_read
    | by apply emits_emit
    | by apply emits_show
    | by apply emits_write
    | progress unfold assemble, offer_downloads ].
Qed.

Section Frames.
Context (w : World) (side : Sidebar) (name code : string) (df : DataFrame).

Local Abbreviation th := (rd_value (theme side)).
Local Abbreviation rs := (rendered_frames w df name th (years_of df)).

Lemma present_frames (fs : FileSystem) :
  omap event_frame (trace (present w side name code df fs))
  = if reaches_the_loop w side name df
    then map (frame_path code) (rendered_years w side name df)
    else [].
Proof.
  unfold present, reaches_the_loop, shown, rendered_years.
  rewrite bind_lift. destruct (full_range_chart w df name th) as [fig|]; [|done].
  rewrite bind_show. destruct (st_raises w _); [done|].
  rewrite bind_show. destruct (st_raises w _); [done|].
  rewrite bind_show. destruct (st_raises w _); [done|].
  rewrite bind_lift. destruct (pivot df "Year" "Country" name) as [trend|]; [|done].
  rewrite bind_show. destruct (st_raises w _); [done|].
  rewrite bind_lift.
  destruct (rbind (df_getitem df "Year") _) as [years|] eqn:Hyears; [|done].
  apply years_of_line_160 in Hyears as ->.
  destruct (render_frames_exact w side name code df (years_of df) [] fs)
    as (v & Hrender & _).
  cbn [prepend trace andb]. rewrite !omap_app.
  cbn [omap list_omap event_frame]. rewrite !app_nil_l.
  unfold bind at 1. rewrite Hrender. cbn [value files trace].
  destruct v as [frame_paths|e]; cbn [trace].
  - by rewrite omap_app, after_the_loop_no_frame, app_nil_r, frame_events_frames.
  - by rewrite frame_events_frames.
Qed.

Lemma rendered_years_prefix :
  rendered_years w side name df
  = take (length (rendered_years w side name df)) (years_of df).
Proof.
  unfold rendered_years. rewrite length_map. apply rendered_frames_years.
Qed.

Lemma rendered_years_all :
  (forall yr, yr ∈ years_of df ->
     exists f png, year_frame w df name th yr = Ok f /\ pio_write_image w f = Ok png) ->
  rendered_years w side name df = years_of df.
Proof.
  unfold rendered_years. generalize (years_of df). intros years.
  induction years as [|yr years IH]; intros Hall; [done|].
  destruct (Hall yr) as (f & png & Hf & Hpng); [by left|].
  cbn [rendered_frames]. rewrite Hf, Hpng. cbn. f_equal.
  apply IH. intros y Hy. apply Hall. by right.
Qed.

Lemma present_complete_frames (fs : FileSystem) :
  value (present w side name code df fs) = Ok tt ->
  omap event_frame (trace (present w side name code df fs))
  = map (frame_path code) (years_of df).
Proof.
  intros H.
  destruct (present_complete w side name code df fs H)
    as (fig & trend & gif & mp4 & ly & lf & lp & _ & _ & Hyears & _ & _ & _ & _ & ->).
  cbn [trace]. unfold complete_trace.
  rewrite !omap_app, frame_events_frames, Hyears. cbn. by rewrite app_nil_r.
Qed.

End Frames.

(** ** The names line 105 selects *)

Lemma lower_app (a b : string) : lower (a +:+ b) = lower a +:+ lower b.
Proof.
  induction a as [|c a IH]; [done|].
  change (String c a +:+ b) with (String c (a +:+ b)). cbn [lower].
  change (String (ascii_lower c) (lower a) +:+ lower b)
    with (String (ascii_lower c) (lower a +:+ lower b)).
  by rewrite IH.
Qed.

Lemma string_app_assoc (a b c : string) : a +:+ (b +:+ c) = (a +:+ b) +:+ c.
Proof.
  induction a as [|x a IH]; [done|].
  change (String x a +:+ (b +:+ c)) with (String x (a +:+ (b +:+ c))).
  change ((String x a +:+ b) +:+ c) with (String x ((a +:+ b) +:+ c)).
  by rewrite IH.
Qed.

Lemma substring_whole (s : string) : substring 0 (String.length s) s = s.
Proof. induction s as [|c s IH]; [done|]. cbn. by rewrite IH. Qed.

Lemma substring_suffix (stem suffix : string) :
  substring (String.length stem) (String.length suffix) (stem +:+ suffix) = suffix.
Proof.
  induction stem as [|c stem IH]; [apply substring_whole|].
  change (String c stem +:+ suffix) with (String c (stem +:+ suffix)).
  cbn [String.length substring]. apply IH.
Qed.

Lemma substring_split (s : string) (m : nat) :
  (m <= String.length s)%nat ->
  s = substring 0 m s +:+ substring m (String.length s - m) s.
Proof.
  revert m. induction s as [|c s IH]; intros m Hm.
  - cbn in Hm. replace m with O by lia. done.
  - destruct m as [|m].
    + change (substring 0 0 (String c s)) with EmptyString.
      rewrite Nat.sub_0_r, substring_whole. done.
    + cbn [String.length] in *. cbn [substring Nat.sub].
      change (String c (substring 0 m s) +:+ substring m (String.length s - m) s)
        with (String c (substring 0 m s +:+ substring m (String.length s - m) s)).
      f_equal. apply IH. lia.
Qed.

(** [s.endswith(suffix)] holds exactly when [s] is some stem followed by
    [suffix]. *)
Lemma endswith_iff (s suffix : string) :
  endswith s suffix = true <-> exists stem, s = stem +:+ suffix.
Proof.
  unfold endswith. rewrite andb_true_iff, Nat.leb_le, String.eqb_eq. split.
  - intros [Hlen Hsub].
    exists (substring 0 (String.length s - String.length suffix) s).
    etrans; [apply (substring_split s (String.length s - String.length suffix)); lia|].
    f_equal. rewrite <- Hsub at 3. f_equal. lia.
  - intros [stem ->]. rewrite string_length_app. split; [lia|].
    replace (String.length stem + String.length suffix - String.length suffix)%nat
      with (String.length stem) by lia.
    apply substring_suffix.
Qed.

(** Line 105 selects a name exactly when the name, with ASCII capitals
    folded, is a stem followed by one of the three extensions. *)
Lemma is_artifact_iff (fname : string) :
  is_artifact fname = true
  <-> exists stem ext, ext ∈ [".png"; ".gif"; ".mp4"]
                       /\ lower fname = stem +:+ ext.
Proof.
  unfold is_artifact, endswith_any. rewrite existsb_exists. split.
  - intros (ext & Hin & (stem & Hs)%endswith_iff).
    exists stem, ext. split; [|done]. by apply list_elem_of_In.
  - intros (stem & ext & Hin & Hs). exists ext.
    split; [by apply list_elem_of_In|]. apply endswith_iff. eauto.
Qed.

Lemma lower_lower (s : string) : lower (lower s) = lower s.
Proof.
  induction s as [|c s IH]; [done|]. cbn [lower]. rewrite IH. f_equal.
  unfold ascii_lower.
  destruct ((65 <=? nat_of_ascii c)%nat && (nat_of_ascii c <=? 90)%nat)%bool eqn:Hc.
  - apply andb_true_iff in Hc as [H1%Nat.leb_le H2%Nat.leb_le].
    rewrite nat_ascii_embedding by lia.
    replace ((nat_of_ascii c + 32 <=? 90)%nat) with false; [by rewrite andb_false_r|].
    symmetry. apply Nat.leb_gt. lia.
  - by rewrite Hc.
Qed.

Lemma is_artifact_ext (stem ext : string) :
  ext ∈ [".png"; ".gif"; ".mp4"] -> is_artifact (stem +:+ ext) = true.
Proof.
  intros Hext. unfold is_artifact, endswith_any. apply existsb_exists.
  exists ext. split; [by apply list_elem_of_In|].
  apply endswith_iff. exists (lower stem). rewrite lower_app. f_equal.
  set_unfold in Hext. by destruct Hext as [->|[->|[->|[]]]].
Qed.

Lemma frame_path_artifact (code : string) (yr : Z) : artifact_path (frame_path code yr).
Proof.
  split; [done|]. cbn [snd frame_path os_path_join].
  rewrite !string_app_assoc. apply is_artifact_ext. set_solver.
Qed.

Lemma gif_path_artifact (code : string) : artifact_path (gif_path code).
Proof. split; [done|]. apply is_artifact_ext. set_solver. Qed.

Lemma mp4_path_artifact (code : string) : artifact_path (mp4_path code).
Proof. split; [done|]. apply is_artifact_ext. set_solver. Qed.

(** ** One iteration of the loop, by the answer of the client *)

Lemma present_events (w : World) (side : Sidebar) (name code : string)
    (df : DataFrame) (fs : FileSystem) :
  Forall (present_event w side name code df) (trace (present w side name code df fs)).
Proof.
  destruct (runs_from_start _ _ _ (runs_present w side name code df []))
    as (v & t & ws & Hm & _ & Ht).
  by rewrite Hm.
Qed.

Lemma process_metric_cases (w : World) (side : Sidebar) (iso_list : list string)
    (name code : string) (fs : FileSystem) :
  process_metric w side iso_list name code fs
  = prepend [ev_get_dataframe (code, name) iso_list (start_date, end_date)]
      match fetched w code name iso_list with
      | Raise e => mk_Outcome (Raise e) fs []
      | Ok df =>
          if df_empty df
          then mk_Outcome (Ok tt) fs [ev_warning ("No data for " +:+ name +:+ ".")]
          else present w side name code df fs
      end.
Proof.
  unfold process_metric, bind. rewrite fetch_spec. cbn [value files trace].
  destruct (fetched w code name iso_list) as [df|e]; [|done].
  by destruct (df_empty df).
Qed.

(** The outcome of one iteration, by what the fetch step returns. *)
Lemma one_metric_cases (w : World) (side : Sidebar) (iso_list : list string)
    (name code : string) (fs : FileSystem) :
  dict_get metrics name = Some code ->
  one_metric w side iso_list name fs
  = prepend [ev_get_dataframe (code, name) iso_list (start_date, end_date)]
      match fetched w code name iso_list with
      | Raise e => mk_Outcome (Ok tt) fs [error_event name e]
      | Ok df =>
          if df_empty df
          then mk_Outcome (Ok tt) fs [ev_warning ("No data for " +:+ name +:+ ".")]
          else
            let o := present w side name code df fs in
            match value o with
            | Ok _ => o
            | Raise e => mk_Outcome (Ok tt) (files o) (trace o ++ [error_event name e])
            end
      end.
Proof.
  intros Hcode. rewrite (one_metric_unfold _ _ _ _ _ _ Hcode).
  unfold try_except. rewrite process_metric_cases.
  destruct (fetched w code name iso_list) as [df|e]; [|done].
  destruct (df_empty df); [done|].
  destruct (present w side name code df fs) as [[[]|e] fs' t]; [done|].
  unfold prepend, emit. cbn [value files trace]. by rewrite <- app_assoc.
Qed.

Lemma kept_nil (obs : list Observation) :
  kept obs = [] <-> Forall (fun o => has_value o = false) obs.
Proof.
  unfold kept. induction obs as [|o obs IH]; [by split|].
  rewrite filter_cons. destruct (has_value o) eqn:Ho.
  - rewrite decide_True by done. split; [done|]. intros H. inversion H. congruence.
  - rewrite decide_False by done. rewrite IH. split.
    + by constructor.
    + intros H. by inversion H.
Qed.

Lemma df_empty_metric_table (name : string) (obs : list Observation) :
  df_empty (metric_table name obs) = true <-> obs = [].
Proof.
  unfold df_empty, metric_table. cbn [nrows series_len]. rewrite length_map.
  rewrite Nat.eqb_eq. by destruct obs.
Qed.

Lemma df_empty_metric_table_by_date (name : string) (obs : list Observation) :
  df_empty (metric_table_by_date name obs) = true <-> obs = [].
Proof.
  unfold df_empty, metric_table_by_date. cbn [nrows series_len]. rewrite length_map.
  rewrite Nat.eqb_eq. by destruct obs.
Qed.

Lemma nunique_one {A} `{EqDecision A} (xs : list A) :
  nunique xs = 1%nat <-> xs <> [] /\ exists x, Forall (eq x) xs.
Proof.
  unfold nunique. split.
  - intros Hlen. destruct (remove_dups xs) as [|x [|y l]] eqn:Hr; try done.
    assert (forall y, y ∈ xs -> x = y) as Hall.
    { intros y Hy. rewrite <- elem_of_remove_dups, Hr in Hy.
      by apply list_elem_of_singleton in Hy. }
    split.
    + intros ->. done.
    + exists x. by apply Forall_forall.
  - intros [Hne [x Hall]].
    pose proof (NoDup_remove_dups xs) as Hnd.
    assert (forall y, y ∈ remove_dups xs -> x = y) as Hrd.
    { intros y Hy. rewrite elem_of_remove_dups in Hy.
      rewrite Forall_forall in Hall. by apply Hall. }
    destruct (remove_dups xs) as [|a [|b l]] eqn:Hr.
    + destruct xs as [|y xs]; [done|].
      assert (y ∈ remove_dups (y :: xs)) as Hy by (apply elem_of_remove_dups; by left).
      rewrite Hr in Hy. by apply elem_of_nil in Hy.
    + done.
    + exfalso. apply NoDup_cons in Hnd as [Hab _]. apply Hab.
      rewrite <- (Hrd a), <- (Hrd b); [by left|right; by left|by left].
Qed.

(** The client indexes by date alone exactly when the response has
    records and all are of one country. *)
Lemma response_index_by_date (obs : list Observation) :
  response_index obs = by_date
  <-> obs <> [] /\ exists c, Forall (fun o => obs_country o = c) obs.
Proof.
  unfold response_index.
  destruct (Nat.eqb_spec (nunique (map obs_country obs)) 1) as [H1|H1].
  - apply nunique_one in H1 as [Hne [c Hall]]. split; [|done]. intros _. split.
    + by destruct obs.
    + exists c. change (map ?f ?l) with (f <$> l) in Hall.
      rewrite Forall_fmap in Hall. eapply Forall_impl; [done|]. by intros o ->.
  - split; [by destruct (Nat.eqb _ _)|]. intros [Hne [c Hall]]. exfalso. apply H1.
    apply nunique_one. split; [by destruct obs|].
    exists c. change (map ?f ?l) with (f <$> l). rewrite Forall_fmap.
    eapply Forall_impl; [done|]. by intros o <-.
Qed.

(** It indexes by country alone exactly when the records are of several
    countries and of one date. *)
Lemma response_index_by_country (obs : list Observation) :
  response_index obs = by_country
  <-> (~ exists c, Forall (fun o => obs_country o = c) obs)
      /\ exists d, Forall (fun o => obs_date o = d) obs.
Proof.
  pose proof (response_index_by_date obs) as Hdate. unfold response_index in *.
  destruct (Nat.eqb (nunique (map obs_country obs)) 1).
  - split; [done|]. intros [Hno _]. exfalso. apply Hno.
    by destruct (proj1 Hdate eq_refl) as [_ ?].
  - assert (obs <> [] -> ~ exists c, Forall (fun o => obs_country o = c) obs) as Hno.
    { intros Hne Hc. pose proof (proj2 Hdate (conj Hne Hc)) as H.
      by destruct (Nat.eqb (nunique (map obs_date obs)) 1). }
    destruct (Nat.eqb_spec (nunique (map obs_date obs)) 1) as [H1|H1].
    + apply nunique_one in H1 as [Hne [d Hall]]. split; [|done]. intros _. split.
      * apply Hno. by destruct obs.
      * exists d. change (map ?f ?l) with (f <$> l) in Hall.
        rewrite Forall_fmap in Hall. eapply Forall_impl; [done|]. by intros o ->.
    + split; [done|]. intros [Hnc [d Hall]]. exfalso.
      destruct obs as [|o obs]; [apply Hnc; by exists ""|].
      apply H1. apply nunique_one. split; [done|].
      exists d. change (map ?f ?l) with (f <$> l). rewrite Forall_fmap.
      eapply Forall_impl; [done|]. by intros ? <-.
Qed.


(** ** The script on concrete inputs *)

Example artifact_names :
  map is_artifact ["NY.GDP.PCAP.CD_1999.png"; "NY.GDP.PCAP.CD.GIF"; "clip.Mp4";
                   "notes.txt"; "png"; ".png"; "frame.png.bak"]
  = [true; true; true; false; false; true; false].
Proof. reflexivity. Qed.

Example iso_list_drops_unknown_names :
  omap (dict_get Scenario.iso_map) ["Pakistan"; "Atlantis"; "India"] = ["PAK"; "IND"].
Proof. reflexivity. Qed.

(** Pakistan and India, Population, 2000-2002, every value present: six
    rows, three frames in year order, one clip of the three frames at the
    selected frame rate, one GIF, one MP4, three downloads. *)
Example population_table :
  fetched Scenario.world "SP.POP.TOTL" "Population" Scenario.iso_list
  = Ok (metric_table "Population" Scenario.population)
  /\ nrows (metric_table "Population" Scenario.population) = 6%nat.
Proof. split; reflexivity. Qed.

Example population_run :
  let o := run Scenario.world Scenario.iso_map Scenario.side_population Scenario.stale in
  value o = Ok tt
  /\ omap event_error (trace o) = []
  /\ omap event_file (trace o)
     = [("frame", "SP.POP.TOTL_2000.png"); ("frame", "SP.POP.TOTL_2001.png");
        ("frame", "SP.POP.TOTL_2002.png"); ("frame", "SP.POP.TOTL.gif");
        ("frame", "SP.POP.TOTL.mp4")]
  /\ omap event_fps (trace o) = [2; 2; 2]
  /\ length (trace o) = 17%nat
  /\ files o !! ("frame", "NY.GDP.PCAP.CD_1999.png") = None
  /\ files o !! ("frame", "NY.GDP.PCAP.CD.GIF") = None
  /\ files o !! ("frame", "notes.txt") = Some [Byte.x03]
  /\ files o !! ("assets", "logo.png") = Some [Byte.x04].
Proof. cbv zeta. split_and!; reflexivity. Qed.

(** The provider cannot be reached for the first metric: its section is
    the error message, the second metric is complete. *)
Example gdp_fails_population_runs :
  let o := run Scenario.world Scenario.iso_map Scenario.side_gdp_population
             Scenario.stale in
  value o = Ok tt
  /\ omap event_error (trace o)
     = ["❌ Error with GDP per Capita (current US$): HTTPSConnectionPool: Max retries exceeded"]
  /\ omap event_fetch (trace o)
     = [("NY.GDP.PCAP.CD", "GDP per Capita (current US$)"); ("SP.POP.TOTL", "Population")]
  /\ omap event_frame (trace o)
     = map (frame_path "SP.POP.TOTL") [2000; 2001; 2002].
Proof. cbv zeta. split_and!; reflexivity. Qed.

(** Lines 125 and 131-208 rely on a country level in the client's frame.
    For the records of Pakistan alone the client indexes its frame by
    date: the table has no Country column, and the metric ends in the
    error of the first call that names that column. *)
Example frame_without_country_level :
  let o := run Scenario.world_by_date Scenario.iso_map Scenario.side_pakistan
             Scenario.stale in
  rbind (fetched Scenario.world_by_date "SP.POP.TOTL" "Population" ["PAK"])
    (fun df => Ok (columns df))
  = Ok ["date"; "Population"; "Year"]
  /\ value o = Ok tt
  /\ trace o
     = [ev_get_dataframe ("SP.POP.TOTL", "Population") ["PAK"] (start_date, end_date);
        ev_error "❌ Error with Population: Value of 'locations' is not the name of a column in 'data_frame'."].
Proof. cbv zeta. split_and!; reflexivity. Qed.

(** Line 124 relies on a date level.  For the records of two countries
    for 2000 alone the client indexes its frame by country, and line 124
    raises [KeyError('date')]; for an empty response the client raises
    [IndexError]. *)
Example frame_without_date_level :
  response_index Scenario.year_2000 = by_country
  /\ trace (run Scenario.world_by_country Scenario.iso_map Scenario.side_population
              Scenario.stale)
     = [ev_get_dataframe ("SP.POP.TOTL", "Population") ["PAK"; "IND"]
          (start_date, end_date);
        ev_error "❌ Error with Population: 'date'"]
  /\ trace (run Scenario.world_silent Scenario.iso_map Scenario.side_population
              Scenario.stale)
     = [ev_get_dataframe ("SP.POP.TOTL", "Population") ["PAK"; "IND"]
          (start_date, end_date);
        ev_error "❌ Error with Population: list index out of range"].
Proof. split_and!; reflexivity. Qed.

(** Line 85 is not guarded: when the country lookup raises, the script
    ends there, before the purge. *)
Example startup_is_fatal (w : World) (host : list string -> Sidebar)
    (fs : FileSystem) (e : string) :
  wbdata_get_country w = Raise e ->
  app w host fs = mk_Outcome (Raise e) fs [].
Proof. intros H. unfold app. by rewrite bind_lift, H. Qed.

(** * The claims *)

(** C1.  A failure in one metric's pipeline does not stop the others:
    with both selections non-empty the run completes, and what it shows
    is, metric by metric in selection order, exactly what each metric
    shows when handled on its own; a metric whose pipeline raises [e]
    shows what it had shown so far followed by the error message, which
    names the metric and carries [e]. *)
Theorem failure_is_isolated (w : World) (iso_map : list (string * string))
    (side : Sidebar) (fs : FileSystem) :
  selected_countries side <> [] ->
  ms_value (selected_metrics side) <> [] ->
  let iso_list := omap (dict_get iso_map) (selected_countries side) in
  value (run w iso_map side fs) = Ok tt
  /\ trace (run w iso_map side fs)
     = flat_map (metric_trace w side iso_list) (ms_value (selected_metrics side))
  /\ forall name code e fs',
       dict_get metrics name = Some code ->
       value (process_metric w side iso_list name code fs') = Raise e ->
       metric_trace w side iso_list name
       = trace (process_metric w side iso_list name code fs')
         ++ [ev_error ("❌ Error with " +:+ name +:+ ": " +:+ e)].
Proof.
  intros Hc Hm iso_list. rewrite run_main. unfold main.
  rewrite !bool_decide_eq_false_2 by done. cbn [orb]. fold iso_list.
  destruct (for_each_one_metric w side iso_list (ms_value (selected_metrics side))
              (purged fs)) as [Hv Ht].
  { intros name. apply selected_in_catalog. }
  split_and!; [done|done|].
  intros name code e fs' Hcode He. unfold metric_trace.
  rewrite (one_metric_unfold _ _ _ _ code) by done. unfold try_except.
  destruct (process_metric_fs_irrelevant w side iso_list name code fs' ∅) as [Hv' Ht'].
  rewrite <- Hv', He. cbn. by rewrite Ht'.
Qed.

Lemma failure_is_isolated_witness :
  value (run Scenario.world Scenario.iso_map Scenario.side_gdp_population Scenario.stale)
  = Ok tt
  /\ trace (run Scenario.world Scenario.iso_map Scenario.side_gdp_population Scenario.stale)
     = flat_map (metric_trace Scenario.world Scenario.side_gdp_population Scenario.iso_list)
         ["GDP per Capita (current US$)"; "Population"]
  /\ forall name code e fs',
       dict_get metrics name = Some code ->
       value (process_metric Scenario.world Scenario.side_gdp_population
                Scenario.iso_list name code fs') = Raise e ->
       metric_trace Scenario.world Scenario.side_gdp_population Scenario.iso_list name
       = trace (process_metric Scenario.world Scenario.side_gdp_population
                  Scenario.iso_list name code fs')
         ++ [ev_error ("❌ Error with " +:+ name +:+ ": " +:+ e)].
Proof.
  apply (failure_is_isolated Scenario.world Scenario.iso_map
           Scenario.side_gdp_population Scenario.stale); vm_compute; congruence.
Defined.




(** C3.  When the fetch of a selected metric yields an empty table, the
    iteration for that metric requests the data, shows the warning
    "No data for <metric>." and nothing else, writes no file, reports no
    error and returns normally, so that the loop goes on with the
    remaining metrics from an unchanged file system. *)
Theorem empty_table_is_a_warning (w : World) (side : Sidebar) (iso_list : list string)
    (name code : string) (df : DataFrame) (rest : list string) (fs : FileSystem) :
  dict_get metrics name = Some code ->
  fetched w code name iso_list = Ok df ->
  df_empty df = true ->
  one_metric w side iso_list name fs
  = mk_Outcome (Ok tt) fs
      [ev_get_dataframe (code, name) iso_list (start_date, end_date);
       ev_warning ("No data for " +:+ name +:+ ".")]
  /\ omap event_file (trace (one_metric w side iso_list name fs)) = []
  /\ for_each (name :: rest) (one_metric w side iso_list) fs
     = mk_Outcome
         (value (for_each rest (one_metric w side iso_list) fs))
         (files (for_each rest (one_metric w side iso_list) fs))
         ([ev_get_dataframe (code, name) iso_list (start_date, end_date);
           ev_warning ("No data for " +:+ name +:+ ".")]
          ++ trace (for_each rest (one_metric w side iso_list) fs)).
Proof.
  intros Hcode Hdf Hempty.
  assert (one_metric w side iso_list name fs
          = mk_Outcome (Ok tt) fs
              [ev_get_dataframe (code, name) iso_list (start_date, end_date);
               ev_warning ("No data for " +:+ name +:+ ".")]) as Hone.
  { rewrite (one_metric_unfold _ _ _ _ code) by done.
    unfold try_except, process_metric, bind. rewrite fetch_spec. cbn.
    rewrite Hdf. cbn. by rewrite Hempty. }
  split_and!; [done|by rewrite Hone|].
  cbn [for_each]. unfold bind. by rewrite Hone.
Qed.

Lemma empty_table_is_a_warning_witness :
  one_metric Scenario.world Scenario.side_life_population Scenario.iso_list
    "Life Expectancy" Scenario.stale
  = mk_Outcome (Ok tt) Scenario.stale
      [ev_get_dataframe ("SP.DYN.LE00.IN", "Life Expectancy") Scenario.iso_list
         (start_date, end_date);
       ev_warning "No data for Life Expectancy."]
  /\ omap event_file
       (trace (one_metric Scenario.world Scenario.side_life_population
                 Scenario.iso_list "Life Expectancy" Scenario.stale)) = []
  /\ for_each ["Life Expectancy"; "Population"]
       (one_metric Scenario.world Scenario.side_life_population Scenario.iso_list)
       Scenario.stale
     = mk_Outcome
         (value (for_each ["Population"]
                   (one_metric Scenario.world Scenario.side_life_population
                      Scenario.iso_list) Scenario.stale))
         (files (for_each ["Population"]
                   (one_metric Scenario.world Scenario.side_life_population
                      Scenario.iso_list) Scenario.stale))
         ([ev_get_dataframe ("SP.DYN.LE00.IN", "Life Expectancy") Scenario.iso_list
             (start_date, end_date);
           ev_warning "No data for Life Expectancy."]
          ++ trace (for_each ["Population"]
                      (one_metric Scenario.world Scenario.side_life_population
                         Scenario.iso_list) Scenario.stale)).
Proof.
  apply (empty_table_is_a_warning Scenario.world Scenario.side_life_population
           Scenario.iso_list "Life Expectancy" "SP.DYN.LE00.IN"
           (metric_table "Life Expectancy" []) ["Population"] Scenario.stale);
    reflexivity.
Defined.

(** C4.  Every sequence of frame files a run hands to the assembler
    belongs to a selected metric with a non-empty table and lists that
    metric's frame files by strictly ascending year, one for each year
    that occurs in the table.  When the pipeline of a metric completes,
    the images the clip was built from are the PNGs rendered for those
    years, in that order, and the GIF and the MP4 left in the scratch
    directory are the encodings of that image sequence. *)
Theorem frames_reach_the_assembler_in_year_order (w : World)
    (iso_map : list (string * string)) (side : Sidebar) (fs : FileSystem) :
  Forall (fun ev => forall sequence rate,
            ev = ev_ImageSequenceClip sequence rate ->
            exists name code df,
              name ∈ ms_value (selected_metrics side)
              /\ dict_get metrics name = Some code
              /\ fetched w code name (omap (dict_get iso_map) (selected_countries side))
                 = Ok df
              /\ df_empty df = false
              /\ sequence = map (frame_path code) (years_of df)
              /\ StronglySorted Z.lt (years_of df)
              /\ (forall y, y ∈ years_of df <-> y ∈ table_years df))
    (trace (run w iso_map side fs))
  /\ forall name code df fs',
       value (present w side name code df fs') = Ok tt ->
       exists images gif mp4,
         Forall2 (fun yr png =>
                    exists f, year_frame w df name (rd_value (theme side)) yr = Ok f
                              /\ pio_write_image w f = Ok png)
           (years_of df) images
         /\ ImageSequenceClip_raises w images (sl_value (fps side)) = None
         /\ write_gif w images (sl_value (fps side)) = Ok gif
         /\ write_videofile w images (sl_value (fps side)) "libx264" false = Ok mp4
         /\ files (present w side name code df fs') !! gif_path code = Some gif
         /\ files (present w side name code df fs') !! mp4_path code = Some mp4.
Proof.
  split.
  - apply Forall_forall. intros ev Hev%run_events sequence rate ->.
    destruct Hev as [?|(name & code & Hname & Hcode & df & Hdf & Hne & -> & _)];
      [done|].
    exists name, code, df. split_and!; try done.
    + apply years_of_ascending.
    + apply years_of_elem.
  - intros name code df fs' H.
    destruct (present_complete w side name code df fs' H)
      as (fig & trend & gif & mp4 & ly & lf & lp & _ & _ & Hyears & _
          & Hclip & Hgif & Hmp4 & ->).
    exists (map snd (rendered_frames w df name (rd_value (theme side)) (years_of df))),
      gif, mp4.
    split_and!; try done.
    + rewrite <- Hyears at 1. apply Forall2_fmap, Forall_Forall2_diag.
      eapply Forall_impl; [apply rendered_frames_ok|].
      intros [[yr f] png] [Hf Hpng]. by exists f.
    + cbn [files]. rewrite lookup_insert_ne by (symmetry; apply gif_path_not_mp4).
      apply lookup_insert_eq.
    + cbn [files]. apply lookup_insert_eq.
Qed.

(** C5, as amended.  For a metric whose table is not empty, the frames
    rendered are those of the distinct years that occur in the table, in
    ascending order, each written to its own file: as soon as the chart
    and the trend view have been shown, one frame for every such year up
    to the first year whose figure or image fails, hence one for every
    such year when none fails, and that is what is rendered whenever the
    pipeline of the metric completes. *)
Theorem one_frame_per_year_of_the_table (w : World) (side : Sidebar)
    (iso_list : list string) (name code : string) (df : DataFrame) (fs : FileSystem) :
  fetched w code name iso_list = Ok df ->
  df_empty df = false ->
  StronglySorted Z.lt (years_of df)
  /\ (forall y, y ∈ years_of df <-> y ∈ table_years df)
  /\ omap event_frame (trace (process_metric w side iso_list name code fs))
     = (if reaches_the_loop w side name df
        then map (frame_path code) (rendered_years w side name df)
        else [])
  /\ rendered_years w side name df
     = take (length (rendered_years w side name df)) (years_of df)
  /\ ((forall yr, yr ∈ years_of df ->
         exists f png, year_frame w df name (rd_value (theme side)) yr = Ok f
                       /\ pio_write_image w f = Ok png) ->
      rendered_years w side name df = years_of df)
  /\ (value (process_metric w side iso_list name code fs) = Ok tt ->
      omap event_frame (trace (process_metric w side iso_list name code fs))
      = map (frame_path code) (years_of df))
  /\ NoDup (omap event_frame (trace (process_metric w side iso_list name code fs))).
Proof.
  intros Hdf Hne.
  assert (process_metric w side iso_list name code fs
          = prepend [ev_get_dataframe (code, name) iso_list (start_date, end_date)]
              (present w side name code df fs)) as Hprocess.
  { unfold process_metric.
    assert (fetch w code name iso_list fs
            = mk_Outcome (Ok df) fs
                [ev_get_dataframe (code, name) iso_list (start_date, end_date)])
      as Hfetch by (by rewrite fetch_spec, Hdf).
    rewrite (bind_outcome _ _ _ _ _ _ Hfetch). by rewrite Hne. }
  assert (omap event_frame (trace (process_metric w side iso_list name code fs))
          = omap event_frame (trace (present w side name code df fs))) as ->
    by (by rewrite Hprocess).
  assert (value (process_metric w side iso_list name code fs)
          = value (present w side name code df fs)) as -> by (by rewrite Hprocess).
  split_and!.
  - apply years_of_ascending.
  - apply years_of_elem.
  - apply present_frames.
  - apply rendered_years_prefix.
  - apply rendered_years_all.
  - apply present_complete_frames.
  - rewrite present_frames. destruct (reaches_the_loop w side name df); [|constructor].
    apply (NoDup_fmap_2 (frame_path code)). rewrite rendered_years_prefix.
    eapply sublist_NoDup; [apply years_of_NoDup|apply sublist_take].
Qed.

Lemma one_frame_per_year_of_the_table_witness :
  StronglySorted Z.lt (years_of Scenario.emissions_table)
  /\ (forall y, y ∈ years_of Scenario.emissions_table
                <-> y ∈ table_years Scenario.emissions_table)
  /\ omap event_frame
       (trace (process_metric Scenario.world Scenario.side_emissions
                 Scenario.iso_list "CO₂ Emissions (metric tons per capita)"
                 "EN.ATM.CO2E.PC" Scenario.stale))
     = (if reaches_the_loop Scenario.world Scenario.side_emissions
             "CO₂ Emissions (metric tons per capita)" Scenario.emissions_table
        then map (frame_path "EN.ATM.CO2E.PC")
               (rendered_years Scenario.world Scenario.side_emissions
                  "CO₂ Emissions (metric tons per capita)" Scenario.emissions_table)
        else [])
  /\ rendered_years Scenario.world Scenario.side_emissions
       "CO₂ Emissions (metric tons per capita)" Scenario.emissions_table
     = take (length (rendered_years Scenario.world Scenario.side_emissions
                       "CO₂ Emissions (metric tons per capita)"
                       Scenario.emissions_table))
         (years_of Scenario.emissions_table)
  /\ ((forall yr, yr ∈ years_of Scenario.emissions_table ->
         exists f png,
           year_frame Scenario.world Scenario.emissions_table
             "CO₂ Emissions (metric tons per capita)"
             (rd_value (theme Scenario.side_emissions)) yr = Ok f
           /\ pio_write_image Scenario.world f = Ok png) ->
      rendered_years Scenario.world Scenario.side_emissions
        "CO₂ Emissions (metric tons per capita)" Scenario.emissions_table
      = years_of Scenario.emissions_table)
  /\ (value (process_metric Scenario.world Scenario.side_emissions
               Scenario.iso_list "CO₂ Emissions (metric tons per capita)"
               "EN.ATM.CO2E.PC" Scenario.stale) = Ok tt ->
      omap event_frame
        (trace (process_metric Scenario.world Scenario.side_emissions
                  Scenario.iso_list "CO₂ Emissions (metric tons per capita)"
                  "EN.ATM.CO2E.PC" Scenario.stale))
      = map (frame_path "EN.ATM.CO2E.PC") (years_of Scenario.emissions_table))
  /\ NoDup (omap event_frame
              (trace (process_metric Scenario.world Scenario.side_emissions
                        Scenario.iso_list "CO₂ Emissions (metric tons per capita)"
                        "EN.ATM.CO2E.PC" Scenario.stale))).
Proof.
  apply (one_frame_per_year_of_the_table Scenario.world Scenario.side_emissions
           Scenario.iso_list "CO₂ Emissions (metric tons per capita)"
           "EN.ATM.CO2E.PC" Scenario.emissions_table Scenario.stale);
    reflexivity.
Defined.

(** C5, as stated, fails: the provider has no emission value for 2001,
    the run completes without an error, and it renders two frames, for
    2000 and for 2002, not the twenty-three of the range 2000-2022. *)
Lemma a_year_without_data_has_no_frame :
  value (run Scenario.world Scenario.iso_map Scenario.side_emissions Scenario.stale)
  = Ok tt
  /\ omap event_error
       (trace (run Scenario.world Scenario.iso_map Scenario.side_emissions
                 Scenario.stale)) = []
  /\ omap event_frame
       (trace (run Scenario.world Scenario.iso_map Scenario.side_emissions
                 Scenario.stale))
     = [frame_path "EN.ATM.CO2E.PC" 2000; frame_path "EN.ATM.CO2E.PC" 2002]
  /\ omap event_frame
       (trace (run Scenario.world Scenario.iso_map Scenario.side_emissions
                 Scenario.stale))
     <> map (frame_path "EN.ATM.CO2E.PC") range_years.
Proof.
  split_and!; [reflexivity..|].
  intros H. apply (f_equal length) in H. vm_compute in H. discriminate.
Qed.




(** C7.  The theme fixes the colour scale: "Dark" selects Viridis,
    "Light" selects Plasma, the two differ, the theme is one of the two,
    and every figure a run shows or renders, the full-range chart and
    each per-year frame alike, carries the scale of the run's theme. *)
Theorem theme_fixes_the_scale (w : World) (iso_map : list (string * string))
    (side : Sidebar) (fs : FileSystem) :
  theme_scale "Dark" = Viridis
  /\ theme_scale "Light" = Plasma
  /\ Viridis <> Plasma
  /\ (rd_value (theme side) = "Light" \/ rd_value (theme side) = "Dark")
  /\ Forall (fun ev => forall fig, event_figure ev = Some fig ->
               color_continuous_scale fig = theme_scale (rd_value (theme side)))
       (trace (run w iso_map side fs)).
Proof.
  split_and!; [done|done|done| |].
  - pose proof (rd_among _ (theme side)) as H. cbn in H.
    destruct (String.eqb_spec (rd_value (theme side)) "Light"); [by left|].
    destruct (String.eqb_spec (rd_value (theme side)) "Dark"); [by right|done].
  - apply Forall_forall. intros ev Hev%run_events fig Hfig.
    destruct Hev as [->|(name & code & _ & _ & Hev)]; [done|].
    destruct ev; try done; cbn in Hfig; injection Hfig as <-.
    + destruct Hev as (df & _ & _ & Hchart). by eapply full_range_chart_scale.
    + destruct Hev as (df & _ & _ & yr & _ & Hframe & _). by eapply year_frame_scale.
Qed.

(** C8.  The frame rate is one integer between 1 and 5, and every clip
    a run builds and every GIF and MP4 it encodes uses that frame rate. *)
Theorem one_frame_rate (w : World) (iso_map : list (string * string))
    (side : Sidebar) (fs : FileSystem) :
  1 <= sl_value (fps side) <= 5
  /\ Forall (fun ev => forall n, event_fps ev = Some n -> n = sl_value (fps side))
       (trace (run w iso_map side fs)).
Proof.
  split.
  - pose proof (sl_within _ _ (fps side)) as H. lia.
  - apply Forall_forall. intros ev Hev%run_events n Hn.
    destruct Hev as [->|(name & code & _ & _ & Hev)]; [done|].
    destruct ev; try done; cbn in Hn; injection Hn as <-;
      destruct Hev as (df & _ & _ & Hev); cbn in Hev; tauto.
Qed.

(** C9.  Lines 104-106 run before line 109: they return normally and
    silently and remove from the scratch directory [frame] every file
    whose name, with capitals folded, is a stem followed by [.png],
    [.gif] or [.mp4], and no other file; in particular the frames, the
    GIF and the MP4 that lines 178-186 write under any indicator code
    and year are removed.  The rest of the run starts from that state.
    Hence a PNG, GIF or MP4 found in the scratch directory after the run
    was written by an event of this run, and two runs that differ only
    in such left-over files are the same run.  The entries of the
    scratch directory are regular files: [os.remove] is not applied to
    a directory. *)
Theorem purge_precedes_processing (w : World) (iso_map : list (string * string))
    (side : Sidebar) (fs : FileSystem) :
  value (purge_frame_dir fs) = Ok tt
  /\ trace (purge_frame_dir fs) = []
  /\ (forall p, artifact_path p
                <-> fst p = "frame"
                    /\ exists stem ext, ext ∈ [".png"; ".gif"; ".mp4"]
                                        /\ lower (snd p) = stem +:+ ext)
  /\ (forall fname stem ext,
        ext ∈ [".png"; ".gif"; ".mp4"] -> lower fname = stem +:+ ext ->
        files (purge_frame_dir fs) !! ("frame", fname) = None)
  /\ (forall code (yr : Z),
        files (purge_frame_dir fs) !! ("frame", code +:+ "_" +:+ pretty yr +:+ ".png")
        = None
        /\ files (purge_frame_dir fs) !! ("frame", code +:+ ".gif") = None
        /\ files (purge_frame_dir fs) !! ("frame", code +:+ ".mp4") = None)
  /\ (forall dir fname,
        (dir <> "frame"
         \/ forall stem ext, ext ∈ [".png"; ".gif"; ".mp4"] ->
                             lower fname <> stem +:+ ext) ->
        files (purge_frame_dir fs) !! (dir, fname) = fs !! (dir, fname))
  /\ (forall p, artifact_path p -> files (purge_frame_dir fs) !! p = None)
  /\ (forall p, ~ artifact_path p -> files (purge_frame_dir fs) !! p = fs !! p)
  /\ run w iso_map side fs = main w iso_map side (files (purge_frame_dir fs))
  /\ (forall p, artifact_path p -> is_Some (files (run w iso_map side fs) !! p) ->
        p ∈ omap event_file (trace (run w iso_map side fs)))
  /\ (forall fs', (forall p, ~ artifact_path p -> fs' !! p = fs !! p) ->
        run w iso_map side fs' = run w iso_map side fs).
Proof.
  assert (forall p, artifact_path p
                    <-> fst p = "frame"
                        /\ exists stem ext, ext ∈ [".png"; ".gif"; ".mp4"]
                                            /\ lower (snd p) = stem +:+ ext) as Hnames.
  { intros p. unfold artifact_path. by rewrite is_artifact_iff. }
  rewrite purge_frame_dir_spec. cbn [value trace files].
  split_and!; try done.
  - intros fname stem ext Hext Hlower. apply purged_artifact, Hnames. cbn [fst snd]. eauto.
  - intros code yr. split_and!; apply purged_artifact.
    + apply (frame_path_artifact code yr).
    + apply (gif_path_artifact code).
    + apply (mp4_path_artifact code).
  - intros dir fname Hother. apply purged_other. rewrite Hnames. cbn [fst snd].
    intros [Hdir (stem & ext & Hext & Hlower)].
    destruct Hother as [Hne|Hnone]; [done|]. by apply (Hnone stem ext).
  - intros p. apply purged_artifact.
  - intros p. apply purged_other.
  - apply run_main.
  - intros p Hart Hsome.
    destruct (run_normal_form w iso_map side) as (v & t & ws & Hrun & Hw & _).
    rewrite Hrun in Hsome |- *. cbn [files trace] in *. rewrite <- Hw.
    destruct (decide (p ∈ ws.*1)) as [|Hnot]; [done|].
    rewrite write_all_lookup_other, purged_artifact in Hsome by done.
    by destruct Hsome.
  - intros fs' Hsame. rewrite !run_main. f_equal.
    apply map_eq. intros p. destruct (decide (artifact_path p)).
    + by rewrite !purged_artifact.
    + rewrite !purged_other by done. by apply Hsame.
Qed.

(** C10.  With no country or no metric selected, the run purges the
    scratch directory, shows the one warning, and does nothing else: no
    fetch, no figure, no file written; the scratch directory holds no
    PNG, GIF or MP4 afterwards. *)
Theorem empty_selection_only_warns (w : World) (iso_map : list (string * string))
    (side : Sidebar) (fs : FileSystem) :
  selected_countries side = [] \/ ms_value (selected_metrics side) = [] ->
  run w iso_map side fs
  = mk_Outcome (Ok tt) (purged fs)
      [ev_warning "Please select at least one country and one metric."]
  /\ forall p, artifact_path p -> files (run w iso_map side fs) !! p = None.
Proof.
  intros Hempty.
  assert (run w iso_map side fs
          = mk_Outcome (Ok tt) (purged fs)
              [ev_warning "Please select at least one country and one metric."]) as Hrun.
  { rewrite run_main. unfold main.
    destruct Hempty as [H|H]; rewrite H; [done|].
    by rewrite orb_true_r. }
  split; [done|]. intros p Hart. rewrite Hrun. cbn. by apply purged_artifact.
Qed.

Lemma empty_selection_only_warns_witness :
  run Scenario.world Scenario.iso_map Scenario.side_no_country Scenario.stale
  = mk_Outcome (Ok tt) (purged Scenario.stale)
      [ev_warning "Please select at least one country and one metric."]
  /\ forall p, artifact_path p ->
       files (run Scenario.world Scenario.iso_map Scenario.side_no_country
                Scenario.stale) !! p = None.
Proof.
  apply (empty_selection_only_warns Scenario.world Scenario.iso_map
           Scenario.side_no_country Scenario.stale).
  left. reflexivity.
Defined.

(** * Further properties of the script *)

(** ** The country directory, lines 85-87 and 112 *)

Lemma dict_get_dict_set {A} (d : list (string * A)) (k k' : string) (v : A) :
  dict_get (dict_set d k v) k' = if decide (k = k') then Some v else dict_get d k'.
Proof.
  induction d as [|[k0 v0] d IH]; cbn [dict_set dict_get].
  - destruct (String.eqb_spec k k'); by case_decide.
  - destruct (String.eqb_spec k0 k) as [->|Hne]; cbn [dict_get].
    + destruct (String.eqb_spec k k'); by case_decide.
    + rewrite IH. destruct (String.eqb_spec k0 k') as [->|]; [|done].
      by rewrite decide_False.
Qed.

Lemma dict_keys_dict_set {A} (d : list (string * A)) (k : string) (v : A) :
  dict_keys (dict_set d k v)
  = if decide (k ∈ dict_keys d) then dict_keys d else dict_keys d ++ [k].
Proof.
  unfold dict_keys. induction d as [|[k0 v0] d IH]; cbn [dict_set map fst].
  - rewrite decide_False; [done|]. by intros ?%elem_of_nil.
  - destruct (String.eqb_spec k0 k) as [->|Hne]; cbn [map fst].
    + rewrite decide_True; [done|]. by left.
    + rewrite IH. case_decide as Hin.
      * rewrite decide_True; [done|]. by right.
      * rewrite decide_False; [done|]. intros [?|?]%elem_of_cons; congruence.
Qed.

Lemma dict_keys_get {A} (d : list (string * A)) (k : string) :
  k ∈ dict_keys d <-> is_Some (dict_get d k).
Proof.
  unfold dict_keys. induction d as [|[k0 v0] d IH]; cbn [dict_get map fst].
  - split; [by intros ?%elem_of_nil|by intros [? ?]].
  - rewrite elem_of_cons. destruct (String.eqb_spec k0 k) as [->|Hne].
    + split; eauto.
    + rewrite <- IH. split; [intros [?|?]; [congruence|done]|by right].
Qed.

Lemma iso_map_fold_get (country_list : list Country) (d : list (string * string))
    (name : string) :
  dict_get (foldl (fun d c => dict_set d (country_name c) (country_id c)) d country_list)
    name
  = match last (filter (fun c => country_name c = name) country_list) with
    | Some c => Some (country_id c)
    | None => dict_get d name
    end.
Proof.
  revert d. induction country_list as [|c cl IH] using rev_ind; intros d; [done|].
  rewrite foldl_app, filter_app. cbn [foldl].
  rewrite dict_get_dict_set, filter_cons, filter_nil.
  case_decide as Hname.
  - by rewrite last_snoc.
  - rewrite app_nil_r. apply IH.
Qed.

Lemma unique_str_from_seen (seen seen' xs : list string) :
  (forall x, x ∈ seen <-> x ∈ seen') ->
  unique_str_from seen xs = unique_str_from seen' xs.
Proof.
  revert seen seen'. induction xs as [|x xs IH]; intros seen seen' Hs; [done|].
  cbn [unique_str_from].
  destruct (decide (x ∈ seen)) as [Hin|Hin].
  - rewrite !bool_decide_eq_true_2; [by apply IH|by apply Hs|done].
  - rewrite !bool_decide_eq_false_2; [|by rewrite <- Hs|done].
    f_equal. apply IH. intros y. rewrite !elem_of_cons, Hs. done.
Qed.

Lemma iso_map_fold_keys (country_list : list Country) (d : list (string * string)) :
  dict_keys (foldl (fun d c => dict_set d (country_name c) (country_id c)) d country_list)
  = dict_keys d ++ unique_str_from (dict_keys d) (map country_name country_list).
Proof.
  revert d. induction country_list as [|c cl IH]; intros d; cbn [foldl map].
  - by rewrite app_nil_r.
  - rewrite IH, dict_keys_dict_set. cbn [unique_str_from].
    case_decide as Hin.
    + by rewrite bool_decide_eq_true_2.
    + rewrite bool_decide_eq_false_2 by done.
      rewrite <- app_assoc. cbn [app]. do 2 f_equal.
      apply unique_str_from_seen. intros x.
      rewrite elem_of_app, !elem_of_cons, elem_of_nil. tauto.
Qed.

Lemma unique_str_from_elem (seen xs : list string) (x : string) :
  x ∈ unique_str_from seen xs <-> x ∈ xs /\ x ∉ seen.
Proof.
  revert seen. induction xs as [|y xs IH]; intros seen; cbn [unique_str_from].
  - rewrite !elem_of_nil. tauto.
  - case_bool_decide as Hin.
    + rewrite IH, elem_of_cons. split; [tauto|]. intros [[->|?] ?]; tauto.
    + rewrite elem_of_cons, IH, !elem_of_cons. split.
      * intros [->|[? ?]]; tauto.
      * intros [[->|?] ?]; [tauto|]. destruct (decide (x = y)); tauto.
Qed.

Lemma unique_str_from_NoDup (seen xs : list string) : NoDup (unique_str_from seen xs).
Proof.
  revert seen. induction xs as [|y xs IH]; intros seen; cbn [unique_str_from].
  - constructor.
  - case_bool_decide; [apply IH|]. constructor; [|apply IH].
    rewrite unique_str_from_elem, elem_of_cons. tauto.
Qed.

(** X1. Line 86: looking a name up in [iso_map] gives the id of the last
    entry of the provider's country list that carries this name, and
    nothing when no entry does. *)
Theorem iso_map_takes_the_last_entry (country_list : list Country) (name : string) :
  dict_get (iso_map_of country_list) name
  = country_id <$> last (filter (fun c => country_name c = name) country_list).
Proof.
  unfold iso_map_of. rewrite iso_map_fold_get.
  by destruct (last _).
Qed.

(** X2. Line 87: the options of the country selector are the names of the
    provider's country list without repetition, in the order in which
    they first appear. *)
Theorem all_countries_are_the_distinct_names (country_list : list Country) :
  dict_keys (iso_map_of country_list)
  = unique_str_from [] (map country_name country_list)
  /\ NoDup (dict_keys (iso_map_of country_list))
  /\ forall name, name ∈ dict_keys (iso_map_of country_list)
                  <-> exists c, c ∈ country_list /\ country_name c = name.
Proof.
  assert (dict_keys (iso_map_of country_list)
          = unique_str_from [] (map country_name country_list)) as Hkeys.
  { unfold iso_map_of. by rewrite iso_map_fold_keys. }
  rewrite Hkeys. split_and!; [done|apply unique_str_from_NoDup|].
  intros name. rewrite unique_str_from_elem, list_elem_of_fmap, elem_of_nil.
  split.
  - intros [(c & -> & Hc) _]. eauto.
  - intros (c & Hc & <-). eauto.
Qed.

Lemma omap_dict_get_filter {A} (d : list (string * A)) (names : list string) :
  Forall2 (fun c v => dict_get d c = Some v)
    (filter (fun c => c ∈ dict_keys d) names) (omap (dict_get d) names).
Proof.
  induction names as [|c names IH]; cbn [omap list_omap]; [constructor|].
  rewrite filter_cons. destruct (dict_get d c) as [v|] eqn:Hget.
  - rewrite decide_True by (apply dict_keys_get; eauto). by constructor.
  - rewrite decide_False; [done|]. rewrite dict_keys_get, Hget. by intros [? ?].
Qed.

Lemma omap_dict_get_known {A} (d : list (string * A)) (names : list string) :
  Forall (fun c => c ∈ dict_keys d) names ->
  Forall2 (fun c v => dict_get d c = Some v) names (omap (dict_get d) names).
Proof.
  intros Hall. pose proof (omap_dict_get_filter d names) as H.
  replace (filter (fun c => c ∈ dict_keys d) names) with names in H; [done|].
  induction Hall as [|c l Hc _ IH]; [done|].
  rewrite filter_cons, decide_True by done. f_equal. apply IH.
  apply omap_dict_get_filter.
Qed.

(** X3. Line 112: [iso_list] holds, in selection order, the id of every
    selected name that is a key of [iso_map]; a name that is not a key
    is skipped without an error, and when every selected name is a key
    there is one id per name. *)
Theorem iso_list_resolves_the_known_names (iso_map : list (string * string))
    (selected : list string) :
  let iso_list := omap (dict_get iso_map) selected in
  Forall2 (fun c id => dict_get iso_map c = Some id)
    (filter (fun c => c ∈ dict_keys iso_map) selected) iso_list
  /\ (length iso_list <= length selected)%nat
  /\ (Forall (fun c => c ∈ dict_keys iso_map) selected ->
      Forall2 (fun c id => dict_get iso_map c = Some id) selected iso_list).
Proof.
  intros iso_list. pose proof (omap_dict_get_filter iso_map selected) as H.
  split_and!; [done| |].
  - unfold iso_list. rewrite <- (Forall2_length _ _ _ H). apply length_filter.
  - apply omap_dict_get_known.
Qed.

(** ** The scratch directory, lines 102-106 and 178-184 *)

(** X4. Line 105: an entry of the scratch directory is selected for
    removal exactly when its name, with ASCII capitals folded, is some
    stem followed by [.png], [.gif] or [.mp4]; the stem may be empty and
    the case of the letters of the name does not matter. *)
Theorem is_artifact_by_extension (fname : string) :
  (is_artifact fname = true
   <-> exists stem ext, ext ∈ [".png"; ".gif"; ".mp4"]
                        /\ lower fname = stem +:+ ext)
  /\ is_artifact (lower fname) = is_artifact fname.
Proof.
  split; [apply is_artifact_iff|].
  unfold is_artifact. by rewrite lower_lower.
Qed.

Lemma main_event_file (w : World) (iso_map : list (string * string)) (side : Sidebar)
    (ev : Event) (p : path) :
  main_event w iso_map side ev -> event_file ev = Some p ->
  exists name code,
    name ∈ ms_value (selected_metrics side)
    /\ dict_get metrics name = Some code
    /\ ((exists yr, p = frame_path code yr) \/ p = gif_path code \/ p = mp4_path code).
Proof.
  intros [->|(name & code & Hsel & Hcode & Hev)] Hfile; [done|].
  exists name, code. split_and!; [done..|].
  destruct ev; try done; cbn in Hfile; injection Hfile as ->;
    destruct Hev as (df & _ & _ & Hev); cbn in Hev.
  - destruct Hev as (yr & _ & _ & ->). eauto.
  - destruct Hev as [-> _]. eauto.
  - destruct Hev as [-> _]. eauto.
Qed.

Lemma main_event_artifact (w : World) (iso_map : list (string * string))
    (side : Sidebar) (ev : Event) (p : path) :
  main_event w iso_map side ev -> event_file ev = Some p -> artifact_path p.
Proof.
  intros Hev Hfile.
  destruct (main_event_file _ _ _ _ _ Hev Hfile)
    as (name & code & _ & _ & [[yr ->]|[->| ->]]);
    auto using frame_path_artifact, gif_path_artifact, mp4_path_artifact.
Qed.

Lemma written_artifacts (P : Event -> Prop) (t : list Event) (p : path) :
  Forall P t -> (forall ev q, P ev -> event_file ev = Some q -> artifact_path q) ->
  p ∈ omap event_file t -> artifact_path p.
Proof.
  intros Ht HP (ev & Hev & Hfile)%list_elem_of_omap.
  rewrite Forall_forall in Ht. eauto.
Qed.

Lemma write_all_is_Some (ws : list (path * bytes)) (fs : FileSystem) (p : path) :
  p ∈ ws.*1 -> is_Some (write_all ws fs !! p).
Proof.
  induction ws as [|[q d] ws IH] using rev_ind; intros Hp; [by apply elem_of_nil in Hp|].
  rewrite write_all_snoc. rewrite fmap_app, elem_of_app in Hp.
  destruct (decide (q = p)) as [->|Hne].
  - rewrite lookup_insert_eq. eauto.
  - rewrite lookup_insert_ne by done. apply IH.
    destruct Hp as [Hp|Hp]; [done|]. apply list_elem_of_singleton in Hp. by subst.
Qed.

(** X5. Lines 102-106 and 178-186: every file a run writes lies in the
    scratch directory under a name that the purge of line 105 selects;
    a file under any other name or in any other directory keeps its
    contents, and no such file is created; and when the run ends, the
    files of the scratch directory with such a name are exactly the
    files written during this run. *)
Theorem run_touches_only_artifacts (w : World) (iso_map : list (string * string))
    (side : Sidebar) (fs : FileSystem) :
  (forall p, p ∈ omap event_file (trace (run w iso_map side fs)) -> artifact_path p)
  /\ (forall p, ~ artifact_path p -> files (run w iso_map side fs) !! p = fs !! p)
  /\ (forall p, artifact_path p ->
        (is_Some (files (run w iso_map side fs) !! p)
         <-> p ∈ omap event_file (trace (run w iso_map side fs)))).
Proof.
  destruct (run_normal_form w iso_map side) as (v & t & ws & Hrun & Hws & Ht).
  rewrite Hrun. cbn [trace files].
  assert (forall p, p ∈ omap event_file t -> artifact_path p) as Hart.
  { intros p. apply (written_artifacts _ _ _ Ht). apply main_event_artifact. }
  split_and!; [done| |].
  - intros p Hp. rewrite write_all_lookup_other; [by apply purged_other|].
    rewrite Hws. intros ?%Hart. done.
  - intros p Hp. rewrite <- Hws. split; [|apply write_all_is_Some].
    intros Hsome. destruct (decide (p ∈ ws.*1)) as [|Hnot]; [done|].
    rewrite (write_all_lookup_other _ _ _ Hnot), (purged_artifact _ _ Hp) in Hsome.
    by destruct Hsome.
Qed.

Lemma purged_write_all (ws : list (path * bytes)) (fs : FileSystem) :
  (forall p, p ∈ ws.*1 -> artifact_path p) ->
  purged (write_all ws (purged fs)) = purged fs.
Proof.
  intros Hws. apply map_eq. intros p.
  destruct (decide (artifact_path p)) as [Hp|Hp].
  - by rewrite !purged_artifact.
  - rewrite !purged_other by done. rewrite write_all_lookup_other.
    + by apply purged_other.
    + intros ?%Hws. done.
Qed.

(** X6. Lines 101-211: what a run shows, how it ends and what its
    artifacts contain do not depend on the files it starts from, only on
    the selections and on the answers of the libraries.  In particular,
    running the script again on the files the previous run left gives
    the same result, the same events and the same files. *)
Theorem a_second_run_repeats_the_first (w : World) (iso_map : list (string * string))
    (side : Sidebar) (fs : FileSystem) :
  (forall fs',
     value (run w iso_map side fs') = value (run w iso_map side fs)
     /\ trace (run w iso_map side fs') = trace (run w iso_map side fs)
     /\ forall p, artifact_path p ->
          files (run w iso_map side fs') !! p = files (run w iso_map side fs) !! p)
  /\ run w iso_map side (files (run w iso_map side fs)) = run w iso_map side fs.
Proof.
  destruct (run_normal_form w iso_map side) as (v & t & ws & Hrun & Hws & Ht).
  assert (forall p, p ∈ ws.*1 -> artifact_path p) as Hart.
  { intros p. rewrite Hws. apply (written_artifacts _ _ _ Ht).
    apply main_event_artifact. }
  split.
  - intros fs'. rewrite !Hrun. cbn [value files trace]. split_and!; [done..|].
    intros p Hp. destruct (decide (p ∈ ws.*1)) as [Hin|Hnot].
    + by apply write_all_lookup_written.
    + by rewrite !write_all_lookup_other, !purged_artifact.
  - rewrite !Hrun. cbn [files]. f_equal. f_equal. by apply purged_write_all.
Qed.

(** ** One iteration of the loop over the metrics, lines 114-211 *)

Lemma present_no_request (w : World) (side : Sidebar) (name code : string)
    (df : DataFrame) (t : list Event) :
  Forall (present_event w side name code df) t -> omap event_request t = [].
Proof.
  induction 1 as [|ev t Hev _ IH]; [done|].
  cbn [omap list_omap]. rewrite IH. by destruct ev.
Qed.

Lemma one_metric_request (w : World) (side : Sidebar) (iso_list : list string)
    (name code : string) (fs : FileSystem) :
  dict_get metrics name = Some code ->
  omap event_request (trace (one_metric w side iso_list name fs))
  = [((code, name), iso_list, (start_date, end_date))].
Proof.
  intros Hcode. rewrite (one_metric_cases _ _ _ _ _ _ Hcode).
  unfold prepend. cbn [trace]. rewrite omap_app.
  match goal with |- _ ++ ?r = _ => enough (r = []) as -> by done end.
  destruct (fetched w code name iso_list) as [df|e]; [|done].
  destruct (df_empty df); [done|].
  pose proof (present_events w side name code df fs) as Hp.
  destruct (present w side name code df fs) as [[[]|e] fs' t]; cbn [value files trace] in *.
  - by eapply present_no_request.
  - rewrite omap_app, (present_no_request _ _ _ _ _ _ Hp). done.
Qed.

Lemma run_trace (w : World) (iso_map : list (string * string)) (side : Sidebar)
    (fs : FileSystem) :
  selected_countries side <> [] ->
  ms_value (selected_metrics side) <> [] ->
  value (run w iso_map side fs) = Ok tt
  /\ trace (run w iso_map side fs)
     = flat_map (metric_trace w side (omap (dict_get iso_map) (selected_countries side)))
         (ms_value (selected_metrics side)).
Proof.
  intros Hc Hm. rewrite run_main. unfold main.
  rewrite !bool_decide_eq_false_2 by done. cbn [orb].
  apply for_each_one_metric. intros name. apply selected_in_catalog.
Qed.

Lemma run_without_metric (w : World) (iso_map : list (string * string)) (side : Sidebar)
    (fs : FileSystem) :
  ms_value (selected_metrics side) = [] ->
  run w iso_map side fs
  = mk_Outcome (Ok tt) (purged fs)
      [ev_warning "Please select at least one country and one metric."].
Proof.
  intros Hm. rewrite run_main. unfold main.
  rewrite (bool_decide_eq_true_2 (ms_value _ = [])) by done.
  by rewrite orb_true_r.
Qed.

(** X7. Lines 114-122: with a country selected, a run sends the provider
    exactly one request per selected metric, in selection order, whether
    the metric then succeeds, has no data or fails; each request names
    the metric's indicator code, the resolved country ids and the range
    2000-01-01 to 2022-01-01. *)
Theorem one_request_per_selected_metric (w : World) (iso_map : list (string * string))
    (side : Sidebar) (fs : FileSystem) :
  selected_countries side <> [] ->
  Forall2 (fun name request =>
             exists code,
               dict_get metrics name = Some code
               /\ request = ((code, name),
                             omap (dict_get iso_map) (selected_countries side),
                             (mk_datetime 2000 1 1, mk_datetime 2022 1 1)))
    (ms_value (selected_metrics side))
    (omap event_request (trace (run w iso_map side fs))).
Proof.
  intros Hc. destruct (decide (ms_value (selected_metrics side) = [])) as [Hm|Hm].
  { rewrite (run_without_metric _ _ _ _ Hm), Hm. constructor. }
  destruct (run_trace w iso_map side fs Hc Hm) as [_ ->]. clear Hm.
  pose proof (selected_in_catalog side) as Hcat.
  induction (ms_value (selected_metrics side)) as [|name names IH]; [constructor|].
  cbn [flat_map]. rewrite omap_app.
  destruct (Hcat name) as [code Hcode]; [by left|].
  unfold metric_trace at 1. rewrite (one_metric_request _ _ _ _ _ _ Hcode).
  constructor; [by exists code|]. apply IH. intros ? ?. apply Hcat. by right.
Qed.

Lemma one_request_per_selected_metric_witness :
  Forall2 (fun name request =>
             exists code,
               dict_get metrics name = Some code
               /\ request = ((code, name),
                             omap (dict_get Scenario.iso_map)
                               (selected_countries Scenario.side_gdp_population),
                             (mk_datetime 2000 1 1, mk_datetime 2022 1 1)))
    (ms_value (selected_metrics Scenario.side_gdp_population))
    (omap event_request
       (trace (run Scenario.world Scenario.iso_map Scenario.side_gdp_population
                 Scenario.stale))).
Proof.
  apply (one_request_per_selected_metric Scenario.world Scenario.iso_map
           Scenario.side_gdp_population Scenario.stale).
  vm_compute. congruence.
Defined.

Lemma one_metric_unknown (w : World) (side : Sidebar) (iso_list : list string)
    (name : string) (fs : FileSystem) :
  dict_get metrics name = None ->
  one_metric w side iso_list name fs = mk_Outcome (Raise ("'" +:+ name +:+ "'")) fs [].
Proof. intros Hnone. unfold one_metric. by rewrite bind_lift, Hnone. Qed.

Lemma bind_ext {A B} (m : M A) (k k' : A -> M B) (fs : FileSystem) :
  (forall a fs', k a fs' = k' a fs') -> bind m k fs = bind m k' fs.
Proof. intros Hk. unfold bind. destruct (value (m fs)); [|done]. by rewrite Hk. Qed.

Lemma for_each_app {A} (xs ys : list A) (body : A -> M unit) (fs : FileSystem) :
  for_each (xs ++ ys) body fs = bind (for_each xs body) (fun _ => for_each ys body) fs.
Proof.
  revert fs. induction xs as [|x xs IH]; intros fs.
  - change ([] ++ ys) with ys. unfold bind. cbn [for_each ret value files trace].
    by destruct (for_each ys body fs).
  - change ((x :: xs) ++ ys) with (x :: (xs ++ ys)). cbn [for_each].
    rewrite bind_assoc. apply bind_ext. intros _ fs'. apply IH.
Qed.

(** X8. Line 115: the lookup [metrics[metric_name]] stands before the
    [try].  For a name that is not in the catalog it raises
    [KeyError] out of the loop: the metrics before it have been handled,
    no request is made and no error message is shown for the name, the
    metrics after it are not handled, and the files are as the earlier
    metrics left them. *)
Theorem unknown_metric_ends_the_loop (w : World) (side : Sidebar)
    (iso_list : list string) (before after : list string) (name : string)
    (fs : FileSystem) :
  Forall (fun n => is_Some (dict_get metrics n)) before ->
  dict_get metrics name = None ->
  for_each (before ++ name :: after) (one_metric w side iso_list) fs
  = mk_Outcome (Raise ("'" +:+ name +:+ "'"))
      (files (for_each before (one_metric w side iso_list) fs))
      (flat_map (metric_trace w side iso_list) before).
Proof.
  intros Hbefore Hname. rewrite for_each_app.
  destruct (for_each_one_metric w side iso_list before fs) as [Hv Ht].
  { intros n Hn. rewrite Forall_forall in Hbefore. by apply Hbefore. }
  unfold bind. rewrite Hv, Ht. cbn [for_each].
  unfold bind. rewrite (one_metric_unknown _ _ _ _ _ Hname).
  cbn [value files trace]. by rewrite app_nil_r.
Qed.

Lemma unknown_metric_ends_the_loop_witness :
  for_each (["Population"] ++ "Literacy" :: ["Life Expectancy"])
    (one_metric Scenario.world Scenario.side_population Scenario.iso_list) Scenario.stale
  = mk_Outcome (Raise ("'" +:+ "Literacy" +:+ "'"))
      (files (for_each ["Population"]
                (one_metric Scenario.world Scenario.side_population Scenario.iso_list)
                Scenario.stale))
      (flat_map (metric_trace Scenario.world Scenario.side_population Scenario.iso_list)
         ["Population"]).
Proof.
  apply (unknown_metric_ends_the_loop Scenario.world Scenario.side_population
           Scenario.iso_list ["Population"] ["Life Expectancy"] "Literacy"
           Scenario.stale).
  - repeat constructor. vm_compute. eauto.
  - reflexivity.
Defined.

Lemma present_no_warning (w : World) (side : Sidebar) (name code : string)
    (df : DataFrame) (t : list Event) (body : string) :
  Forall (present_event w side name code df) t -> ev_warning body ∉ t.
Proof. intros Ht Hin. rewrite Forall_forall in Ht. by apply Ht in Hin. Qed.

(** X9. Lines 118-129: when the client answers with the frame it builds
    from the records [obs] of the provider, the message that there is no
    data for the metric is shown exactly when there are records, none of
    them has a value, and they are not records of several countries for
    one date; the iteration then consists of the request and this
    message and leaves the files alone.  An empty response is not such a
    case: the client raises [IndexError] and the iteration shows the
    error message instead; so do records of several countries for one
    date, for which line 124 raises [KeyError('date')]. *)
Theorem no_data_exactly_when_no_value (w : World) (side : Sidebar)
    (iso_list : list string) (name code : string) (obs : list Observation)
    (fs : FileSystem) :
  dict_get metrics name = Some code ->
  wbdata_get_dataframe w (code, name) iso_list (start_date, end_date)
  = frame_of_observations name obs ->
  (ev_warning ("No data for " +:+ name +:+ ".")
     ∈ trace (one_metric w side iso_list name fs)
   <-> obs <> []
       /\ Forall (fun o => PrimFloat.is_nan (obs_value o) = true) obs
       /\ response_index obs <> by_country)
  /\ (obs <> [] ->
      Forall (fun o => PrimFloat.is_nan (obs_value o) = true) obs ->
      response_index obs <> by_country ->
      one_metric w side iso_list name fs
      = mk_Outcome (Ok tt) fs
          [ev_get_dataframe (code, name) iso_list (start_date, end_date);
           ev_warning ("No data for " +:+ name +:+ ".")])
  /\ (obs = [] ->
      one_metric w side iso_list name fs
      = mk_Outcome (Ok tt) fs
          [ev_get_dataframe (code, name) iso_list (start_date, end_date);
           ev_error ("❌ Error with " +:+ name +:+ ": " +:+ "list index out of range")])
  /\ (response_index obs = by_country ->
      one_metric w side iso_list name fs
      = mk_Outcome (Ok tt) fs
          [ev_get_dataframe (code, name) iso_list (start_date, end_date);
           ev_error ("❌ Error with " +:+ name +:+ ": " +:+ "'date'")])
  /\ (response_index obs = by_country
      <-> (~ exists c, Forall (fun o => obs_country o = c) obs)
          /\ exists d, Forall (fun o => obs_date o = d) obs).
Proof.
  intros Hcode Hframe.
  assert (Forall (fun o => PrimFloat.is_nan (obs_value o) = true) obs
          <-> kept obs = []) as Hnan.
  { rewrite kept_nil. apply Forall_proper; [|done]. intros o. unfold has_value.
    by destruct (PrimFloat.is_nan (obs_value o)). }
  assert (forall df t (e : string),
            Forall (present_event w side name code df) t ->
            ev_warning ("No data for " +:+ name +:+ ".")
              ∉ [ev_get_dataframe (code, name) iso_list (start_date, end_date)]
                ++ t ++ [error_event name e]) as Hquiet.
  { intros df t e Ht. rewrite !elem_of_app, !list_elem_of_singleton.
    intros [|[Hin|]]; [done| |done]. by eapply present_no_warning. }
  assert (forall df t,
            Forall (present_event w side name code df) t ->
            ev_warning ("No data for " +:+ name +:+ ".")
              ∉ [ev_get_dataframe (code, name) iso_list (start_date, end_date)] ++ t)
    as Hquiet'.
  { intros df t Ht. rewrite elem_of_app, list_elem_of_singleton.
    intros [|Hin]; [done|]. by eapply present_no_warning. }
  assert (forall df,
            df_empty df = false ->
            ev_warning ("No data for " +:+ name +:+ ".")
              ∉ trace (prepend
                         [ev_get_dataframe (code, name) iso_list (start_date, end_date)]
                         (let o := present w side name code df fs in
                          match value o with
                          | Ok _ => o
                          | Raise e =>
                              mk_Outcome (Ok tt) (files o)
                                (trace o ++ [error_event name e])
                          end))) as Hpresent.
  { intros df _. pose proof (present_events w side name code df fs) as Hp.
    cbv zeta. unfold prepend.
    destruct (present w side name code df fs) as [[[]|e] fs' t];
      cbn [value files trace] in *; eauto. }
  rewrite (one_metric_cases _ _ _ _ _ _ Hcode).
  rewrite (fetched_response _ _ _ _ _ Hcode Hframe), Hnan.
  split_and!; [| | | |apply response_index_by_country].
  - destruct obs as [|o obs].
    { split; [|by intros [? _]]. unfold prepend. cbn [trace].
      rewrite elem_of_app, !list_elem_of_singleton. by intros [|]. }
    set (rs := o :: obs) in *. destruct (response_index rs) eqn:Hidx.
    + destruct (df_empty (metric_table_by_date name (kept rs))) eqn:Hempty.
      * apply df_empty_metric_table_by_date in Hempty. split; [done|]. intros _.
        unfold prepend. cbn [trace]. apply elem_of_app. right. constructor.
      * split; [intros Hin; by apply Hpresent in Hin|]. intros (_ & Hk & _).
        apply (proj2 (df_empty_metric_table_by_date name _)) in Hk. congruence.
    + split; [|by intros (_ & _ & ?)]. unfold prepend. cbn [trace].
      rewrite elem_of_app, !list_elem_of_singleton. by intros [|].
    + destruct (df_empty (metric_table name (kept rs))) eqn:Hempty.
      * apply df_empty_metric_table in Hempty. split; [done|]. intros _.
        unfold prepend. cbn [trace]. apply elem_of_app. right. constructor.
      * split; [intros Hin; by apply Hpresent in Hin|]. intros (_ & Hk & _).
        apply (proj2 (df_empty_metric_table name _)) in Hk. congruence.
  - intros Hne Hk Hidx. destruct obs as [|o obs]; [done|].
    destruct (response_index (o :: obs)); [|done|].
    + by rewrite (proj2 (df_empty_metric_table_by_date name _) Hk).
    + by rewrite (proj2 (df_empty_metric_table name _) Hk).
  - by intros ->.
  - intros Hidx. destruct obs as [|o obs]; [done|]. by rewrite Hidx.
Qed.

Lemma no_data_exactly_when_no_value_witness :
  (ev_warning ("No data for " +:+ "Life Expectancy" +:+ ".")
     ∈ trace (one_metric Scenario.world Scenario.side_life_population Scenario.iso_list
                "Life Expectancy" Scenario.stale)
   <-> Scenario.life_expectancy <> []
       /\ Forall (fun o => PrimFloat.is_nan (obs_value o) = true) Scenario.life_expectancy
       /\ response_index Scenario.life_expectancy <> by_country)
  /\ (Scenario.life_expectancy <> [] ->
      Forall (fun o => PrimFloat.is_nan (obs_value o) = true) Scenario.life_expectancy ->
      response_index Scenario.life_expectancy <> by_country ->
      one_metric Scenario.world Scenario.side_life_population Scenario.iso_list
        "Life Expectancy" Scenario.stale
      = mk_Outcome (Ok tt) Scenario.stale
          [ev_get_dataframe ("SP.DYN.LE00.IN", "Life Expectancy") Scenario.iso_list
             (start_date, end_date);
           ev_warning ("No data for " +:+ "Life Expectancy" +:+ ".")])
  /\ (Scenario.life_expectancy = [] ->
      one_metric Scenario.world Scenario.side_life_population Scenario.iso_list
        "Life Expectancy" Scenario.stale
      = mk_Outcome (Ok tt) Scenario.stale
          [ev_get_dataframe ("SP.DYN.LE00.IN", "Life Expectancy") Scenario.iso_list
             (start_date, end_date);
           ev_error ("❌ Error with " +:+ "Life Expectancy" +:+ ": "
                     +:+ "list index out of range")])
  /\ (response_index Scenario.life_expectancy = by_country ->
      one_metric Scenario.world Scenario.side_life_population Scenario.iso_list
        "Life Expectancy" Scenario.stale
      = mk_Outcome (Ok tt) Scenario.stale
          [ev_get_dataframe ("SP.DYN.LE00.IN", "Life Expectancy") Scenario.iso_list
             (start_date, end_date);
           ev_error ("❌ Error with " +:+ "Life Expectancy" +:+ ": " +:+ "'date'")])
  /\ (response_index Scenario.life_expectancy = by_country
      <-> (~ exists c, Forall (fun o => obs_country o = c) Scenario.life_expectancy)
          /\ exists d, Forall (fun o => obs_date o = d) Scenario.life_expectancy).
Proof.
  apply (no_data_exactly_when_no_value Scenario.world Scenario.side_life_population
           Scenario.iso_list "Life Expectancy" "SP.DYN.LE00.IN"
           Scenario.life_expectancy Scenario.stale); reflexivity.
Defined.

(** X10. Lines 118-123 and 210-211: when the request to the provider or
    the normalisation of its answer raises an exception with message
    [e], the iteration ends normally after exactly two events, the
    request and the error message that names the metric and carries [e];
    nothing is rendered and no file is touched. *)
Theorem fetch_failure_is_reported (w : World) (side : Sidebar)
    (iso_list : list string) (name code : string) (e : string) (fs : FileSystem) :
  dict_get metrics name = Some code ->
  (wbdata_get_dataframe w (code, name) iso_list (start_date, end_date) = Raise e
   \/ exists frame,
        wbdata_get_dataframe w (code, name) iso_list (start_date, end_date) = Ok frame
        /\ normalize frame = Raise e) ->
  one_metric w side iso_list name fs
  = mk_Outcome (Ok tt) fs
      [ev_get_dataframe (code, name) iso_list (start_date, end_date);
       ev_error ("❌ Error with " +:+ name +:+ ": " +:+ e)].
Proof.
  intros Hcode Hfail. rewrite (one_metric_cases _ _ _ _ _ _ Hcode).
  assert (fetched w code name iso_list = Raise e) as ->; [|done].
  unfold fetched. destruct Hfail as [->|(frame & -> & Hn)]; done.
Qed.

Lemma fetch_failure_is_reported_witness :
  one_metric Scenario.world Scenario.side_gdp_population Scenario.iso_list
    "GDP per Capita (current US$)" Scenario.stale
  = mk_Outcome (Ok tt) Scenario.stale
      [ev_get_dataframe ("NY.GDP.PCAP.CD", "GDP per Capita (current US$)")
         Scenario.iso_list (start_date, end_date);
       ev_error ("❌ Error with " +:+ "GDP per Capita (current US$)" +:+ ": "
                 +:+ "HTTPSConnectionPool: Max retries exceeded")].
Proof.
  apply (fetch_failure_is_reported Scenario.world Scenario.side_gdp_population
           Scenario.iso_list "GDP per Capita (current US$)" "NY.GDP.PCAP.CD"
           "HTTPSConnectionPool: Max retries exceeded" Scenario.stale).
  - reflexivity.
  - left. reflexivity.
Defined.

(** ** The figures, lines 131-151 and 163-177 *)

Lemma df_mask_metric_table (name : string) (obs : list Observation)
    (keep : Observation -> bool) :
  df_mask (map keep obs) (metric_table name obs)
  = metric_table name (filter (fun o => keep o = true) obs).
Proof.
  unfold df_mask, metric_table. cbn [map fst snd series_mask].
  by rewrite !take_mask_map.
Qed.

Lemma of_year_elem (yr : Z) (obs : list Observation) :
  yr ∈ map (fun o => dt_year (obs_date o)) obs -> of_year yr obs <> [].
Proof.
  intros (o & -> & Ho)%list_elem_of_fmap Hnil.
  assert (o ∈ of_year (dt_year (obs_date o)) obs) as Hin.
  { apply list_elem_of_filter. done. }
  rewrite Hnil in Hin. by apply elem_of_nil in Hin.
Qed.

(** X11. Lines 163-177: the figure of the year [yr] is drawn from the
    rows of the table whose year is [yr], in table order, and from no
    other row; for a year that occurs in the table there is at least one
    such row.  The figure is titled with the metric and the year and
    coloured by the metric's column, and the only call in these lines
    that can fail is [px.choropleth] itself. *)
Theorem a_frame_shows_the_rows_of_its_year (w : World) (name code theme : string)
    (obs : list Observation) (yr : Z) :
  dict_get metrics name = Some code ->
  let slice := metric_table name (of_year yr obs) in
  let f := px_choropleth slice "Country" "country names" name (Some "Country") None
             (theme_scale theme) (name +:+ " — " +:+ pretty yr) in
  year_frame w (metric_table name obs) name theme yr
  = match px_choropleth_raises w f with
    | Some e => Raise e
    | None => Ok (update_layout (update_geos f "natural earth" None None) None
                    (theme_template theme))
    end
  /\ table_years slice = repeat yr (length (of_year yr obs))
  /\ (yr ∈ years_of (metric_table name obs) -> of_year yr obs <> []).
Proof.
  intros Hcode slice f.
  destruct (catalog_name_fresh _ _ Hcode) as (_ & _ & Hyear & _).
  split_and!.
  - unfold year_frame. rewrite (metric_table_Year _ _ Hyear). cbn [rbind series_eq_int].
    rewrite map_map, df_mask_metric_table.
    replace (filter (fun o => (dt_year (obs_date o) =? yr) = true) obs)
      with (of_year yr obs).
    2:{ unfold of_year. apply list_filter_iff. intros o. by rewrite Z.eqb_eq. }
    fold slice f. by destruct (px_choropleth_raises w f).
  - unfold slice. rewrite (metric_table_years _ _ Hyear). unfold of_year.
    induction obs as [|o obs IH]; [done|]. rewrite filter_cons.
    case_decide as Ho; [|done]. cbn [map length repeat]. by rewrite IH, Ho.
  - rewrite years_of_elem, (metric_table_years _ _ Hyear). apply of_year_elem.
Qed.

Lemma a_frame_shows_the_rows_of_its_year_witness :
  let slice := metric_table "Population" (of_year 2001 Scenario.population) in
  let f := px_choropleth slice "Country" "country names" "Population" (Some "Country")
             None (theme_scale "Dark") ("Population" +:+ " — " +:+ pretty 2001) in
  year_frame Scenario.world (metric_table "Population" Scenario.population)
    "Population" "Dark" 2001
  = match px_choropleth_raises Scenario.world f with
    | Some e => Raise e
    | None => Ok (update_layout (update_geos f "natural earth" None None) None
                    (theme_template "Dark"))
    end
  /\ table_years slice = repeat 2001 (length (of_year 2001 Scenario.population))
  /\ (2001 ∈ years_of (metric_table "Population" Scenario.population) ->
      of_year 2001 Scenario.population <> []).
Proof.
  apply (a_frame_shows_the_rows_of_its_year Scenario.world "Population" "SP.POP.TOTL"
           "Dark" Scenario.population 2001).
  reflexivity.
Defined.

Section Layout.
Context (w : World).

Lemma year_frame_layout df name th yr f :
  year_frame w df name th yr = Ok f ->
  projection_type f = Some "natural earth"
  /\ template f = Some (theme_template th)
  /\ locations f = "Country" /\ locationmode f = "country names" /\ color f = name
  /\ hover_name f = Some "Country" /\ animation_frame f = None
  /\ coloraxis_colorbar f
     = {| cb_title := name; cb_tickvals := None; cb_ticktext := None |}.
Proof.
  unfold year_frame. destruct (df_getitem df "Year"); cbn; [|done].
  destruct (px_choropleth_raises w _); cbn; [done|]. by intros [= <-].
Qed.

Lemma full_range_chart_layout df name th fig :
  full_range_chart w df name th = Ok fig ->
  projection_type fig = Some "natural earth"
  /\ template fig = Some (theme_template th)
  /\ locations fig = "Country" /\ locationmode fig = "country names" /\ color fig = name
  /\ data_frame fig = df
  /\ showcoastlines fig = Some true /\ showcountries fig = Some true
  /\ exists year frames ticks,
       df_getitem df "Year" = Ok year
       /\ series_astype_str year = Ok frames
       /\ animation_frame fig = Some frames
       /\ (col <- df_getitem df name ;; series_quantile w col tick_quantiles)%result
          = Ok ticks
       /\ coloraxis_colorbar fig
          = {| cb_title := name;
               cb_tickvals := Some (map (float_round2 w) ticks);
               cb_ticktext := Some (map (format_2e w) ticks) |}.
Proof.
  unfold full_range_chart. destruct (df_getitem df "Year") as [year|]; cbn; [|done].
  destruct (series_astype_str _) as [frames|] eqn:Hframes; cbn; [|done].
  destruct (px_choropleth_raises w _); cbn; [done|].
  destruct (df_getitem df name); cbn; [|done].
  destruct (series_quantile w _ _) as [ticks|] eqn:Hq; cbn; [|done].
  intros [= <-]. cbn. split_and!; try done.
  by exists year, frames, ticks.
Qed.

End Layout.

(** X12. Lines 131-151 and 164-177: every figure a run shows or renders
    uses the natural-earth projection and the template of the selected
    theme ([plotly_dark] for Dark, [plotly_white] for Light), locates
    its rows by the country names of the [Country] column and is
    coloured by the column of a selected metric.  The chart shown on the
    page draws coastlines and country borders, is animated over the
    years of the table as text, and its colour bar is titled with the
    metric and has its ticks set to the three quantiles of the metric.
    A rendered frame has no animation, shows the country name on hover,
    and keeps the colour bar that [px.choropleth] gave it: titled with
    the metric, with the ticks left to plotly. *)
Theorem figures_follow_the_theme (w : World) (iso_map : list (string * string))
    (side : Sidebar) (fs : FileSystem) :
  theme_template "Dark" = "plotly_dark"
  /\ theme_template "Light" = "plotly_white"
  /\ Forall (fun ev => forall fig, event_figure ev = Some fig ->
               projection_type fig = Some "natural earth"
               /\ template fig = Some (theme_template (rd_value (theme side)))
               /\ locations fig = "Country"
               /\ locationmode fig = "country names"
               /\ color fig ∈ ms_value (selected_metrics side))
       (trace (run w iso_map side fs))
  /\ Forall (fun ev => forall fig, ev = ev_plotly_chart fig ->
               showcoastlines fig = Some true /\ showcountries fig = Some true
               /\ exists year frames ticks,
                    df_getitem (data_frame fig) "Year" = Ok year
                    /\ series_astype_str year = Ok frames
                    /\ animation_frame fig = Some frames
                    /\ (col <- df_getitem (data_frame fig) (color fig) ;;
                        series_quantile w col tick_quantiles)%result = Ok ticks
                    /\ coloraxis_colorbar fig
                       = {| cb_title := color fig;
                            cb_tickvals := Some (map (float_round2 w) ticks);
                            cb_ticktext := Some (map (format_2e w) ticks) |})
       (trace (run w iso_map side fs))
  /\ Forall (fun ev => forall fig file, ev = ev_write_image fig file ->
               hover_name fig = Some "Country" /\ animation_frame fig = None
               /\ coloraxis_colorbar fig
                  = {| cb_title := color fig; cb_tickvals := None;
                       cb_ticktext := None |})
       (trace (run w iso_map side fs)).
Proof.
  split_and!; [done|done|..]; apply Forall_forall; intros ev Hev%run_events.
  - intros fig Hfig. destruct Hev as [->|(name & code & Hsel & _ & Hev)]; [done|].
    destruct ev; try done; cbn in Hfig; injection Hfig as <-.
    + destruct Hev as (df & _ & _ & Hchart).
      apply full_range_chart_layout in Hchart as (? & ? & ? & ? & -> & _). done.
    + destruct Hev as (df & _ & _ & yr & _ & Hframe & _).
      apply year_frame_layout in Hframe as (? & ? & ? & ? & -> & _). done.
  - intros fig ->. destruct Hev as [[=]|(name & code & Hsel & _ & Hev)].
    destruct Hev as (df & _ & _ & Hchart).
    apply full_range_chart_layout in Hchart
      as (_ & _ & _ & _ & -> & -> & ? & ? & year & frames & ticks
          & ? & ? & ? & ? & ?).
    split_and!; [done..|]. by exists year, frames, ticks.
  - intros fig file ->. destruct Hev as [[=]|(name & code & Hsel & _ & Hev)].
    destruct Hev as (df & _ & _ & yr & _ & Hframe & _).
    apply year_frame_layout in Hframe as (_ & _ & _ & _ & -> & ? & ? & ?). done.
Qed.

(** ** The artifacts of a metric, lines 160-205 *)

Lemma sorted_last_max (xs : list Z) (m : Z) :
  StronglySorted Z.lt xs -> last xs = Some m -> forall y, y ∈ xs -> y <= m.
Proof.
  induction 1 as [|x xs Hs IH Hx]; [done|]. intros Hlast y Hy.
  destruct xs as [|x' xs].
  - injection Hlast as <-. apply list_elem_of_singleton in Hy as ->. lia.
  - change (last (x :: x' :: xs)) with (last (x' :: xs)) in Hlast.
    apply elem_of_cons in Hy as [->|Hy]; [|by apply IH].
    rewrite Forall_forall in Hx.
    assert (m ∈ x' :: xs) as Hm by (by apply last_Some_elem_of).
    apply Hx in Hm. lia.
Qed.

Lemma frame_events_no_download (code : string) (rs : list (Z * Figure * bytes)) :
  omap event_download (frame_events code rs) = [].
Proof. induction rs as [|r rs IH]; [done|]. cbn. apply IH. Qed.

(** X13. Lines 182-205: when the handling of a metric completes, the
    three download buttons hand out, in this order, the PNG of the
    latest year of the table under the name [code_year.png], the GIF
    under [code.gif] and the MP4 under [code.mp4], with the MIME types
    image/png, image/gif and video/mp4; what each button carries is the
    content of the file of that name in the scratch directory at the
    end, and the PNG is the image rendered from the figure of that
    year. *)
Theorem downloads_hand_out_the_files (w : World) (side : Sidebar) (name code : string)
    (df : DataFrame) (fs : FileSystem) :
  value (present w side name code df fs) = Ok tt ->
  exists last_year f png gif mp4,
    last (years_of df) = Some last_year
    /\ (forall y, y ∈ table_years df -> y <= last_year)
    /\ year_frame w df name (rd_value (theme side)) last_year = Ok f
    /\ pio_write_image w f = Ok png
    /\ omap event_download (trace (present w side name code df fs))
       = [(png, code +:+ "_" +:+ pretty last_year +:+ ".png", "image/png");
          (gif, code +:+ ".gif", "image/gif");
          (mp4, code +:+ ".mp4", "video/mp4")]
    /\ files (present w side name code df fs)
         !! (FRAME_DIR, code +:+ "_" +:+ pretty last_year +:+ ".png") = Some png
    /\ files (present w side name code df fs) !! (FRAME_DIR, code +:+ ".gif") = Some gif
    /\ files (present w side name code df fs) !! (FRAME_DIR, code +:+ ".mp4") = Some mp4.
Proof.
  intros Hok.
  destruct (present_complete w side name code df fs Hok)
    as (fig & trend & gif & mp4 & ly & lf & lp & _ & _ & Hyears & Hlast & _ & _ & _ & ->).
  set (rs := rendered_frames w df name (rd_value (theme side)) (years_of df)) in *.
  assert ((ly, lf, lp) ∈ rs) as Hin by (by apply last_Some_elem_of).
  pose proof (rendered_frames_ok w side name df (years_of df)) as Hrs.
  rewrite Forall_forall in Hrs. destruct (Hrs _ Hin) as [Hf Hpng].
  assert (last (years_of df) = Some ly) as Hly.
  { rewrite <- Hyears. change (map ?f ?l) with (f <$> l).
    by rewrite fmap_last, Hlast. }
  exists ly, lf, lp, gif, mp4. cbn [trace files]. split_and!; try done.
  - intros y Hy. apply (sorted_last_max (years_of df)).
    + apply years_of_ascending.
    + done.
    + by apply years_of_elem.
  - unfold complete_trace. rewrite !omap_app, frame_events_no_download. done.
  - change (FRAME_DIR, _) with (frame_path code ly).
    rewrite lookup_insert_ne by (apply not_eq_sym, frame_path_not_mp4).
    rewrite lookup_insert_ne by (apply not_eq_sym, frame_path_not_gif).
    apply write_all_lookup_NoDup.
    + rewrite frame_writes_keys, Hyears. apply NoDup_fmap; [apply _|].
      apply years_of_NoDup.
    + unfold frame_writes. apply list_elem_of_fmap. by exists (ly, lf, lp).
  - change (FRAME_DIR, _) with (gif_path code).
    rewrite lookup_insert_ne by (apply not_eq_sym, gif_path_not_mp4).
    apply lookup_insert_eq.
  - change (FRAME_DIR, _) with (mp4_path code). apply lookup_insert_eq.
Qed.

Lemma downloads_hand_out_the_files_witness :
  exists last_year f png gif mp4,
    last (years_of (metric_table "Population" Scenario.population)) = Some last_year
    /\ (forall y, y ∈ table_years (metric_table "Population" Scenario.population) ->
          y <= last_year)
    /\ year_frame Scenario.world (metric_table "Population" Scenario.population)
         "Population" (rd_value (theme Scenario.side_population)) last_year = Ok f
    /\ pio_write_image Scenario.world f = Ok png
    /\ omap event_download
         (trace (present Scenario.world Scenario.side_population "Population"
                   "SP.POP.TOTL" (metric_table "Population" Scenario.population)
                   Scenario.stale))
       = [(png, "SP.POP.TOTL" +:+ "_" +:+ pretty last_year +:+ ".png", "image/png");
          (gif, "SP.POP.TOTL" +:+ ".gif", "image/gif");
          (mp4, "SP.POP.TOTL" +:+ ".mp4", "video/mp4")]
    /\ files (present Scenario.world Scenario.side_population "Population"
                "SP.POP.TOTL" (metric_table "Population" Scenario.population)
                Scenario.stale)
         !! (FRAME_DIR, "SP.POP.TOTL" +:+ "_" +:+ pretty last_year +:+ ".png") = Some png
    /\ files (present Scenario.world Scenario.side_population "Population"
                "SP.POP.TOTL" (metric_table "Population" Scenario.population)
                Scenario.stale) !! (FRAME_DIR, "SP.POP.TOTL" +:+ ".gif") = Some gif
    /\ files (present Scenario.world Scenario.side_population "Population"
                "SP.POP.TOTL" (metric_table "Population" Scenario.population)
                Scenario.stale) !! (FRAME_DIR, "SP.POP.TOTL" +:+ ".mp4") = Some mp4.
Proof.
  apply (downloads_hand_out_the_files Scenario.world Scenario.side_population
           "Population" "SP.POP.TOTL" (metric_table "Population" Scenario.population)
           Scenario.stale).
  vm_compute. reflexivity.
Defined.

Section Untouched.
Context (touched : path -> Prop).

Lemma leaves_bind {A B} (m : M A) (k : A -> M B) :
  leaves_alone touched m -> (forall a, leaves_alone touched (k a)) ->
  leaves_alone touched (bind m k).
Proof.
  intros Hm Hk fs p Hp. unfold bind. specialize (Hm fs p Hp).
  destruct (value (m fs)) as [a|e]; cbn [files]; [|done].
  by rewrite (Hk a _ p Hp).
Qed.

Lemma leaves_lift {A} (r : result A) : leaves_alone touched (lift r).
Proof. by intros fs p _. Qed.

Lemma leaves_read (file : path) : leaves_alone touched (read_file file).
Proof. intros fs p _. unfold read_file. by destruct (fs !! file). Qed.

Lemma leaves_emit (ev : Event) : leaves_alone touched (emit ev).
Proof. by intros fs p _. Qed.

Lemma leaves_show (w : World) (ev : Event) : leaves_alone touched (st_show w ev).
Proof. intros fs p _. unfold st_show. by destruct (st_raises w ev). Qed.

Lemma leaves_write (file : path) (data : bytes) (ev : Event) :
  touched file -> leaves_alone touched (write_file file data ev).
Proof.
  intros Hfile fs p Hp. cbn [write_file files]. apply lookup_insert_ne. congruence.
Qed.

Lemma leaves_read_files (sequence : list path) :
  leaves_alone touched (read_files sequence).
Proof.
  induction sequence as [|file rest IH]; cbn [read_files].
  - apply (leaves_lift (Ok [])).
  - apply leaves_bind; [apply leaves_read|]. intros data.
    apply leaves_bind; [apply IH|]. intros more. apply (leaves_lift (Ok _)).
Qed.

End Untouched.

Lemma after_the_loop_leaves_frames (w : World) (code : string) (years : list Z)
    (frame_paths : list path) (rate : Z) (df : DataFrame) :
  leaves_alone (fun p => p = gif_path code \/ p = mp4_path code)
    (artifacts <- assemble w code frame_paths rate ;;
     offer_downloads w code years frame_paths (fst artifacts) (snd artifacts) ;;
     st_show w (ev_expander "Show raw data") ;;
     st_show w (ev_dataframe df)).
Proof.
  repeat first
    [ apply leaves_bind; [|intros ?]
    | apply leaves_read_files
    | apply leaves_lift
    | apply leaves_read
    | apply leaves_emit
    | apply leaves_show
    | apply leaves_write; tauto
    | progress unfold assemble, offer_downloads ].
Qed.

Lemma rendered_frames_NoDup (w : World) (side : Sidebar) (name : string)
    (df : DataFrame) :
  NoDup (map (fun r : Z * Figure * bytes => fst (fst r))
           (rendered_frames w df name (rd_value (theme side)) (years_of df))).
Proof.
  rewrite rendered_frames_years.
  eapply sublist_NoDup; [apply years_of_NoDup|apply sublist_take].
Qed.

(** X14. Lines 162-188: a frame that has been written stays where it
    is.  Once the loop over the years is reached, every frame rendered
    before the first failure is in the scratch directory with the image
    that was rendered for its year when the handling of the metric ends,
    whether it ends normally or with an exception in a later year, in
    the clip, in an encoder or in a download button: nothing after line
    179 rewrites or removes a frame. *)
Theorem rendered_frames_stay (w : World) (side : Sidebar) (name code : string)
    (df : DataFrame) (fs : FileSystem) :
  reaches_the_loop w side name df = true ->
  Forall (fun r => files (present w side name code df fs)
                     !! (FRAME_DIR, code +:+ "_" +:+ pretty (fst (fst r)) +:+ ".png")
                   = Some (snd r))
    (rendered_frames w df name (rd_value (theme side)) (years_of df)).
Proof.
  unfold present, reaches_the_loop, shown.
  rewrite bind_lift.
  destruct (full_range_chart w df name (rd_value (theme side))) as [fig|]; [|done].
  rewrite bind_show. destruct (st_raises w _); [done|].
  rewrite bind_show. destruct (st_raises w _); [done|].
  rewrite bind_show. destruct (st_raises w _); [done|].
  rewrite bind_lift. destruct (pivot df "Year" "Country" name) as [trend|]; [|done].
  rewrite bind_show. destruct (st_raises w _); [done|].
  rewrite bind_lift.
  destruct (rbind (df_getitem df "Year") _) as [years|] eqn:Hyears; [|done].
  apply years_of_line_160 in Hyears as ->. intros _.
  destruct (render_frames_exact w side name code df (years_of df) [] fs)
    as (v & Hrender & _).
  set (rs := rendered_frames w df name (rd_value (theme side)) (years_of df)) in *.
  assert (forall r, r ∈ rs ->
            write_all (frame_writes code rs) fs !! frame_path code (fst (fst r))
            = Some (snd r)) as Hwritten.
  { intros r Hr. apply write_all_lookup_NoDup.
    - rewrite frame_writes_keys. apply NoDup_fmap; [apply _|].
      apply rendered_frames_NoDup.
    - unfold frame_writes. apply list_elem_of_fmap. by exists r. }
  apply Forall_forall. intros r Hr.
  change (FRAME_DIR, _) with (frame_path code (fst (fst r))).
  cbn [prepend files]. unfold bind at 1. rewrite Hrender. cbn [value files trace].
  destruct v as [frame_paths|e]; cbn [files]; [|by apply Hwritten].
  rewrite after_the_loop_leaves_frames; [by apply Hwritten|].
  intros [H|H]; [by apply frame_path_not_gif in H|by apply frame_path_not_mp4 in H].
Qed.

Lemma rendered_frames_stay_witness :
  Forall (fun r => files (present Scenario.world Scenario.side_population "Population"
                            "SP.POP.TOTL" (metric_table "Population" Scenario.population)
                            Scenario.stale)
                     !! (FRAME_DIR, "SP.POP.TOTL" +:+ "_" +:+ pretty (fst (fst r)) +:+ ".png")
                   = Some (snd r))
    (rendered_frames Scenario.world (metric_table "Population" Scenario.population)
       "Population" (rd_value (theme Scenario.side_population))
       (years_of (metric_table "Population" Scenario.population))).
Proof.
  apply (rendered_frames_stay Scenario.world Scenario.side_population "Population"
           "SP.POP.TOTL" (metric_table "Population" Scenario.population)
           Scenario.stale).
  vm_compute. reflexivity.
Defined.

(** ** The trend table, line 157 *)

Lemma pivot_cell_elem (rows : list ((Z * string) * float)) (k : Z * string) (v : float) :
  NoDup rows.*1 -> (k, v) ∈ rows -> pivot_cell rows k = v.
Proof.
  induction rows as [|[k' v'] rows IH]; intros Hnd Hin; [by apply elem_of_nil in Hin|].
  cbn [fmap list_fmap fst] in Hnd. apply NoDup_cons in Hnd as [Hk' Hnd].
  cbn [pivot_cell]. apply elem_of_cons in Hin as [[= <- <-]|Hin].
  - by rewrite bool_decide_eq_true_2.
  - rewrite bool_decide_eq_false_2; [by apply IH|].
    intros ->. apply Hk'. apply list_elem_of_fmap. by exists (k, v).
Qed.

Lemma pivot_cell_absent (rows : list ((Z * string) * float)) (k : Z * string) :
  k ∉ rows.*1 -> pivot_cell rows k = PrimFloat.nan.
Proof.
  induction rows as [|[k' v'] rows IH]; intros Hk; [done|].
  cbn [fmap list_fmap fst] in Hk. apply not_elem_of_cons in Hk as [Hne Hk].
  cbn [pivot_cell]. rewrite bool_decide_eq_false_2 by done. by apply IH.
Qed.

#[local] Instance str_le_trans : Transitive str_le.
Proof.
  intros a b c Hab Hbc. apply Is_true_true.
  apply Is_true_true in Hab, Hbc.
  by apply (transitivity (R := String.le) (y := b)).
Qed.

#[local] Instance str_le_total : Total str_le.
Proof.
  intros a b. destruct (total String.le a b) as [H|H]; [left|right];
    by apply Is_true_true.
Qed.

Lemma list_find_eq {A} `{EqDecision A} (x : A) (l : list A) :
  x ∈ l -> exists i, fst <$> list_find (eq x) l = Some i /\ l !! i = Some x.
Proof.
  intros Hin.
  destruct (list_find_elem_of (eq x) l x Hin eq_refl) as [[i y] Hfind].
  exists i. rewrite Hfind. split; [done|].
  apply list_find_Some in Hfind as (Hi & -> & _). done.
Qed.

Lemma pt_loc_cell (idx : list Z) (labels : list string) (cell : Z -> string -> float)
    (y : Z) (c : string) :
  y ∈ idx -> c ∈ labels ->
  pt_loc {| pt_index := idx; pt_columns := labels;
            pt_values := map (fun y => map (cell y) labels) idx |} y c
  = Some (cell y c).
Proof.
  intros (i & Hfi & Hi)%list_find_eq (j & Hfj & Hj)%list_find_eq.
  unfold pt_loc. cbn [pt_index pt_columns pt_values].
  rewrite Hfi. cbn. rewrite Hfj. cbn.
  change (map ?f ?l) with (f <$> l).
  rewrite list_lookup_fmap, Hi. cbn. by rewrite list_lookup_fmap, Hj.
Qed.

(** X15. Line 157: when no (country, year) pair is repeated, the pivot
    succeeds and gives a table with one row per distinct year, ascending,
    and one column per distinct country, in ascending order of the
    names; the cell of a record's year and country holds the record's
    value, and a cell for which the table has no record holds NaN. *)
Theorem trend_table_holds_every_value (name code : string) (obs : list Observation) :
  dict_get metrics name = Some code ->
  NoDup (provider_keys obs) ->
  exists t,
    pivot (metric_table name obs) "Year" "Country" name = Ok t
    /\ StronglySorted Z.lt (pt_index t)
    /\ (forall y, y ∈ pt_index t <-> exists o, o ∈ obs /\ dt_year (obs_date o) = y)
    /\ StronglySorted str_le (pt_columns t)
    /\ NoDup (pt_columns t)
    /\ (forall c, c ∈ pt_columns t <-> exists o, o ∈ obs /\ obs_country o = c)
    /\ (forall o, o ∈ obs ->
          pt_loc t (dt_year (obs_date o)) (obs_country o) = Some (obs_value o))
    /\ (forall y c, y ∈ pt_index t -> c ∈ pt_columns t ->
          (forall o, o ∈ obs -> ~ (dt_year (obs_date o) = y /\ obs_country o = c)) ->
          pt_loc t y c = Some PrimFloat.nan).
Proof.
  intros Hcode Hnd.
  destruct (catalog_name_fresh _ _ Hcode) as (_ & Hd & Hy & HC).
  assert (NoDup (map (fun o => (dt_year (obs_date o), obs_country o)) obs)) as Hkeys.
  { unfold provider_keys in Hnd.
    rewrite <- (NoDup_fmap prod_swap
                  (map (fun o => (obs_country o, dt_year (obs_date o))) obs)) in Hnd.
    by rewrite <- list_fmap_compose in Hnd. }
  unfold pivot.
  rewrite metric_table_Year, metric_table_Country, metric_table_metric by done.
  rewrite !zip_map. rewrite bool_decide_eq_true_2 by done.
  set (rows := map (fun o => (dt_year (obs_date o), obs_country o, obs_value o)) obs).
  set (idx := sorted (unique (map (fun o => dt_year (obs_date o)) obs))).
  set (labels := merge_sort str_le (unique_str_from [] (map obs_country obs))).
  assert (rows.*1 = map (fun o => (dt_year (obs_date o), obs_country o)) obs) as Hrows.
  { unfold rows. change (map ?f ?l) with (f <$> l). by rewrite <- list_fmap_compose. }
  assert (forall y, y ∈ idx <-> exists o, o ∈ obs /\ dt_year (obs_date o) = y) as Hidx.
  { intros y. unfold idx. rewrite sorted_unique_elem, list_elem_of_fmap.
    split; intros (o & H1 & H2); exists o; by split. }
  assert (forall c, c ∈ labels <-> exists o, o ∈ obs /\ obs_country o = c) as Hlabels.
  { intros c. unfold labels.
    rewrite merge_sort_Permutation, unique_str_from_elem, list_elem_of_fmap, elem_of_nil.
    split; [intros [(o & H1 & H2) _]|intros (o & H1 & H2); split; [|tauto]];
      exists o; by split. }
  eexists. split; [reflexivity|]. cbn [pt_index pt_columns pt_values].
  split_and!; try done.
  - apply sorted_unique_ascending.
  - apply (StronglySorted_merge_sort str_le).
  - unfold labels. rewrite merge_sort_Permutation. apply unique_str_from_NoDup.
  - intros o Ho.
    rewrite (pt_loc_cell idx labels (fun y c => pivot_cell rows (y, c)))
      by (rewrite ?Hidx, ?Hlabels; eauto).
    f_equal. apply pivot_cell_elem; [by rewrite Hrows|].
    unfold rows. apply list_elem_of_fmap. by exists o.
  - intros y c Hyin Hcin Hnone.
    rewrite (pt_loc_cell idx labels (fun y c => pivot_cell rows (y, c))) by done.
    f_equal. apply pivot_cell_absent. rewrite Hrows.
    intros (o & [= -> ->] & Ho)%list_elem_of_fmap. by apply (Hnone o).
Qed.

Lemma trend_table_holds_every_value_witness :
  exists t,
    pivot (metric_table "Population" Scenario.population) "Year" "Country" "Population"
    = Ok t
    /\ StronglySorted Z.lt (pt_index t)
    /\ (forall y, y ∈ pt_index t
                  <-> exists o, o ∈ Scenario.population /\ dt_year (obs_date o) = y)
    /\ StronglySorted str_le (pt_columns t)
    /\ NoDup (pt_columns t)
    /\ (forall c, c ∈ pt_columns t
                  <-> exists o, o ∈ Scenario.population /\ obs_country o = c)
    /\ (forall o, o ∈ Scenario.population ->
          pt_loc t (dt_year (obs_date o)) (obs_country o) = Some (obs_value o))
    /\ (forall y c, y ∈ pt_index t -> c ∈ pt_columns t ->
          (forall o, o ∈ Scenario.population ->
             ~ (dt_year (obs_date o) = y /\ obs_country o = c)) ->
          pt_loc t y c = Some PrimFloat.nan).
Proof.
  apply (trend_table_holds_every_value "Population" "SP.POP.TOTL" Scenario.population).
  - reflexivity.
  - apply (bool_decide_unpack _). vm_compute. exact I.
Defined.

(** ** The whole script, lines 85-211 *)

Lemma run_returns (w : World) (iso_map : list (string * string)) (side : Sidebar)
    (fs : FileSystem) :
  value (run w iso_map side fs) = Ok tt.
Proof.
  rewrite run_main. unfold main.
  destruct (_ || _)%bool; [done|].
  apply for_each_one_metric. intros name. apply selected_in_catalog.
Qed.

Lemma existsb_eqb_elem (d : string) (options : list string) :
  existsb (String.eqb d) options = true <-> d ∈ options.
Proof.
  rewrite existsb_exists. split.
  - intros (x & Hx%list_elem_of_In & ->%String.eqb_eq). done.
  - intros Hd. exists d. split; [by apply list_elem_of_In|apply String.eqb_refl].
Qed.

Lemma multiselect_default_ok (options defaults : list string) :
  multiselect_default options defaults = Ok tt <-> Forall (fun d => d ∈ options) defaults.
Proof.
  unfold multiselect_default.
  destruct (forallb _ defaults) eqn:Hall.
  - split; [|done]. intros _. apply Forall_forall. intros d Hd.
    rewrite forallb_forall in Hall. apply existsb_eqb_elem, Hall.
    by apply list_elem_of_In.
  - split; [done|]. intros Hd. exfalso.
    assert (forallb (fun d => existsb (String.eqb d) options) defaults = true);
      [|congruence].
    apply forallb_forall. intros d Hin%list_elem_of_In.
    rewrite Forall_forall in Hd. by apply existsb_eqb_elem, Hd.
Qed.

Lemma all_countries_elem (country_list : list Country) (name : string) :
  name ∈ dict_keys (iso_map_of country_list) <-> name ∈ map country_name country_list.
Proof.
  unfold iso_map_of. rewrite iso_map_fold_keys, elem_of_app, unique_str_from_elem.
  cbn [dict_keys map]. rewrite elem_of_nil. tauto.
Qed.

Lemma app_run (w : World) (host : list string -> Sidebar) (country_list : list Country)
    (fs : FileSystem) :
  wbdata_get_country w = Ok country_list ->
  app w host fs
  = if decide ("Pakistan" ∈ map country_name country_list
               /\ "India" ∈ map country_name country_list)
    then run w (iso_map_of country_list) (host (dict_keys (iso_map_of country_list))) fs
    else mk_Outcome (Raise "Every Multiselect default value must exist in options") fs [].
Proof.
  intros Hc. unfold app. rewrite bind_lift, Hc, bind_lift.
  destruct (multiselect_default (dict_keys (iso_map_of country_list))
              ["Pakistan"; "India"]) as [[]|e] eqn:Hdef.
  - apply multiselect_default_ok in Hdef.
    rewrite decide_True; [by rewrite bind_lift|].
    rewrite !Forall_cons, !all_countries_elem in Hdef. tauto.
  - rewrite decide_False.
    + unfold multiselect_default in Hdef.
      destruct (forallb _ _); [done|]. by injection Hdef as <-.
    + intros [HP HI].
      assert (multiselect_default (dict_keys (iso_map_of country_list))
                ["Pakistan"; "India"] = Ok tt) as Hok; [|congruence].
      apply multiselect_default_ok. rewrite !Forall_cons, !all_countries_elem.
      by split_and!.
Qed.

(** X16. Lines 85-211: of the library calls of these lines, only two can
    end the script with an exception, and both stand before the purge:
    the country lookup of line 85, and the country selector of line 92,
    which refuses its defaults when the provider's country list has no
    entry named Pakistan or none named India.  In both cases no file is
    removed and nothing is shown.  Otherwise lines 101-211 end normally
    whatever the selections are and whatever the data request, plotly,
    kaleido, moviepy and the display calls inside the [try] do: their
    exceptions are caught on line 210.  The purge and the messages of
    [st.warning] and [st.error] are taken not to fail. *)
Theorem what_can_abort_the_script (w : World) (host : list string -> Sidebar)
    (fs : FileSystem) :
  match wbdata_get_country w with
  | Raise e => app w host fs = mk_Outcome (Raise e) fs []
  | Ok country_list =>
      ("Pakistan" ∈ map country_name country_list ->
       "India" ∈ map country_name country_list ->
       value (app w host fs) = Ok tt)
      /\ (~ ("Pakistan" ∈ map country_name country_list
             /\ "India" ∈ map country_name country_list) ->
          exists e, app w host fs = mk_Outcome (Raise e) fs [])
  end.
Proof.
  destruct (wbdata_get_country w) as [country_list|e] eqn:Hc.
  - rewrite (app_run _ _ _ _ Hc). split.
    + intros HP HI. rewrite decide_True by done. apply run_returns.
    + intros Hnot. rewrite decide_False by done. eauto.
  - unfold app. by rewrite bind_lift, Hc.
Qed.

(** X17. Lines 85-87, 92 and 112-122: when the selected countries are
    among the options the selector was given, every request to the
    provider lists, for each selected country in selection order, the id
    of the last entry of the provider's country list that carries the
    selected name. *)
Theorem requests_carry_the_directory_ids (w : World) (host : list string -> Sidebar)
    (country_list : list Country) (fs : FileSystem) :
  wbdata_get_country w = Ok country_list ->
  Forall (fun c => c ∈ dict_keys (iso_map_of country_list))
    (selected_countries (host (dict_keys (iso_map_of country_list)))) ->
  Forall (fun ev => forall indicators countries range,
            ev = ev_get_dataframe indicators countries range ->
            Forall2 (fun c id =>
                       exists x, last (filter (fun x => country_name x = c) country_list)
                                 = Some x
                                 /\ country_id x = id)
              (selected_countries (host (dict_keys (iso_map_of country_list))))
              countries)
    (trace (app w host fs)).
Proof.
  intros Hc Hsel. rewrite (app_run _ _ _ _ Hc).
  case_decide; [|constructor].
  set (iso_map := iso_map_of country_list) in *.
  set (side := host (dict_keys iso_map)) in *.
  apply Forall_forall. intros ev Hev%run_events indicators countries range ->.
  destruct Hev as [[=]|(name & code & _ & _ & _ & -> & _)].
  eapply Forall2_impl; [by apply omap_dict_get_known|].
  intros c id Hget. unfold iso_map, iso_map_of in Hget.
  rewrite iso_map_fold_get in Hget.
  destruct (last _) as [x|]; [|done]. injection Hget as <-. eauto.
Qed.

Lemma requests_carry_the_directory_ids_witness :
  Forall (fun ev => forall indicators countries range,
            ev = ev_get_dataframe indicators countries range ->
            Forall2 (fun c id =>
                       exists x, last (filter (fun x => country_name x = c)
                                         Scenario.country_list) = Some x
                                 /\ country_id x = id)
              (selected_countries
                 ((fun _ => Scenario.side_population)
                    (dict_keys (iso_map_of Scenario.country_list))))
              countries)
    (trace (app Scenario.world (fun _ => Scenario.side_population) Scenario.stale)).
Proof.
  apply (requests_carry_the_directory_ids Scenario.world
           (fun _ => Scenario.side_population) Scenario.country_list Scenario.stale).
  - reflexivity.
  - apply (bool_decide_unpack _). vm_compute. exact I.
Defined.

(** ** The normalisation of an arbitrary frame, lines 123-125 *)





Lemma columns_dropna (df : DataFrame) : columns (dropna df) = columns df.
Proof.
  unfold dropna, df_mask, columns. rewrite map_map. done.
Qed.








Lemma df_getitem_mask (mask : list bool) (df : DataFrame) (label : string) :
  df_getitem (df_mask mask df) label
  = rbind (df_getitem df label) (fun s => Ok (series_mask mask s)).
Proof.
  unfold df_mask. induction df as [|[l s] df IH]; [done|].
  cbn [map fst snd df_getitem]. by destruct (String.eqb l label).
Qed.




(** ** The order of the artifacts, lines 162-205 *)

Lemma omap_none {A B} (f : A -> option B) (l : list A) :
  Forall (fun x => f x = None) l -> omap f l = [].
Proof. induction 1 as [|x l Hx _ IH]; [done|]. cbn. by rewrite Hx. Qed.

Lemma omap_prepend_none {A B} (f : Event -> option B) (ev : Event) (o : Outcome A) :
  f ev = None -> omap f (trace (prepend [ev] o)) = omap f (trace o).
Proof. intros Hev. cbn [prepend trace]. rewrite omap_app. cbn. by rewrite Hev. Qed.

Lemma omap_prepend_some {A B} (f : Event -> option B) (ev : Event) (o : Outcome A)
    (b : B) :
  f ev = Some b -> omap f (trace (prepend [ev] o)) = b :: omap f (trace o).
Proof. intros Hev. cbn [prepend trace]. rewrite omap_app. cbn. by rewrite Hev. Qed.

Lemma frame_events_files (code : string) (rs : list (Z * Figure * bytes)) :
  omap event_file (frame_events code rs)
  = map (frame_path code) (map (fun r => fst (fst r)) rs).
Proof.
  induction rs as [|r rs IH]; [done|].
  cbn [frame_events map omap list_omap event_file]. f_equal. apply IH.
Qed.

Lemma read_files_pure (sequence : list path) (fs : FileSystem) :
  files (read_files sequence fs) = fs /\ trace (read_files sequence fs) = [].
Proof.
  induction sequence as [|file rest IH]; [done|].
  cbn [read_files]. unfold bind, read_file. destruct IH as [Hf Ht].
  destruct (fs !! file) as [data|]; cbn; [|done].
  destruct (read_files rest fs) as [[more|e] fs' t]; cbn in *; subst; done.
Qed.

Lemma downloads_write_nothing (w : World) (code : string) (years : list Z)
    (frame_paths : list path) (gif_p mp4_p : path) (df : DataFrame) (fs : FileSystem) :
  omap event_file
    (trace ((offer_downloads w code years frame_paths gif_p mp4_p ;;
             st_show w (ev_expander "Show raw data") ;;
             st_show w (ev_dataframe df)) fs)) = [].
Proof.
  apply omap_none. revert fs.
  change (emits (fun ev => event_file ev = None)
            (offer_downloads w code years frame_paths gif_p mp4_p ;;
             st_show w (ev_expander "Show raw data") ;;
             st_show w (ev_dataframe df))).
  repeat first
    [ apply emits_bind; [|intros ?]
    | apply emits_lift
    | apply emits_read
    | by apply emits_show
    | progress unfold offer_downloads ].
Qed.

Section Order.
Context (w : World) (side : Sidebar) (name code : string) (df : DataFrame).

(** What has been written and offered so far fits the order of lines
    178-205. *)
Let fits (expected : list path) (o : Outcome unit) : Prop :=
  omap event_file (trace o) `prefix_of` expected
  /\ (omap event_download (trace o) <> [] -> omap event_file (trace o) = expected).

Lemma fits_raise (expected : list path) (e : string) (fs : FileSystem) :
  fits expected (mk_Outcome (Raise e) fs []).
Proof. split; [apply prefix_nil|done]. Qed.

Lemma fits_quiet (expected : list path) (ev : Event) (o : Outcome unit) :
  event_file ev = None -> event_download ev = None ->
  fits expected o -> fits expected (prepend [ev] o).
Proof.
  intros Hf Hd [Hp Hdl]. unfold fits.
  by rewrite (omap_prepend_none _ _ _ Hf), (omap_prepend_none _ _ _ Hd).
Qed.

Lemma fits_write (expected : list path) (ev : Event) (p : path) (o : Outcome unit) :
  event_file ev = Some p -> event_download ev = None ->
  fits expected o -> fits (p :: expected) (prepend [ev] o).
Proof.
  intros Hf Hd [Hp Hdl]. unfold fits.
  rewrite (omap_prepend_some _ _ _ _ Hf), (omap_prepend_none _ _ _ Hd). split.
  - by apply (prefix_app [p]).
  - intros H. f_equal. by apply Hdl.
Qed.

Lemma fits_all (ev : Event) (o : Outcome unit) :
  omap event_file (trace o) = [] -> fits [] o.
Proof. intros H. unfold fits. rewrite H. split; [apply prefix_nil|done]. Qed.

Lemma after_the_loop_fits (years : list Z) (frame_paths : list path) (rate : Z)
    (fs : FileSystem) :
  fits [gif_path code; mp4_path code]
    ((artifacts <- assemble w code frame_paths rate ;;
      offer_downloads w code years frame_paths (fst artifacts) (snd artifacts) ;;
      st_show w (ev_expander "Show raw data") ;;
      st_show w (ev_dataframe df)) fs).
Proof.
  unfold assemble. rewrite bind_assoc.
  destruct (read_files_pure frame_paths fs) as [Hf Ht].
  destruct (read_files frame_paths fs) as [[images|e] fs1 t1] eqn:Hread;
    cbn [files trace] in Hf, Ht; subst fs1 t1.
  2:{ rewrite (bind_raises _ _ _ e) by (by rewrite Hread). rewrite Hread.
      apply fits_raise. }
  rewrite (bind_outcome _ _ _ _ _ _ Hread), prepend_nil.
  rewrite bind_assoc, bind_lift.
  destruct (ImageSequenceClip_raises w images rate); cbn [check]; [apply fits_raise|].
  rewrite bind_assoc, bind_emit.
  rewrite bind_assoc, bind_lift.
  destruct (write_gif w images rate) as [gif|].
  2:{ apply fits_quiet; [done..|apply fits_raise]. }
  rewrite bind_assoc, bind_write.
  rewrite bind_assoc, bind_lift.
  destruct (write_videofile w images rate "libx264" false) as [mp4|].
  2:{ apply fits_quiet; [done..|].
      split; [by exists [mp4_path code]|done]. }
  rewrite bind_assoc, bind_write.
  set (fs3 := <[mp4_path code := mp4]> (<[gif_path code := gif]> fs)).
  rewrite (bind_outcome _ _ fs3 fs3 (gif_path code, mp4_path code) []) by done.
  rewrite prepend_nil. cbn [fst snd].
  apply fits_quiet; [done..|].
  apply (fits_write [mp4_path code]); [done..|].
  apply (fits_write []); [done..|].
  apply fits_all; [exact (ev_columns 3)|]. apply downloads_write_nothing.
Qed.

Lemma fits_after (prefix expected : list path) (t : list Event) (o : Outcome unit) :
  omap event_file t = prefix -> omap event_download t = [] ->
  fits expected o -> fits (prefix ++ expected) (prepend t o).
Proof.
  intros Hf Hd [Hp Hdl]. unfold fits. cbn [prepend trace].
  rewrite !omap_app, Hf, Hd. split.
  - by apply prefix_app.
  - rewrite app_nil_l. intros H. f_equal. by apply Hdl.
Qed.

Lemma present_fits (fs : FileSystem) :
  fits (artifacts_of code df) (present w side name code df fs).
Proof.
  unfold present.
  rewrite bind_lift.
  destruct (full_range_chart w df name (rd_value (theme side))) as [fig|];
    [|apply fits_raise].
  rewrite bind_show. destruct (st_raises w _); [apply fits_raise|].
  apply fits_quiet; [done..|].
  rewrite bind_show. destruct (st_raises w _); [apply fits_raise|].
  apply fits_quiet; [done..|].
  rewrite bind_show. destruct (st_raises w _); [apply fits_raise|].
  apply fits_quiet; [done..|].
  rewrite bind_lift. destruct (pivot df "Year" "Country" name) as [trend|];
    [|apply fits_raise].
  rewrite bind_show. destruct (st_raises w _); [apply fits_raise|].
  apply fits_quiet; [done..|].
  rewrite bind_lift.
  destruct (rbind (df_getitem df "Year") _) as [years|] eqn:Hyears; [|apply fits_raise].
  apply years_of_line_160 in Hyears as ->.
  destruct (render_frames_exact w side name code df (years_of df) [] fs)
    as (v & Hrender & Hok & Hraise).
  set (rs := rendered_frames w df name (rd_value (theme side)) (years_of df)) in *.
  destruct (decide (length rs = length (years_of df))) as [Hlen|Hlen].
  - rewrite (Hok Hlen) in Hrender.
    rewrite (bind_outcome _ _ _ _ _ _ Hrender).
    assert (map (fun r => fst (fst r)) rs = years_of df) as Hyears.
    { unfold rs. rewrite rendered_frames_years. fold rs. rewrite Hlen. apply firstn_all. }
    unfold artifacts_of. apply fits_after.
    + by rewrite frame_events_files, Hyears.
    + apply frame_events_no_download.
    + apply after_the_loop_fits.
  - destruct (Hraise Hlen) as [e ->].
    rewrite (bind_raises _ _ _ e) by (by rewrite Hrender). rewrite Hrender.
    cbn [files trace]. split.
    + cbn [trace]. rewrite frame_events_files. unfold artifacts_of.
      apply prefix_app_r. unfold rs. rewrite rendered_frames_years.
      change (map ?f ?l) with (f <$> l). rewrite fmap_take.
      apply prefix_take.
    + cbn [trace]. by rewrite frame_events_no_download.
Qed.

Lemma artifacts_of_NoDup : NoDup (artifacts_of code df).
Proof.
  unfold artifacts_of. apply NoDup_app. split_and!.
  - apply (NoDup_fmap_2 (frame_path code)), years_of_NoDup.
  - intros p (yr & -> & _)%list_elem_of_fmap Hq.
    rewrite !elem_of_cons, elem_of_nil in Hq. destruct Hq as [H|[H|[]]].
    + by apply frame_path_not_gif in H.
    + by apply frame_path_not_mp4 in H.
  - apply NoDup_cons. split; [|apply NoDup_singleton].
    intros H%list_elem_of_singleton. by apply gif_path_not_mp4 in H.
Qed.

End Order.

(** X19. Lines 162-205: the files of a metric are written in one order,
    the frames by ascending year, then the GIF, then the MP4, and each
    at most once; what has been written when the handling of the metric
    ends is an initial part of that list.  A download button is shown
    only after the whole list has been written, and a handling that ends
    normally has written the whole list. *)
Theorem artifacts_are_written_in_order (w : World) (side : Sidebar)
    (name code : string) (df : DataFrame) (fs : FileSystem) :
  let o := present w side name code df fs in
  omap event_file (trace o)
    `prefix_of` map (frame_path code) (years_of df) ++ [gif_path code; mp4_path code]
  /\ NoDup (omap event_file (trace o))
  /\ (omap event_download (trace o) <> [] ->
      omap event_file (trace o)
      = map (frame_path code) (years_of df) ++ [gif_path code; mp4_path code])
  /\ (value o = Ok tt ->
      omap event_file (trace o)
      = map (frame_path code) (years_of df) ++ [gif_path code; mp4_path code]).
Proof.
  intros o. destruct (present_fits w side name code df fs) as [Hp Hd].
  fold o in Hp, Hd. split_and!; [done| |done|].
  - destruct Hp as [k Hk]. pose proof (artifacts_of_NoDup code df) as Hnd.
    rewrite Hk in Hnd. by apply NoDup_app in Hnd as [? _].
  - intros Hok.
    destruct (present_complete w side name code df fs Hok)
      as (fig & trend & gif & mp4 & ly & lf & lp & _ & _ & Hyears & _ & _ & _ & _ & Heq).
    unfold o. rewrite Heq. cbn [trace]. unfold complete_trace.
    rewrite !omap_app, frame_events_files, Hyears. done.
Qed.

(** ** The artifacts of different metrics *)

Lemma catalog_codes_apart (n1 n2 c1 c2 s1 s2 : string) :
  dict_get metrics n1 = Some c1 -> dict_get metrics n2 = Some c2 -> n1 <> n2 ->
  c1 +:+ s1 <> c2 +:+ s2.
Proof.
  unfold metrics. cbn [dict_get]. intros H1 H2 Hne H.
  repeat match type of H1 with
         | (if String.eqb ?a ?b then _ else _) = _ =>
             destruct (String.eqb_spec a b)
         end;
  repeat match type of H2 with
         | (if String.eqb ?a ?b then _ else _) = _ =>
             destruct (String.eqb_spec a b)
         end; try discriminate; simplify_eq; cbv [String.append] in H; discriminate.
Qed.

Lemma artifacts_apart (n1 n2 c1 c2 : string) (p : path) :
  dict_get metrics n1 = Some c1 -> dict_get metrics n2 = Some c2 -> n1 <> n2 ->
  artifact_of c1 p -> artifact_of c2 p -> False.
Proof.
  intros H1 H2 Hne Hp1 Hp2.
  unfold artifact_of, frame_path, gif_path, mp4_path, os_path_join in *.
  destruct Hp1 as [[y1 ->]|[->| ->]]; destruct Hp2 as [[y2 H]|[H|H]];
    injection H as H; by eapply (catalog_codes_apart n1 n2).
Qed.

Lemma artifacts_of_elem (code : string) (df : DataFrame) (p : path) :
  p ∈ artifacts_of code df -> artifact_of code p.
Proof.
  unfold artifacts_of, artifact_of. rewrite elem_of_app, !elem_of_cons, elem_of_nil.
  intros [(yr & -> & _)%list_elem_of_fmap|[->|[->|[]]]]; eauto.
Qed.

Lemma metric_writes (w : World) (side : Sidebar) (iso_list : list string)
    (name code : string) :
  dict_get metrics name = Some code ->
  NoDup (omap event_file (metric_trace w side iso_list name))
  /\ Forall (artifact_of code) (omap event_file (metric_trace w side iso_list name)).
Proof.
  intros Hcode. unfold metric_trace. rewrite (one_metric_cases _ _ _ _ _ _ Hcode).
  rewrite (omap_prepend_none event_file) by done.
  destruct (fetched w code name iso_list) as [df|e]; [|split; constructor].
  destruct (df_empty df); [split; constructor|].
  destruct (present_fits w side name code df ∅) as [[k Hk] _].
  assert (omap event_file
            (trace (let o := present w side name code df ∅ in
                    match value o with
                    | Ok _ => o
                    | Raise e => mk_Outcome (Ok tt) (files o) (trace o ++ [error_event name e])
                    end))
          = omap event_file (trace (present w side name code df ∅))) as ->.
  { cbv zeta. destruct (value (present w side name code df ∅)); [done|].
    cbn [trace]. by rewrite omap_app, app_nil_r. }
  pose proof (artifacts_of_NoDup code df) as Hnd. rewrite Hk in Hnd.
  apply NoDup_app in Hnd as [Hnd _]. split; [done|].
  apply Forall_forall. intros p Hp. apply (artifacts_of_elem code df).
  rewrite Hk. apply elem_of_app. by left.
Qed.

Lemma run_writes (w : World) (side : Sidebar) (iso_list : list string)
    (names : list string) :
  NoDup names ->
  (forall n, n ∈ names -> exists code, dict_get metrics n = Some code) ->
  NoDup (omap event_file (flat_map (metric_trace w side iso_list) names))
  /\ Forall (fun p => exists n code, n ∈ names /\ dict_get metrics n = Some code
                                     /\ artifact_of code p)
       (omap event_file (flat_map (metric_trace w side iso_list) names)).
Proof.
  induction names as [|n names IH]; intros Hnd Hcat; [split; constructor|].
  apply NoDup_cons in Hnd as [Hn Hnd].
  destruct IH as [IHnd IHall]; [done|intros ? ?; apply Hcat; by right|].
  destruct (Hcat n) as [code Hcode]; [by left|].
  destruct (metric_writes w side iso_list n code Hcode) as [Hwn Hwa].
  cbn [flat_map]. rewrite omap_app. rewrite Forall_forall in Hwa, IHall. split.
  - apply NoDup_app. split_and!; [done| |done].
    intros p Hp Hp'. destruct (IHall p Hp') as (n' & code' & Hn' & Hcode' & Hart).
    apply (artifacts_apart n n' code code' p); auto. by intros ->.
  - apply Forall_app. split; apply Forall_forall; intros p Hp.
    + exists n, code. split_and!; [by left|done|by apply Hwa].
    + destruct (IHall p Hp) as (n' & code' & Hn' & Hcode' & Hart).
      exists n', code'. split_and!; [by right|done..].
Qed.

(** X20. Lines 114-186: when the selected metrics are distinct, no file
    is written twice during a run: the frames of a metric differ by
    their year, its GIF and MP4 differ from its frames and from each
    other, and the file names of two metrics of the catalog start with
    different indicator codes.  Every file a run writes belongs to a
    selected metric and is named after its indicator code. *)
Theorem no_file_is_written_twice (w : World) (iso_map : list (string * string))
    (side : Sidebar) (fs : FileSystem) :
  NoDup (ms_value (selected_metrics side)) ->
  NoDup (omap event_file (trace (run w iso_map side fs)))
  /\ Forall (fun p => exists name code,
               name ∈ ms_value (selected_metrics side)
               /\ dict_get metrics name = Some code
               /\ ((exists yr : Z, p = (FRAME_DIR, code +:+ "_" +:+ pretty yr +:+ ".png"))
                   \/ p = (FRAME_DIR, code +:+ ".gif")
                   \/ p = (FRAME_DIR, code +:+ ".mp4")))
       (omap event_file (trace (run w iso_map side fs))).
Proof.
  intros Hnd.
  destruct (decide (selected_countries side = [])) as [Hc|Hc].
  { rewrite run_main. unfold main. rewrite (bool_decide_eq_true_2 _ Hc).
    split; constructor. }
  destruct (decide (ms_value (selected_metrics side) = [])) as [Hm|Hm].
  { rewrite (run_without_metric _ _ _ _ Hm). split; constructor. }
  destruct (run_trace w iso_map side fs Hc Hm) as [_ ->].
  apply run_writes; [done|]. intros n. apply selected_in_catalog.
Qed.

Lemma no_file_is_written_twice_witness :
  NoDup (omap event_file
           (trace (run Scenario.world Scenario.iso_map Scenario.side_gdp_population
                     Scenario.stale)))
  /\ Forall (fun p => exists name code,
               name ∈ ms_value (selected_metrics Scenario.side_gdp_population)
               /\ dict_get metrics name = Some code
               /\ ((exists yr : Z, p = (FRAME_DIR, code +:+ "_" +:+ pretty yr +:+ ".png"))
                   \/ p = (FRAME_DIR, code +:+ ".gif")
                   \/ p = (FRAME_DIR, code +:+ ".mp4")))
       (omap event_file
          (trace (run Scenario.world Scenario.iso_map Scenario.side_gdp_population
                    Scenario.stale))).
Proof.
  apply (no_file_is_written_twice Scenario.world Scenario.iso_map
           Scenario.side_gdp_population Scenario.stale).
  apply (bool_decide_unpack _). vm_compute. exact I.
Defined.

(** ** Before the loop over the years, and the frames of a run *)

(** X21. Lines 131-160: when the chart cannot be built, a display call
    is refused or the pivot fails, the handling of the metric ends with
    that exception before the loop over the years: it has written no
    file and the files are as they were. *)
Theorem no_file_before_the_loop (w : World) (side : Sidebar) (name code : string)
    (df : DataFrame) (fs : FileSystem) :
  reaches_the_loop w side name df = false ->
  (exists e, value (present w side name code df fs) = Raise e)
  /\ files (present w side name code df fs) = fs
  /\ omap event_file (trace (present w side name code df fs)) = []
  /\ omap event_download (trace (present w side name code df fs)) = [].
Proof.
  unfold present, reaches_the_loop, shown.
  rewrite bind_lift.
  destruct (full_range_chart w df name (rd_value (theme side))) as [fig|]; [|by eauto].
  rewrite bind_show. destruct (st_raises w _); [by eauto|].
  rewrite bind_show. destruct (st_raises w _); [by eauto|].
  rewrite bind_show. destruct (st_raises w _); [by eauto|].
  rewrite bind_lift. destruct (pivot df "Year" "Country" name) as [trend|]; [|by eauto].
  rewrite bind_show. destruct (st_raises w _); [by eauto|].
  rewrite bind_lift.
  destruct (rbind (df_getitem df "Year") _) as [years|] eqn:Hyears; [done|by eauto].
Qed.

Lemma no_file_before_the_loop_witness :
  (exists e, value (present Scenario.world_repeated Scenario.side_population "Population"
                      "SP.POP.TOTL" (metric_table "Population" Scenario.repeated)
                      Scenario.stale) = Raise e)
  /\ files (present Scenario.world_repeated Scenario.side_population "Population"
              "SP.POP.TOTL" (metric_table "Population" Scenario.repeated)
              Scenario.stale) = Scenario.stale
  /\ omap event_file
       (trace (present Scenario.world_repeated Scenario.side_population "Population"
                 "SP.POP.TOTL" (metric_table "Population" Scenario.repeated)
                 Scenario.stale)) = []
  /\ omap event_download
       (trace (present Scenario.world_repeated Scenario.side_population "Population"
                 "SP.POP.TOTL" (metric_table "Population" Scenario.repeated)
                 Scenario.stale)) = [].
Proof.
  apply (no_file_before_the_loop Scenario.world_repeated Scenario.side_population
           "Population" "SP.POP.TOTL" (metric_table "Population" Scenario.repeated)
           Scenario.stale).
  vm_compute. reflexivity.
Defined.

Lemma take_mask_eqb (yr : Z) (ys : list Z) :
  Forall (eq yr) (take_mask (map (fun y => y =? yr) ys) ys).
Proof.
  induction ys as [|y ys IH]; [constructor|]. cbn [map take_mask].
  destruct (Z.eqb_spec y yr) as [->|]; [by constructor|done].
Qed.

Lemma year_frame_years (w : World) (df : DataFrame) (name th : string) (yr : Z)
    (f : Figure) :
  year_frame w df name th yr = Ok f ->
  title f = name +:+ " — " +:+ pretty yr
  /\ Forall (eq yr) (table_years (data_frame f)).
Proof.
  unfold year_frame. destruct (df_getitem df "Year") as [year|] eqn:Hyear; cbn; [|done].
  destruct (px_choropleth_raises w _); cbn; [done|]. intros [= <-]. cbn.
  split; [done|]. unfold table_years. rewrite df_getitem_mask, Hyear. cbn [rbind].
  destruct year as [xs|xs|xs|ys]; cbn [series_mask series_eq_int]; try constructor.
  apply take_mask_eqb.
Qed.

(** X22. Lines 162-179: a frame file holds the year its name says.
    Every image a run writes under the name [code_year.png] is rendered
    from a figure of a selected metric with that indicator code, titled
    with the metric and that year, whose rows all have that year in the
    table that was fetched for the metric. *)
Theorem a_frame_file_holds_its_year (w : World) (iso_map : list (string * string))
    (side : Sidebar) (fs : FileSystem) :
  Forall (fun ev => forall f file, ev = ev_write_image f file ->
            exists name code (yr : Z) df,
              name ∈ ms_value (selected_metrics side)
              /\ dict_get metrics name = Some code
              /\ fetched w code name (omap (dict_get iso_map) (selected_countries side))
                 = Ok df
              /\ yr ∈ table_years df
              /\ file = (FRAME_DIR, code +:+ "_" +:+ pretty yr +:+ ".png")
              /\ title f = name +:+ " — " +:+ pretty yr
              /\ Forall (eq yr) (table_years (data_frame f)))
    (trace (run w iso_map side fs)).
Proof.
  apply Forall_forall. intros ev Hev%run_events f file ->.
  destruct Hev as [[=]|(name & code & Hsel & Hcode & df & Hdf & _ & yr & Hyr & Hf & ->)].
  apply years_of_elem in Hyr.
  destruct (year_frame_years _ _ _ _ _ _ Hf) as [Htitle Hyears].
  exists name, code, yr, df. by split_and!.
Qed.
